(** * Eshop: the shopping cart and its cached totals

    A shallow embedding of the cart logic of the Eshop storefront
    ([main/models.py], [main/serializers.py], [main/views.py] and
    [api/v1/views.py]) together with the properties of its cart operations.

    Conventions of the embedding.
    - A database table is a finite map from primary key to row
      ([gmap Z row]); the primary key is the map key, so a row record holds
      only the remaining columns.  Foreign keys are stored as the key of the
      row they point to, and following one ([self.cart], [self.product]) is a
      lookup that raises [DoesNotExist] when the row is gone.
    - The lookaside cache is a finite map from the key string to the cached
      number.  Time is not modelled: an entry stays until it is deleted (the
      timeout argument of [cache.set] is recorded in the call only).  Only
      the entries of the cart code are in the map; the category list that
      [main/middleware.py] keeps under [categories_all] is no entry of a
      cart and is left out.
    - A [DecimalField] with two decimal places is an integer number of
      hundredths (a price of 100.00 is [10000]).
    - Code that can raise runs in the monad [M]: a state transformer that
      returns either a value or the exception raised, with the store as it
      was when the exception left the code (no transaction wraps a view).
    - One request runs at a time: the interleaving of concurrent requests
      is not modelled.  Integers are unbounded, as Python's are; the range
      check of the database column behind [PositiveIntegerField] is not
      modelled.  Sums and products of prices are exact: [Decimal] rounds
      only beyond 28 significant digits, which no price of ten digits and
      no quantity that a view writes (1 to 99) reaches.
    - A request is one that reaches its view: a [POST] with a valid CSRF
      token where the view asks for one.  The throttle of the API keeps its
      history under keys of its own and reads the clock; neither is part of
      the store, so whether the rate of the caller is used up is an input
      of the call. *)

From stdpp Require Import gmap strings list fin_maps pretty.
From Stdlib Require Import ZArith Lia Ascii.

Open Scope Z_scope.

(** ** Rows of [main/models.py] *)

Record Product := mkProduct {
  price : Z;
  available : bool
}.

Record Cart := mkCart {
  user : option Z;
  session_key : option string
}.

Record CartItem := mkCartItem {
  cart : Z;
  product : Z;
  quantity : Z
}.

Global Instance Product_eq_dec : EqDecision Product.
Proof. solve_decision. Defined.
Global Instance Cart_eq_dec : EqDecision Cart.
Proof. solve_decision. Defined.
Global Instance CartItem_eq_dec : EqDecision CartItem.
Proof. solve_decision. Defined.

(** [cart_item.quantity = q] on an instance in memory. *)
Definition set_quantity (q : Z) (it : CartItem) : CartItem :=
  mkCartItem (cart it) (product it) q.

(** ** The store: the three tables and the cache *)

Record Store := mkStore {
  products : gmap Z Product;
  carts : gmap Z Cart;
  items : gmap Z CartItem;
  cache : gmap string Z
}.

Definition set_carts (f : gmap Z Cart → gmap Z Cart) (s : Store) : Store :=
  mkStore (products s) (f (carts s)) (items s) (cache s).
Definition set_items (f : gmap Z CartItem → gmap Z CartItem) (s : Store) : Store :=
  mkStore (products s) (carts s) (f (items s)) (cache s).
Definition set_cache (f : gmap string Z → gmap string Z) (s : Store) : Store :=
  mkStore (products s) (carts s) (items s) (f (cache s)).

(** ** Exceptions and the monad of views *)

Inductive Exn :=
| DoesNotExist
| MultipleObjectsReturned
| Http404
| JSONDecodeError
| ValueError
| TypeError
| AttributeError
| KeyError
| NameError.

Inductive result (A : Type) :=
| Ok (a : A)
| Raise (e : Exn).
Arguments Ok {A} a.
Arguments Raise {A} e.

Definition M (A : Type) : Type := Store → result A * Store.

Global Instance M_ret : MRet M := λ A a s, (Ok a, s).
Global Instance M_bind : MBind M := λ A B f m s,
  match m s with
  | (Ok a, s') => f a s'
  | (Raise e, s') => (Raise e, s')
  end.

Definition raise {A} (e : Exn) : M A := λ s, (Raise e, s).

(** [try: m except e: h e] where [h] decides which exceptions it handles
    (it re-raises the others). *)
Definition try_except {A} (m : M A) (h : Exn → M A) : M A := λ s,
  match m s with
  | (Ok a, s') => (Ok a, s')
  | (Raise e, s') => h e s'
  end.

Definition get_store : M Store := λ s, (Ok s, s).
Definition modify (f : Store → Store) : M unit := λ s, (Ok tt, f s).

Fixpoint mapM {A B} (f : A → M B) (l : list A) : M (list B) :=
  match l with
  | [] => mret []
  | x :: l' => y ← f x; ys ← mapM f l'; mret (y :: ys)
  end.

(** Python's built-in [sum]: a left fold from [0]. *)
Definition py_sum (l : list Z) : Z := fold_left Z.add l 0.

(** ** [django.core.cache.cache] *)

Definition cache_get (key : string) : M (option Z) :=
  s ← get_store; mret (cache s !! key).
Definition cache_set (key : string) (value : Z) (timeout : Z) : M unit :=
  modify (set_cache (<[key := value]>)).
Definition cache_delete (key : string) : M unit :=
  modify (set_cache (delete key)).

(** The three key families the code formats with an f-string. *)
Definition cart_total_key (id : Z) : string := "cart_total_" +:+ pretty id.
Definition cart_items_key (id : Z) : string := "cart_items_" +:+ pretty id.
Definition cart_key (id : Z) : string := "cart_" +:+ pretty id.

(** ** Querysets *)

(** [Product.objects.get(id=product_id, available=True)] *)
Definition Product_get_available (product_id : Z) : M Product :=
  s ← get_store;
  match products s !! product_id with
  | Some p => if available p then mret p else raise DoesNotExist
  | None => raise DoesNotExist
  end.

(** [self.product] on a cart item: the row the foreign key points to. *)
Definition CartItem_product (it : CartItem) : M Product :=
  s ← get_store;
  match products s !! product it with
  | Some p => mret p
  | None => raise DoesNotExist
  end.

(** [self.cart] on a cart item; the result is the cart's primary key. *)
Definition CartItem_cart (it : CartItem) : M Z :=
  s ← get_store;
  match carts s !! cart it with
  | Some _ => mret (cart it)
  | None => raise DoesNotExist
  end.

(** [cart.items.all()]: the rows of the related manager [items]. *)
Definition in_cart (id : Z) (kv : Z * CartItem) : Prop := cart kv.2 = id.
Global Instance in_cart_dec id kv : Decision (in_cart id kv).
Proof. unfold in_cart. apply _. Defined.

Definition Cart_items (id : Z) (s : Store) : gmap Z CartItem :=
  filter (in_cart id) (items s).
Definition Cart_items_all (id : Z) : M (list (Z * CartItem)) :=
  s ← get_store; mret (map_to_list (Cart_items id s)).

(** [CartItem.objects.filter(cart=cart, product=product)] *)
Definition is_line (c p : Z) (kv : Z * CartItem) : Prop :=
  cart kv.2 = c ∧ product kv.2 = p.
Global Instance is_line_dec c p kv : Decision (is_line c p kv).
Proof. unfold is_line. apply _. Defined.

Definition CartItem_filter (c p : Z) (s : Store) : gmap Z CartItem :=
  filter (is_line c p) (items s).

(** ** [class Cart] *)

(** [Cart.clear_cache] *)
Definition Cart_clear_cache (id : Z) : M unit :=
  cache_delete (cart_total_key id);;
  cache_delete (cart_items_key id).

(** [CartItem.total_price] *)
Definition CartItem_total_price (it : CartItem) : M Z :=
  p ← CartItem_product it;
  mret (quantity it * price p).

(** [Cart.total_price] *)
Definition Cart_total_price (id : Z) : M Z :=
  let cache_key := cart_total_key id in
  total ← cache_get cache_key;
  match total with
  | None =>
      rows ← Cart_items_all id;
      line_totals ← mapM (λ kv, CartItem_total_price kv.2) rows;
      let total := py_sum line_totals in
      cache_set cache_key total 300;;
      mret total
  | Some total => mret total
  end.

(** [Cart.total_items] *)
Definition Cart_total_items (id : Z) : M Z :=
  let cache_key := cart_items_key id in
  total ← cache_get cache_key;
  match total with
  | None =>
      rows ← Cart_items_all id;
      let total := py_sum ((λ kv, quantity kv.2) <$> rows) in
      cache_set cache_key total 300;;
      mret total
  | Some total => mret total
  end.

(** ** [class CartItem] *)

(** [CartItem.save]: write the row, then clear the cache of [self.cart]. *)
Definition CartItem_save (pk : Z) (it : CartItem) : M unit :=
  modify (set_items (<[pk := it]>));;
  c ← CartItem_cart it;
  Cart_clear_cache c.

(** [CartItem.delete]: [self.cart] is read before the row is removed. *)
Definition CartItem_delete (pk : Z) (it : CartItem) : M unit :=
  c ← CartItem_cart it;
  modify (set_items (delete pk));;
  Cart_clear_cache c.

(** [queryset.delete()] on [cart.items.all()]: one bulk statement.  The
    queryset removes the rows itself; it does not call [CartItem.delete] on
    them, and the application connects no deletion signal, so nothing else
    runs. *)
Definition not_in_cart (id : Z) (kv : Z * CartItem) : Prop := cart kv.2 ≠ id.
Global Instance not_in_cart_dec id kv : Decision (not_in_cart id kv).
Proof. unfold not_in_cart. apply _. Defined.

Definition Cart_items_all_delete (id : Z) : M unit :=
  modify (set_items (filter (not_in_cart id))).

(** The primary key the database gives a new row: one not in the table. *)
Definition next_pk {A} (table : gmap Z A) : Z := fresh (dom table).

(** [CartItem.objects.create(cart=c, product=p, quantity=q)] *)
Definition CartItem_create (c p q : Z) : M (Z * CartItem) :=
  s ← get_store;
  let pk := next_pk (items s) in
  let it := mkCartItem c p q in
  CartItem_save pk it;;
  mret (pk, it).

(** [CartItem.objects.get_or_create(cart=c, product=p,
    defaults={'quantity': q})] *)
Definition CartItem_get_or_create (c p q : Z) : M (Z * CartItem * bool) :=
  s ← get_store;
  match map_to_list (CartItem_filter c p s) with
  | [] => '(pk, it) ← CartItem_create c p q; mret (pk, it, true)
  | [(pk, it)] => mret (pk, it, false)
  | _ => raise MultipleObjectsReturned
  end.

(** [Cart.objects.get_or_create(user=u)] and
    [Cart.objects.get_or_create(session_key=k)]; [Cart.save] is the stock
    one. *)
Definition Cart_create (c : Cart) : M Z :=
  s ← get_store;
  let pk := next_pk (carts s) in
  modify (set_carts (<[pk := c]>));;
  mret pk.

Definition Cart_get_or_create (P : Z * Cart → Prop) `{∀ kv, Decision (P kv)}
    (new : Cart) : M (Z * bool) :=
  s ← get_store;
  match map_to_list (filter P (carts s)) with
  | [] => pk ← Cart_create new; mret (pk, true)
  | [(pk, _)] => mret (pk, false)
  | _ => raise MultipleObjectsReturned
  end.

Definition has_user (uid : Z) (kv : Z * Cart) : Prop := user kv.2 = Some uid.
Global Instance has_user_dec uid kv : Decision (has_user uid kv).
Proof. unfold has_user. apply _. Defined.

Definition has_session (k : string) (kv : Z * Cart) : Prop :=
  session_key kv.2 = Some k.
Global Instance has_session_dec k kv : Decision (has_session k kv).
Proof. unfold has_session. apply _. Defined.

(** ** [main/serializers.py] *)

(** A field of the submitted data, by what an [IntegerField] makes of it. *)
Inductive Field :=
| Missing
| NotAnInteger
| Int (z : Z).

Inductive ValidationError :=
| Required                  (* the field is required *)
| InvalidInteger            (* a valid integer is required *)
| QuantityMustBePositive    (* "Количество должно быть больше нуля" *)
| MaxQuantity99.            (* "Максимальное количество: 99" *)

(** [CartItemSerializer.validate_quantity] *)
Definition CartItemSerializer_validate_quantity (value : Z)
    : ValidationError + Z :=
  if value <? 1 then inl QuantityMustBePositive
  else if 99 <? value then inl MaxQuantity99
  else inr value.

(** [CartItemCreateSerializer.validate_quantity] *)
Definition CartItemCreateSerializer_validate_quantity (value : Z)
    : ValidationError + Z :=
  if value <? 1 then inl QuantityMustBePositive
  else if 99 <? value then inl MaxQuantity99
  else inr value.

(** The submitted data of the two cart-item serializers, and what
    [validated_data] holds once [is_valid()] has passed.  [quantity] has
    the model's default and so may be left out, in which case
    [validated_data] has no such key.  [CartItemSerializer] declares
    [product_id] as a write-only integer field, which is required unless
    the update is partial. *)
Record ItemInput := mkItemInput {
  product_id : Field;
  quantity_field : Field
}.

Record Validated := mkValidated {
  validated_product_id : option Z;
  validated_quantity : option Z
}.

Definition Errors := list (string * ValidationError).

(** The validation of [CartItemSerializer]: its declared [product_id],
    then [quantity] with [validate_quantity]. *)
Definition run_validation (validate_quantity : Z → ValidationError + Z)
    (partial : bool) (data : ItemInput) : Errors + Validated :=
  let product_result : ValidationError + option Z :=
    match product_id data with
    | Missing => if partial then inr None else inl Required
    | NotAnInteger => inl InvalidInteger
    | Int z => inr (Some z)
    end in
  let quantity_result : ValidationError + option Z :=
    match quantity_field data with
    | Missing => inr None
    | NotAnInteger => inl InvalidInteger
    | Int z =>
        match validate_quantity z with
        | inl e => inl e
        | inr v => inr (Some v)
        end
    end in
  match product_result, quantity_result with
  | inr p, inr q => inr (mkValidated p q)
  | inl e, inr _ => inl [("product_id", e)]
  | inr _, inl e => inl [("quantity", e)]
  | inl e1, inl e2 => inl [("product_id", e1); ("quantity", e2)]
  end.

(** [CartItemCreateSerializer(data=...).is_valid()].  The serializer
    does not declare [product_id]; it only lists the name in [Meta.fields].
    [CartItem] has no model field of that name ([product_id] is the
    attribute behind the foreign key [product]), so the [ModelSerializer]
    builds a [ReadOnlyField] for it: whatever the request submits under
    [product_id] is ignored, it is never an error, and [validated_data]
    never has the key. *)
Definition CartItemCreateSerializer_is_valid (data : ItemInput)
    : Errors + Validated :=
  match quantity_field data with
  | Missing => inr (mkValidated None None)
  | NotAnInteger => inl [("quantity", InvalidInteger)]
  | Int z =>
      match CartItemCreateSerializer_validate_quantity z with
      | inl e => inl [("quantity", e)]
      | inr v => inr (mkValidated None (Some v))
      end
  end.

(** [CartItemSerializer(instance, data=..., partial=...).is_valid()] *)
Definition CartItemSerializer_is_valid (partial : bool) (data : ItemInput)
    : Errors + Validated :=
  run_validation CartItemSerializer_validate_quantity partial data.

(** [validated_data[key]] *)
Definition getitem {A} (v : option A) : M A :=
  match v with
  | Some a => mret a
  | None => raise KeyError
  end.

(** What the serializers render. *)
Record ItemData := mkItemData {
  data_id : option Z;
  data_product : Z * Product;
  data_quantity : Z;
  data_total_price : Z
}.

Record CartData := mkCartData {
  data_cart_id : Z;
  data_user : option Z;
  data_items : list ItemData;
  data_total_items : Z;
  data_cart_total_price : Z
}.

(** [CartItemSerializer(item).data]: the nested product, then
    [get_total_price]. *)
Definition CartItemSerializer_data (pk : option Z) (it : CartItem) : M ItemData :=
  p ← CartItem_product it;
  total ← CartItem_total_price it;
  mret (mkItemData pk (product it, p) (quantity it) total).

(** [CartSerializer(cart).data]: the items, then [get_total_items] and
    [get_total_price] (the two cached properties). *)
Definition CartSerializer_data (pk : Z) (c : Cart) : M CartData :=
  rows ← Cart_items_all pk;
  rendered ← mapM (λ kv, CartItemSerializer_data (Some kv.1) kv.2) rows;
  total_items ← Cart_total_items pk;
  total_price ← Cart_total_price pk;
  mret (mkCartData pk (user c) rendered total_items total_price).

(** ** Responses *)

Inductive Message :=
| ProductNotFoundOrUnavailable  (* "Товар не найден или недоступен" *)
| ItemRemovedFromCart           (* "Товар удален из корзины" *)
| NoData                        (* "Отсутствуют данные" *)
| QuantityMustBeAboveZero       (* "Количество должно быть больше 0" *)
| MaximumQuantityIs99           (* "Максимальное количество: 99" *)
| ProductAdded (product_id : Z) (* "Товар ... добавлен в корзину" *)
| BadDataFormat                 (* "Неверный формат данных" *)
| BadQuantityValue              (* "Неверное значение количества" *)
| AddFailed                     (* "Произошла ошибка при добавлении товара" *)
| QuantityUpdated               (* "Количество обновлено" *)
| UpdateFailed                  (* "Произошла ошибка при обновлении" *)
| RemoveFailed                  (* "Произошла ошибка при удалении" *)
| CartCleared                   (* "Корзина очищена" *)
| ClearFailed.                  (* "Произошла ошибка при очистке корзины" *)

Inductive Payload :=
| CartPayload (d : CartData)
| ItemPayload (d : ItemData)
| SummaryPayload (total_items total_price : Z) (items_count : nat)
| MessagePayload (m : Message)             (* {'message': m} *)
| ErrorPayload (m : Message)               (* {'error': m} *)
| ErrorsPayload (e : Errors)               (* serializer.errors *)
| JsonPayload (success : bool) (m : Message) (extra : option (string * Z))
| NotFoundPayload
| ForbiddenPayload
| ThrottledPayload
| ServerErrorPayload.

Record Response := mkResponse {
  status : Z;
  payload : Payload
}.

Definition HTTP_200_OK : Z := 200.
Definition HTTP_400_BAD_REQUEST : Z := 400.
Definition HTTP_403_FORBIDDEN : Z := 403.
Definition HTTP_404_NOT_FOUND : Z := 404.
Definition HTTP_429_TOO_MANY_REQUESTS : Z := 429.
Definition HTTP_500_INTERNAL_SERVER_ERROR : Z := 500.

(** ** [api/v1/views.py]

    A view body is a computation in [M]; [u] is the authenticated user of
    the request, if any, and [pk] the primary key of the URL. *)

(** [CartViewSet.get_queryset] *)
Definition CartViewSet_get_queryset (u : option Z) (s : Store) : gmap Z Cart :=
  match u with
  | Some uid => filter (has_user uid) (carts s)
  | None => ∅
  end.

(** [self.get_object()] of [CartViewSet]: the row of the queryset with the
    primary key of the URL, or [Http404]. *)
Definition CartViewSet_get_object (u : option Z) (pk : Z) : M Cart :=
  s ← get_store;
  match CartViewSet_get_queryset u s !! pk with
  | Some c => mret c
  | None => raise Http404
  end.

(** The merge of a repeated add, as both add views write it:
    [cart_item.quantity += quantity], clamp at 99, [cart_item.save()]. *)
Definition merge_quantity (item_pk : Z) (cart_item : CartItem) (requested : Z)
    : M unit :=
  let cart_item := set_quantity (quantity cart_item + requested) cart_item in
  let cart_item :=
    if 99 <? quantity cart_item then set_quantity 99 cart_item else cart_item in
  CartItem_save item_pk cart_item.

(** [CartViewSet.add_item] *)
Definition CartViewSet_add_item (u : option Z) (pk : Z) (data : ItemInput)
    : M Response :=
  c ← CartViewSet_get_object u pk;
  match CartItemCreateSerializer_is_valid data with
  | inr validated =>
      wanted ← getitem (validated_product_id validated);
      requested ← getitem (validated_quantity validated);
      found ← try_except
                 (p ← Product_get_available wanted; mret (Some p))
                 (λ e, match e with
                       | DoesNotExist => mret None
                       | _ => raise e
                       end);
      match found with
      | None =>
          mret (mkResponse HTTP_404_NOT_FOUND
                  (ErrorPayload ProductNotFoundOrUnavailable))
      | Some _ =>
          '(item_pk, cart_item, created) ←
            CartItem_get_or_create pk wanted requested;
          (if created : bool then mret tt
           else merge_quantity item_pk cart_item requested);;
          d ← CartSerializer_data pk c;
          mret (mkResponse HTTP_200_OK (CartPayload d))
      end
  | inl errors =>
      mret (mkResponse HTTP_400_BAD_REQUEST (ErrorsPayload errors))
  end.

(** [CartViewSet.clear] *)
Definition CartViewSet_clear (u : option Z) (pk : Z) : M Response :=
  c ← CartViewSet_get_object u pk;
  Cart_items_all_delete pk;;
  d ← CartSerializer_data pk c;
  mret (mkResponse HTTP_200_OK (CartPayload d)).

(** [CartViewSet.summary] *)
Definition CartViewSet_summary (u : option Z) (pk : Z) : M Response :=
  c ← CartViewSet_get_object u pk;
  total_items ← Cart_total_items pk;
  total_price ← Cart_total_price pk;
  rows ← Cart_items_all pk;
  mret (mkResponse HTTP_200_OK
          (SummaryPayload total_items total_price (length rows))).

(** [CartItemViewSet.get_queryset]:
    [CartItem.objects.filter(cart__user=self.request.user)] *)
Definition owned_by (s : Store) (uid : Z) (kv : Z * CartItem) : Prop :=
  carts s !! cart kv.2 ≫= user = Some uid.
Global Instance owned_by_dec s uid kv : Decision (owned_by s uid kv).
Proof. unfold owned_by. apply _. Defined.

Definition CartItemViewSet_get_queryset (u : option Z) (s : Store)
    : gmap Z CartItem :=
  match u with
  | Some uid => filter (owned_by s uid) (items s)
  | None => ∅
  end.

Definition CartItemViewSet_get_object (u : option Z) (pk : Z) : M CartItem :=
  s ← get_store;
  match CartItemViewSet_get_queryset u s !! pk with
  | Some it => mret it
  | None => raise Http404
  end.

(** [CartItemViewSet.perform_update].  The result is the instance as it is
    in memory afterwards: its primary key is [None] once it was deleted. *)
Definition CartItemViewSet_perform_update (pk : Z) (instance : CartItem)
    (validated : Validated) : M (option Z * CartItem) :=
  let requested := default (quantity instance) (validated_quantity validated) in
  if requested <? 1 then
    CartItem_delete pk instance;;
    mret (None, instance)
  else
    let instance := set_quantity requested instance in
    CartItem_save pk instance;;
    mret (Some pk, instance).

(** The [update] action of the model viewset ([PUT], and [PATCH] with
    [partial]): fetch the object, validate the data (a failure is the
    response 400), call [perform_update], render the instance. *)
Definition CartItemViewSet_update (u : option Z) (pk : Z) (partial : bool)
    (data : ItemInput) : M Response :=
  instance ← CartItemViewSet_get_object u pk;
  match CartItemSerializer_is_valid partial data with
  | inl errors =>
      mret (mkResponse HTTP_400_BAD_REQUEST (ErrorsPayload errors))
  | inr validated =>
      '(pk', instance') ← CartItemViewSet_perform_update pk instance validated;
      d ← CartItemSerializer_data pk' instance';
      mret (mkResponse HTTP_200_OK (ItemPayload d))
  end.

(** [CartItemViewSet.increment] *)
Definition CartItemViewSet_increment (u : option Z) (pk : Z) : M Response :=
  cart_item ← CartItemViewSet_get_object u pk;
  let cart_item := set_quantity (quantity cart_item + 1) cart_item in
  let cart_item :=
    if 99 <? quantity cart_item then set_quantity 99 cart_item else cart_item in
  CartItem_save pk cart_item;;
  d ← CartItemSerializer_data (Some pk) cart_item;
  mret (mkResponse HTTP_200_OK (ItemPayload d)).

(** [CartItemViewSet.decrement] *)
Definition CartItemViewSet_decrement (u : option Z) (pk : Z) : M Response :=
  cart_item ← CartItemViewSet_get_object u pk;
  let cart_item := set_quantity (quantity cart_item - 1) cart_item in
  if quantity cart_item <? 1 then
    CartItem_delete pk cart_item;;
    mret (mkResponse HTTP_200_OK (MessagePayload ItemRemovedFromCart))
  else
    CartItem_save pk cart_item;;
    d ← CartItemSerializer_data (Some pk) cart_item;
    mret (mkResponse HTTP_200_OK (ItemPayload d)).

(** The calls of the API and their dispatch.  The permission class of the
    settings, [IsAuthenticatedOrReadOnly], turns an anonymous caller away
    from every method but the safe ones; the throttle classes of the
    settings ([AnonRateThrottle], [UserRateThrottle]) are asked next and
    answer 429 when the rate of the caller is used up; only then the view
    runs.  An [Http404] that leaves a view is the response 404 and any other
    exception the response 500. *)
Inductive ApiCall :=
| AddItem (pk : Z) (data : ItemInput)
| Clear (pk : Z)
| Summary (pk : Z)
| Update (pk : Z) (partial : bool) (data : ItemInput)
| Increment (pk : Z)
| Decrement (pk : Z).

Definition safe_method (call : ApiCall) : bool :=
  match call with
  | Summary _ => true
  | _ => false
  end.

Definition api_view (u : option Z) (call : ApiCall) : M Response :=
  match call with
  | AddItem pk data => CartViewSet_add_item u pk data
  | Clear pk => CartViewSet_clear u pk
  | Summary pk => CartViewSet_summary u pk
  | Update pk partial data => CartItemViewSet_update u pk partial data
  | Increment pk => CartItemViewSet_increment u pk
  | Decrement pk => CartItemViewSet_decrement u pk
  end.

Definition handle_exception (m : M Response) (s : Store) : Response * Store :=
  match m s with
  | (Ok r, s') => (r, s')
  | (Raise Http404, s') => (mkResponse HTTP_404_NOT_FOUND NotFoundPayload, s')
  | (Raise _, s') =>
      (mkResponse HTTP_500_INTERNAL_SERVER_ERROR ServerErrorPayload, s')
  end.

(** [APIView.dispatch]: [check_permissions], [check_throttles], then the
    handler; [throttled] tells whether the rate of the caller is used up. *)
Definition dispatch (throttled : bool) (u : option Z) (call : ApiCall)
    (s : Store) : Response * Store :=
  if bool_decide (u = None) && negb (safe_method call) then
    (mkResponse HTTP_403_FORBIDDEN ForbiddenPayload, s)
  else if throttled then
    (mkResponse HTTP_429_TOO_MANY_REQUESTS ThrottledPayload, s)
  else handle_exception (api_view u call) s.

(** A call that the throttle lets through. *)
Definition api (u : option Z) (call : ApiCall) (s : Store) : Response * Store :=
  dispatch false u call s.

(** ** [main/views.py] *)

(** The value under ['quantity'] of the decoded body, by what [int()] makes
    of it. *)
Inductive JsonValue :=
| IntOf (z : Z)        (* [int(v)] returns [z] *)
| IntValueError        (* [int(v)] raises [ValueError]: a string that is no number *)
| IntTypeError.        (* [int(v)] raises [TypeError]: null, a list, an object *)

(** [request.body], by what [json.loads] makes of it. *)
Inductive Body :=
| EmptyBody                               (* [b''] *)
| MalformedBody                           (* [json.loads] raises [JSONDecodeError] *)
| NotAnObject                             (* decodes, but has no [.get] *)
| JsonObject (quantity_entry : option JsonValue).

Record HttpRequest := mkHttpRequest {
  request_user : option Z;               (* [request.user], when authenticated *)
  request_session_key : option string;   (* [request.session.session_key] *)
  request_new_session_key : string;      (* the key [session.create()] would draw *)
  request_body : Body
}.

(** [not request.body] *)
Definition body_is_empty (b : Body) : bool :=
  match b with
  | EmptyBody => true
  | _ => false
  end.

Definition json_loads (b : Body) : M (option JsonValue) :=
  match b with
  | EmptyBody => raise JSONDecodeError
  | MalformedBody => raise JSONDecodeError
  | NotAnObject => raise AttributeError
  | JsonObject entry => mret entry
  end.

(** [int(data.get('quantity', 1))] *)
Definition int_quantity (entry : option JsonValue) : M Z :=
  match entry with
  | None => mret 1
  | Some (IntOf z) => mret z
  | Some IntValueError => raise ValueError
  | Some IntTypeError => raise TypeError
  end.

(** [get_object_or_404(Product, id=product_id, available=True)] *)
Definition get_product_or_404 (wanted : Z) : M Product :=
  try_except (Product_get_available wanted)
    (λ e, match e with
          | DoesNotExist => raise Http404
          | _ => raise e
          end).

(** [get_object_or_404(CartItem, id=item_id)] *)
Definition get_cart_item_or_404 (item_id : Z) : M CartItem :=
  s ← get_store;
  match items s !! item_id with
  | Some it => mret it
  | None => raise Http404
  end.

(** [CartMixin.get_cart] *)
Definition CartMixin_get_cart (request : HttpRequest) : M Z :=
  match request_user request with
  | Some uid =>
      '(c, created) ← Cart_get_or_create (has_user uid) (mkCart (Some uid) None);
      mret c
  | None =>
      let key :=
        match request_session_key request with
        | Some k => if bool_decide (k = "") then request_new_session_key request else k
        | None => request_new_session_key request
        end in
      '(c, created) ← Cart_get_or_create (has_session key) (mkCart None (Some key));
      mret c
  end.

(** The response that [JsonResponse({'success': ..., 'message': ..., ...},
    status=code)] is written to build. *)
Definition json (success : bool) (m : Message)
    (extra : option (string * Z)) (code : Z) : Response :=
  mkResponse code (JsonPayload success m extra).

(** [JsonResponse(...)] in [main/views.py].  The module never imports the
    name ([django.http] is not among its imports), so the call raises
    [NameError] when the name is looked up, before any of its arguments is
    evaluated: [arguments], the computation of the response that the call
    was written to build, is not run. *)
Definition JsonResponse (arguments : M Response) : M Response :=
  raise NameError.

(** The [try] block of [add_to_cart]. *)
Definition add_to_cart_try (request : HttpRequest) (wanted : Z) : M Response :=
  if body_is_empty (request_body request) then
    JsonResponse (mret (json false NoData None 400))
  else
    data ← json_loads (request_body request);
    requested ← int_quantity data;
    if requested <? 1 then
      JsonResponse (mret (json false QuantityMustBeAboveZero None 400))
    else if 99 <? requested then
      JsonResponse (mret (json false MaximumQuantityIs99 None 400))
    else
      p ← get_product_or_404 wanted;
      c ← CartMixin_get_cart request;
      '(item_pk, cart_item, created) ← CartItem_get_or_create c wanted requested;
      (if created : bool then mret tt
       else merge_quantity item_pk cart_item requested);;
      cache_delete (cart_key c);;
      JsonResponse
        (total ← Cart_total_items c;
         mret (json true (ProductAdded wanted) (Some ("cart_total", total)) 200)).

(** [add_to_cart]: the [except] clauses in their order.  An exception
    raised inside a clause leaves the view. *)
Definition add_to_cart (request : HttpRequest) (wanted : Z) : M Response :=
  try_except (add_to_cart_try request wanted)
    (λ e, match e with
          | JSONDecodeError =>
              JsonResponse (mret (json false BadDataFormat None 400))
          | ValueError =>
              JsonResponse (mret (json false BadQuantityValue None 400))
          | _ => JsonResponse (mret (json false AddFailed None 500))
          end).

(** The [try] block of [update_cart_item]. *)
Definition update_cart_item_try (request : HttpRequest) (item_id : Z)
    : M Response :=
  data ← json_loads (request_body request);
  requested ← int_quantity data;
  if requested <? 1 then
    JsonResponse (mret (json false QuantityMustBeAboveZero None 400))
  else if 99 <? requested then
    JsonResponse (mret (json false MaximumQuantityIs99 None 400))
  else
    cart_item ← get_cart_item_or_404 item_id;
    let cart_item := set_quantity requested cart_item in
    CartItem_save item_id cart_item;;
    c ← CartItem_cart cart_item;
    cache_delete (cart_key c);;
    JsonResponse
      (c ← CartItem_cart cart_item;
       total ← Cart_total_price c;
       mret (json true QuantityUpdated (Some ("new_total", total)) 200)).

(** [update_cart_item] *)
Definition update_cart_item (request : HttpRequest) (item_id : Z) : M Response :=
  try_except (update_cart_item_try request item_id)
    (λ e, match e with
          | JSONDecodeError =>
              JsonResponse (mret (json false BadDataFormat None 400))
          | ValueError =>
              JsonResponse (mret (json false BadQuantityValue None 400))
          | _ => JsonResponse (mret (json false UpdateFailed None 500))
          end).

(** [remove_cart_item] *)
Definition remove_cart_item (request : HttpRequest) (item_id : Z) : M Response :=
  try_except
    (cart_item ← get_cart_item_or_404 item_id;
     c ← CartItem_cart cart_item;
     CartItem_delete item_id cart_item;;
     cache_delete (cart_key c);;
     JsonResponse (mret (json true ItemRemovedFromCart None 200)))
    (λ _, JsonResponse (mret (json false RemoveFailed None 500))).

(** [clear_cart] *)
Definition clear_cart (request : HttpRequest) : M Response :=
  try_except
    (c ← CartMixin_get_cart request;
     Cart_items_all_delete c;;
     cache_delete (cart_key c);;
     JsonResponse (mret (json true CartCleared None 200)))
    (λ _, JsonResponse (mret (json false ClearFailed None 500))).

(** [CartView.get_context_data]: the cart page reads the items and the two
    totals of the caller's cart ([get_cart] of the view is the code of
    [CartMixin.get_cart]). *)
Record CartContext := mkCartContext {
  context_cart_items : list (Z * CartItem);
  context_total_items : Z;
  context_subtotal : Z;
  context_total : Z
}.

Definition CartView_get_context_data (request : HttpRequest) : M CartContext :=
  c ← CartMixin_get_cart request;
  rows ← Cart_items_all c;
  total_items ← Cart_total_items c;
  subtotal ← Cart_total_price c;
  total ← Cart_total_price c;
  mret (mkCartContext rows total_items subtotal total).

(** The views of the site by name.  Each catches every exception itself,
    and each [except] clause, like each [return] of the [try] block, calls
    [JsonResponse]: whatever path a request takes, [NameError] leaves the
    view and the response is the server error of the framework. *)
Inductive SiteCall :=
| AddToCart (product_id : Z)
| UpdateCartItem (item_id : Z)
| RemoveCartItem (item_id : Z)
| ClearCart.

Definition site_view (request : HttpRequest) (call : SiteCall) : M Response :=
  match call with
  | AddToCart wanted => add_to_cart request wanted
  | UpdateCartItem item_id => update_cart_item request item_id
  | RemoveCartItem item_id => remove_cart_item request item_id
  | ClearCart => clear_cart request
  end.

Definition site (request : HttpRequest) (call : SiteCall) (s : Store)
    : Response * Store :=
  handle_exception (site_view request call) s.

(** ** Sequences of cart operations *)

Inductive Op :=
| ApiOp (throttled : bool) (u : option Z) (call : ApiCall)
| SiteOp (request : HttpRequest) (call : SiteCall).

Definition step (op : Op) (s : Store) : Response * Store :=
  match op with
  | ApiOp throttled u call => dispatch throttled u call s
  | SiteOp request call => site request call s
  end.

Definition run (ops : list Op) (s : Store) : Store :=
  fold_left (λ s op, (step op s).2) ops s.

(** ** Vocabulary of the properties *)

(** A character that no decimal rendering of an integer starts with. *)
Definition not_numeric (c : ascii) : Prop :=
  c ≠ "-"%char ∧ ∀ n, pretty_N_char n ≠ c.

(** The cache after [Cart.clear_cache]. *)
Definition invalidate (id : Z) (m : gmap string Z) : gmap string Z :=
  delete (cart_items_key id) (delete (cart_total_key id) m).

(** The cache after a lookaside read of [key]: a present entry stays, a
    missing one is filled with the recomputed value [v]. *)
Definition memo (key : string) (v : Z) (m : gmap string Z) : gmap string Z :=
  match m !! key with
  | Some _ => m
  | None => <[key := v]> m
  end.

(** Two stores with the same three tables (their caches may differ). *)
Definition same_tables (s s' : Store) : Prop :=
  products s' = products s ∧ carts s' = carts s ∧ items s' = items s.

(** A computation that only reads the tables: it may fill the cache. *)
Definition reads_only {A} (m : M A) : Prop :=
  ∀ s, same_tables s (m s).2.

(** The two totals as sums over the current rows of a cart:
    [Σ item.quantity] and [Σ item.quantity × item.product.price]. *)
Definition items_total (id : Z) (s : Store) : Z :=
  py_sum ((λ kv, quantity kv.2) <$> map_to_list (Cart_items id s)).

Definition line_price (s : Store) (it : CartItem) : Z :=
  quantity it * from_option price 0 (products s !! product it).

Definition price_total (id : Z) (s : Store) : Z :=
  py_sum ((λ kv, line_price s kv.2) <$> map_to_list (Cart_items id s)).

(** The totals as the contract states them, written over the item table
    as a whole and without the queryset of the code: the rows of a cart are
    the rows of the table whose [cart] is that cart, and the totals are
    [Σ quantity] and [Σ quantity × product.price] over them. *)
Definition rows_of (id : Z) (s : Store) : list (Z * CartItem) :=
  filter (λ kv, cart kv.2 = id) (map_to_list (items s)).

Definition sum_of_quantities (id : Z) (s : Store) : Z :=
  foldr (λ kv acc, quantity kv.2 + acc) 0 (rows_of id s).

Definition sum_of_prices (id : Z) (s : Store) : Z :=
  foldr (λ kv acc,
           quantity kv.2 * from_option price 0 (products s !! product kv.2)
           + acc)
        0 (rows_of id s).

(** Every item of the cart points to a product row (the foreign key of
    [CartItem.product] holds). *)
Definition products_present (id : Z) (s : Store) : Prop :=
  map_Forall (λ _ it, is_Some (products s !! product it)) (Cart_items id s).

(** The carts [CartMixin.get_cart] looks among: those of the user, or those
    of the session of an anonymous caller. *)
Definition caller_session (request : HttpRequest) : string :=
  match request_session_key request with
  | Some k => if bool_decide (k = "") then request_new_session_key request else k
  | None => request_new_session_key request
  end.

Definition caller_carts (request : HttpRequest) (s : Store) : gmap Z Cart :=
  match request_user request with
  | Some uid => filter (has_user uid) (carts s)
  | None => filter (has_session (caller_session request)) (carts s)
  end.

(** The caller of [request] already has the cart [pk]: [get_cart] finds it
    and creates nothing. *)
Definition has_cart (request : HttpRequest) (s : Store) (pk : Z) : Prop :=
  CartMixin_get_cart request s = (Ok pk, s).

(** The request of the same caller with the body [{"quantity": q}]. *)
Definition with_quantity (q : Z) (request : HttpRequest) : HttpRequest :=
  mkHttpRequest (request_user request) (request_session_key request)
    (request_new_session_key request) (JsonObject (Some (IntOf q))).

(** The [product_id] of the submitted data passes the serializer: it is an
    integer, or it is left out of a partial update. *)
Definition product_id_accepted (partial : bool) (data : ItemInput) : Prop :=
  match product_id data with
  | Int _ => True
  | Missing => partial = true
  | NotAnInteger => False
  end.

(** Adding [q] units of the product [wanted] to the cart [pk] through the
    API, and to the caller's cart through the site. *)
Definition api_add (uid pk wanted q : Z) (s : Store) : Response * Store :=
  api (Some uid) (AddItem pk (mkItemInput (Int wanted) (Int q))) s.

Definition site_add (request : HttpRequest) (wanted q : Z) (s : Store)
    : Response * Store :=
  site (with_quantity q request) (AddToCart wanted) s.

(** [n] calls of [increment] on the same item, one after the other. *)
Definition increments (n : nat) (u : option Z) (pk : Z) (s : Store) : Store :=
  Nat.iter n (λ s, (api u (Increment pk) s).2) s.

(** The range of a stored quantity, and the invariant of the item table. *)
Definition in_range (it : CartItem) : Prop := 1 ≤ quantity it ≤ 99.

Definition quantity_ok (s : Store) : Prop :=
  map_Forall (λ _ it, in_range it) (items s).

(** [keeps m Q]: run from a store that satisfies the invariant, [m] leaves
    one that satisfies it, whether it returns or raises, and what it
    returns satisfies [Q]. *)
Definition keeps {A} (m : M A) (Q : A → Prop) : Prop :=
  ∀ s, quantity_ok s →
    quantity_ok (m s).2
    ∧ match (m s).1 with
      | Ok a => Q a
      | Raise _ => True
      end.

(** ** Stores and requests of the examples *)

(** User 7 owns cart 1, which holds [q] units of product 5 (priced 100.00)
    as item 3; product 6 is not available; the cache is empty. *)
Definition store_with_quantity (q : Z) : Store :=
  mkStore {[ 5 := mkProduct 10000 true; 6 := mkProduct 250 false ]}
          {[ 1 := mkCart (Some 7) None ]}
          {[ 3 := mkCartItem 1 5 q ]}
          ∅.

Definition example_store : Store := store_with_quantity 2.

(** The same store before anything was put in the cart. *)
Definition example_empty_cart : Store :=
  mkStore {[ 5 := mkProduct 10000 true; 6 := mkProduct 250 false ]}
          {[ 1 := mkCart (Some 7) None ]}
          ∅
          ∅.

(** The example cart once its totals were read: the summary caches 2 items
    and 200.00. *)
Definition example_read_store : Store :=
  (api (Some 7) (Summary 1) example_store).2.

(** Two users: user 7 owns cart 1 with item 3, user 8 owns cart 2 with
    item 4; both items are of product 5. *)
Definition example_two_users : Store :=
  mkStore {[ 5 := mkProduct 10000 true ]}
          {[ 1 := mkCart (Some 7) None; 2 := mkCart (Some 8) None ]}
          {[ 3 := mkCartItem 1 5 2; 4 := mkCartItem 2 5 1 ]}
          ∅.

(** A site request of user 7. *)
Definition example_request : HttpRequest :=
  mkHttpRequest (Some 7) None "fresh" (JsonObject (Some (IntOf 1))).

(** ** Further vocabulary of the site views *)

(** The bodies [add_to_cart] answers with 400: no body, a body that is no
    JSON, a quantity that [int()] rejects with [ValueError], and an integer
    quantity outside [1, 99]. *)
Definition rejected_body (b : Body) : Prop :=
  match b with
  | EmptyBody => True
  | MalformedBody => True
  | NotAnObject => False
  | JsonObject None => False
  | JsonObject (Some (IntOf q)) => q < 1 ∨ 99 < q
  | JsonObject (Some IntValueError) => True
  | JsonObject (Some IntTypeError) => False
  end.

(** The request of the same caller with another body. *)
Definition with_body (b : Body) (request : HttpRequest) : HttpRequest :=
  mkHttpRequest (request_user request) (request_session_key request)
    (request_new_session_key request) b.

(** ** Triples over the monad of views

    [hoare P m Q R]: run from a store that satisfies [P], the computation
    [m] either returns a value and a store that satisfy [Q], or raises an
    exception and leaves a store that satisfy [R]. *)
Definition hoare {A} (P : Store → Prop) (m : M A)
    (Q : A → Store → Prop) (R : Exn → Store → Prop) : Prop :=
  ∀ s, P s →
    match m s with
    | (Ok a, s') => Q a s'
    | (Raise e, s') => R e s'
    end.

(** A computation that leaves the store as it is, cache included. *)
Definition pure_read {A} (m : M A) : Prop := ∀ s, (m s).2 = s.

(** ** Integrity of the tables

    The two foreign keys of [CartItem] hold in every row of the item table,
    and the table has at most one row for a cart and a product
    ([unique_together = ('cart', 'product')]). *)
Definition carts_present (s : Store) : Prop :=
  map_Forall (λ _ it, is_Some (carts s !! cart it)) (items s).

Definition all_products_present (s : Store) : Prop :=
  map_Forall (λ _ it, is_Some (products s !! product it)) (items s).

Definition lines_unique (s : Store) : Prop :=
  ∀ k1 k2 it1 it2,
    items s !! k1 = Some it1 → items s !! k2 = Some it2 →
    cart it1 = cart it2 → product it1 = product it2 → k1 = k2.

Definition well_formed (s : Store) : Prop :=
  carts_present s ∧ all_products_present s ∧ lines_unique s.

(** Writing the row [it] under [pk] respects the integrity of the tables:
    its cart and its product exist, and either [pk] holds a row of the same
    cart and product already, or no row of the table is for them. *)
Definition writable (pk : Z) (it : CartItem) (s : Store) : Prop :=
  is_Some (carts s !! cart it)
  ∧ is_Some (products s !! product it)
  ∧ match items s !! pk with
    | Some old => cart old = cart it ∧ product old = product it
    | None => CartItem_filter (cart it) (product it) s = ∅
    end.

(** ** Coherence of the cache

    Whatever the cache holds under the two total keys of a cart is the sum
    over the current rows of that cart. *)
Definition coherent (s : Store) : Prop :=
  ∀ id v,
    (cache s !! cart_items_key id = Some v → v = items_total id s)
    ∧ (cache s !! cart_total_key id = Some v → v = price_total id s).

(** The invariant of the cart operations: the integrity of the tables and,
    when [strict], the coherence of the cache. *)
Definition cart_inv (strict : bool) (s : Store) : Prop :=
  well_formed s ∧ (strict = true → coherent s).

(** The two operations that empty a cart with one bulk statement. *)
Definition clears (op : Op) : bool :=
  match op with
  | ApiOp _ _ (Clear _) => true
  | SiteOp _ ClearCart => true
  | _ => false
  end.

(** [preserves strict m]: the computation [m] keeps the invariant, whether
    it returns or raises. *)
Definition preserves (strict : bool) {A} (m : M A) : Prop :=
  hoare (cart_inv strict) m (λ _, cart_inv strict) (λ _, cart_inv strict).

(** ** Vocabulary for the API as a whole *)

(** The object that a call of the API addresses is in the queryset of the
    caller: the cart of [add_item], [clear] and [summary], the item of
    [update], [increment] and [decrement]. *)
Definition in_queryset (u : option Z) (call : ApiCall) (s : Store) : Prop :=
  match call with
  | AddItem pk _ | Clear pk | Summary pk =>
      is_Some (CartViewSet_get_queryset u s !! pk)
  | Update pk _ _ | Increment pk | Decrement pk =>
      is_Some (CartItemViewSet_get_queryset u s !! pk)
  end.

Global Instance in_queryset_dec u call s : Decision (in_queryset u call s).
Proof. destruct call; simpl; apply _. Defined.

Definition is_add_item (call : ApiCall) : bool :=
  match call with
  | AddItem _ _ => true
  | _ => false
  end.

(** The statuses of a request that was answered on purpose. *)
Definition answered (r : Response) : Prop :=
  status r = HTTP_200_OK ∨ status r = HTTP_400_BAD_REQUEST
  ∨ status r = HTTP_403_FORBIDDEN ∨ status r = HTTP_404_NOT_FOUND
  ∨ status r = HTTP_429_TOO_MANY_REQUESTS.


(** An anonymous visitor without a session. *)
Definition example_guest : HttpRequest :=
  mkHttpRequest None None "fresh" EmptyBody.

(** The two site views that read a quantity from the body. *)
Definition reads_quantity (call : SiteCall) : bool :=
  match call with
  | AddToCart _ => true
  | UpdateCartItem _ => true
  | _ => false
  end.

(** ** [api/common/base.py]: [BaseAPIView.get_paginated_response] *)

(** An index of a slice, adjusted the way Python does for a list of length
    [n]: a negative index counts from the end, and either way the result is
    clipped to [0, n]. *)
Definition slice_index (n i : Z) : Z :=
  if i <? 0 then Z.max (i + n) 0 else Z.min i n.

(** [data[start:stop]] *)
Definition py_slice {A} (data : list A) (start stop : Z) : list A :=
  let n := Z.of_nat (length data) in
  let lo := slice_index n start in
  let hi := slice_index n stop in
  take (Z.to_nat (hi - lo)) (drop (Z.to_nat lo) data).

Record Pagination := mkPagination {
  pagination_page : Z;
  pagination_page_size : Z;
  total_count : Z;
  total_pages : Z;
  has_next : bool;
  has_previous : bool
}.

Record PaginatedData (A : Type) := mkPaginatedData {
  results : list A;
  pagination : Pagination
}.
Arguments mkPaginatedData {A} results pagination.
Arguments results {A} p.
Arguments pagination {A} p.

(** The body of the response of [get_paginated_response]; [None] stands
    for the [ZeroDivisionError] of [// page_size].  Python's [//] rounds
    down, as [Z.div] does. *)
Definition BaseAPIView_get_paginated_response {A} (data : list A)
    (page page_size : Z) : option (PaginatedData A) :=
  let start := (page - 1) * page_size in
  let end_ := start + page_size in
  let results := py_slice data start end_ in
  let n := Z.of_nat (length data) in
  if page_size =? 0 then None
  else
    Some (mkPaginatedData results
            (mkPagination page page_size n ((n + page_size - 1) / page_size)
               (end_ <? n) (1 <? page))).

(** The results of the page, empty when there is no response. *)
Definition page_results {A} (data : list A) (page_size page : Z) : list A :=
  from_option results [] (BaseAPIView_get_paginated_response data page page_size).

(** The pages [1 .. total_pages], one after the other. *)
Definition all_pages {A} (data : list A) (page_size : Z) : list (list A) :=
  let n := Z.of_nat (length data) in
  (λ i, page_results data page_size (Z.of_nat i))
    <$> seq 1 (Z.to_nat ((n + page_size - 1) / page_size)).

(** ** [main/serializers.py]: [ProductSerializer.validate_name]

    A name is a list of characters; [isspace] tells the whitespace that
    [str.strip] removes.  The validator is the same for every character
    set. *)
Fixpoint lstrip {char} (isspace : char → bool) (value : list char) : list char :=
  match value with
  | [] => []
  | c :: rest => if isspace c then lstrip isspace rest else value
  end.

Definition rstrip {char} (isspace : char → bool) (value : list char)
    : list char :=
  reverse (lstrip isspace (reverse value)).

(** [value.strip()] *)
Definition strip {char} (isspace : char → bool) (value : list char)
    : list char :=
  lstrip isspace (rstrip isspace value).

Inductive NameValidationError :=
| NameTooShort.   (* "Название должно содержать минимум 3 символа" *)

Definition ProductSerializer_validate_name {char} (isspace : char → bool)
    (value : list char) : NameValidationError + list char :=
  if (length (strip isspace value) <? 3)%nat then inl NameTooShort
  else inr (strip isspace value).

(** Neither end of the name is whitespace. *)
Definition trimmed {char} (isspace : char → bool) (name : list char) : Prop :=
  (∀ c, head name = Some c → isspace c = false)
  ∧ (∀ c, last name = Some c → isspace c = false).

(** [str.isspace] on the code points below 256: the codes 9 to 13, 28 to
    32, 133 and 160. *)
Definition ascii_isspace (c : ascii) : bool :=
  let n := nat_of_ascii c in
  ((9 <=? n) && (n <=? 13) || (28 <=? n) && (n <=? 32)
   || (n =? 133) || (n =? 160))%nat.

(** * Properties *)

(** ** The cache keys are pairwise distinct *)

Lemma pretty_N_go_head (c : ascii) (x : N) (s : string) :
  not_numeric c →
  (∀ rest, s ≠ String c rest) →
  ∀ rest, pretty_N_go x s ≠ String c rest.
Proof.
  intros [_ Hc]. revert s.
  induction (N.lt_wf_0 x) as [x _ IH]; intros s Hs rest.
  destruct (decide (x = 0)%N) as [->|Hx].
  - rewrite pretty_N_go_0. apply Hs.
  - rewrite pretty_N_go_step by lia.
    apply IH.
    + apply N.div_lt; lia.
    + intros rest' Heq. injection Heq as Heq _. by apply Hc in Heq.
Qed.

Lemma pretty_Z_head (c : ascii) (z : Z) (rest : string) :
  not_numeric c → pretty z ≠ String c rest.
Proof.
  intros Hc. destruct z as [|p|p]; unfold pretty, pretty_Z.
  - intros Heq. injection Heq as Heq _.
    destruct Hc as [_ Hc]. by apply (Hc 0%N).
  - unfold pretty, pretty_positive, pretty, pretty_N.
    case_decide; [done|]. by apply pretty_N_go_head.
  - simpl. intros Heq. injection Heq as Heq _.
    destruct Hc as [Hc _]. by apply Hc.
Qed.

Lemma letter_t_not_numeric : not_numeric "t".
Proof.
  split; [done|]. intros n. unfold pretty_N_char.
  repeat case_match; discriminate.
Qed.

Lemma letter_i_not_numeric : not_numeric "i".
Proof.
  split; [done|]. intros n. unfold pretty_N_char.
  repeat case_match; discriminate.
Qed.

Lemma cart_total_key_inj a b : cart_total_key a = cart_total_key b → a = b.
Proof.
  unfold cart_total_key. intros H. simpl in H.
  repeat injection H as H. by apply (inj pretty).
Qed.

Lemma cart_items_key_inj a b : cart_items_key a = cart_items_key b → a = b.
Proof.
  unfold cart_items_key. intros H. simpl in H.
  repeat injection H as H. by apply (inj pretty).
Qed.

Lemma cart_total_key_ne_items a b : cart_total_key a ≠ cart_items_key b.
Proof.
  unfold cart_total_key, cart_items_key. simpl. intros H.
  repeat injection H as H. discriminate.
Qed.

Lemma cart_key_ne_total a b : cart_key a ≠ cart_total_key b.
Proof.
  unfold cart_key, cart_total_key. simpl. intros H.
  repeat injection H as H.
  by apply pretty_Z_head in H; [|apply letter_t_not_numeric].
Qed.

Lemma cart_key_ne_items a b : cart_key a ≠ cart_items_key b.
Proof.
  unfold cart_key, cart_items_key. simpl. intros H.
  repeat injection H as H.
  by apply pretty_Z_head in H; [|apply letter_i_not_numeric].
Qed.

(** ** What the model methods do to the store *)

Ltac unfold_M :=
  unfold mbind, M_bind, mret, M_ret, get_store, modify, raise, try_except,
    getitem, cache_get, cache_set, cache_delete in *.

Lemma bind_Ok {A B} (m : M A) (f : A → M B) s a s' :
  m s = (Ok a, s') → (m ≫= f) s = f a s'.
Proof. intros H. unfold mbind, M_bind. by rewrite H. Qed.

Lemma bind_Raise {A B} (m : M A) (f : A → M B) s e s' :
  m s = (Raise e, s') → (m ≫= f) s = (Raise e, s').
Proof. intros H. unfold mbind, M_bind. by rewrite H. Qed.

Lemma Cart_clear_cache_run id s :
  Cart_clear_cache id s = (Ok tt, set_cache (invalidate id) s).
Proof. reflexivity. Qed.

Lemma CartItem_save_run pk it s :
  is_Some (carts s !! cart it) →
  CartItem_save pk it s =
    (Ok tt, mkStore (products s) (carts s) (<[pk := it]> (items s))
              (invalidate (cart it) (cache s))).
Proof.
  intros [c Hc]. unfold CartItem_save, CartItem_cart. unfold_M. simpl.
  by rewrite Hc.
Qed.

Lemma CartItem_save_orphan pk it s :
  carts s !! cart it = None →
  CartItem_save pk it s = (Raise DoesNotExist, set_items (<[pk := it]>) s).
Proof.
  intros Hc. unfold CartItem_save, CartItem_cart. unfold_M. simpl.
  by rewrite Hc.
Qed.

Lemma CartItem_delete_run pk it s :
  is_Some (carts s !! cart it) →
  CartItem_delete pk it s =
    (Ok tt, mkStore (products s) (carts s) (delete pk (items s))
              (invalidate (cart it) (cache s))).
Proof.
  intros [c Hc]. unfold CartItem_delete, CartItem_cart. unfold_M.
  by rewrite Hc.
Qed.

Lemma CartItem_delete_orphan pk it s :
  carts s !! cart it = None →
  CartItem_delete pk it s = (Raise DoesNotExist, s).
Proof.
  intros Hc. unfold CartItem_delete, CartItem_cart. unfold_M.
  by rewrite Hc.
Qed.

Lemma CartItemSerializer_data_run pk it p s :
  products s !! product it = Some p →
  CartItemSerializer_data pk it s =
    (Ok (mkItemData pk (product it, p) (quantity it) (quantity it * price p)), s).
Proof.
  intros Hp. unfold CartItemSerializer_data, CartItem_total_price,
    CartItem_product. unfold_M. by rewrite !Hp.
Qed.

Lemma CartItemSerializer_data_orphan pk it s :
  products s !! product it = None →
  CartItemSerializer_data pk it s = (Raise DoesNotExist, s).
Proof.
  intros Hp. unfold CartItemSerializer_data, CartItem_product. unfold_M.
  by rewrite Hp.
Qed.

(** An item the caller's queryset holds is a row whose cart exists and
    belongs to the caller. *)
Lemma owned_item_lookup uid pk it s :
  CartItemViewSet_get_queryset (Some uid) s !! pk = Some it ↔
  items s !! pk = Some it ∧
  ∃ c, carts s !! cart it = Some c ∧ user c = Some uid.
Proof.
  unfold CartItemViewSet_get_queryset. rewrite map_lookup_filter_Some.
  unfold owned_by. simpl. split.
  - intros [Hit Hown]. split; [done|].
    destruct (carts s !! cart it) as [c|] eqn:Hc; [|done]. by exists c.
  - intros [Hit (c & Hc & Hu)]. split; [done|]. by rewrite Hc.
Qed.

Lemma owned_cart_lookup uid pk c s :
  CartViewSet_get_queryset (Some uid) s !! pk = Some c ↔
  carts s !! pk = Some c ∧ user c = Some uid.
Proof.
  unfold CartViewSet_get_queryset. by rewrite map_lookup_filter_Some.
Qed.

(** ** Increment *)

(** The quantity [increment] stores. *)
Lemma increment_quantity (it : CartItem) :
  (let cart_item := set_quantity (quantity it + 1) it in
   if 99 <? quantity cart_item then set_quantity 99 cart_item else cart_item)
  = set_quantity (Z.min (quantity it + 1) 99) it.
Proof.
  simpl. destruct (Z.ltb_spec 99 (quantity it + 1)).
  - rewrite Z.min_r by lia. reflexivity.
  - rewrite Z.min_l by lia. reflexivity.
Qed.

Lemma CartItemViewSet_get_object_run uid pk it s :
  CartItemViewSet_get_queryset (Some uid) s !! pk = Some it →
  CartItemViewSet_get_object (Some uid) pk s = (Ok it, s).
Proof.
  intros H. unfold CartItemViewSet_get_object.
  rewrite (bind_Ok get_store _ s s s) by done. by rewrite H.
Qed.

Lemma increment_run uid pk it s :
  CartItemViewSet_get_queryset (Some uid) s !! pk = Some it →
  let it' := set_quantity (Z.min (quantity it + 1) 99) it in
  let s' := mkStore (products s) (carts s) (<[pk := it']> (items s))
              (invalidate (cart it) (cache s)) in
  api (Some uid) (Increment pk) s =
    match products s !! product it with
    | Some p =>
        (mkResponse HTTP_200_OK
           (ItemPayload (mkItemData (Some pk) (product it, p) (quantity it')
                           (quantity it' * price p))), s')
    | None => (mkResponse HTTP_500_INTERNAL_SERVER_ERROR ServerErrorPayload, s')
    end.
Proof.
  intros Hget it' s'.
  pose proof Hget as [Hit (c & Hc & Hu)]%owned_item_lookup.
  unfold api, dispatch, handle_exception, api_view, CartItemViewSet_increment.
  cbn [bool_decide safe_method andb negb decide_rel].
  rewrite (bind_Ok _ _ _ _ _ (CartItemViewSet_get_object_run _ _ _ _ Hget)).
  rewrite increment_quantity. fold it'.
  erewrite bind_Ok; [|apply CartItem_save_run; simpl; eauto]. fold s'.
  destruct (products s !! product it) as [p|] eqn:Hp.
  - erewrite bind_Ok; [|by apply (CartItemSerializer_data_run _ _ p)]. done.
  - erewrite bind_Raise; [|by apply CartItemSerializer_data_orphan]. done.
Qed.

Lemma increment_store uid pk it s :
  CartItemViewSet_get_queryset (Some uid) s !! pk = Some it →
  (api (Some uid) (Increment pk) s).2 =
    mkStore (products s) (carts s)
      (<[pk := set_quantity (Z.min (quantity it + 1) 99) it]> (items s))
      (invalidate (cart it) (cache s)).
Proof.
  intros Hget. rewrite (increment_run _ _ _ _ Hget).
  by destruct (products s !! product it).
Qed.

Lemma increments_lookup uid pk n : ∀ s it,
  CartItemViewSet_get_queryset (Some uid) s !! pk = Some it →
  CartItemViewSet_get_queryset (Some uid) (increments n (Some uid) pk s) !! pk
  = Some (set_quantity (Nat.iter n (λ q, Z.min (q + 1) 99) (quantity it)) it).
Proof.
  induction n as [|n IH]; intros s it Hget.
  - simpl. by destruct it.
  - specialize (IH s it Hget).
    unfold increments in *. simpl.
    rewrite (increment_store _ _ _ _ IH).
    apply owned_item_lookup in IH as [_ (c & Hc & Hu)].
    apply owned_item_lookup. simpl. split; [|by eauto].
    by rewrite lookup_insert_eq.
Qed.

(** C6.  [increment] on an item of the caller stores
    [min(quantity + 1, 99)]; the response is never the validation error 400,
    and it is the response 200 with the updated item whenever the item's
    product row can be rendered.  From a quantity of 95, ten increments in a
    row leave the item at 99. *)
Theorem increment_clamps_at_99 (s : Store) (uid pk : Z) (it : CartItem) :
  CartItemViewSet_get_queryset (Some uid) s !! pk = Some it →
  let q' := Z.min (quantity it + 1) 99 in
  let out := api (Some uid) (Increment pk) s in
  items out.2 = <[pk := set_quantity q' it]> (items s)
  ∧ status out.1 ≠ HTTP_400_BAD_REQUEST
  ∧ (∀ p, products s !! product it = Some p →
       out.1 = mkResponse HTTP_200_OK
                 (ItemPayload (mkItemData (Some pk) (product it, p) q'
                                 (q' * price p))))
  ∧ (quantity it = 95 →
       items (increments 10 (Some uid) pk s) !! pk = Some (set_quantity 99 it)).
Proof.
  intros Hget q' out. subst out.
  rewrite (increment_run _ _ _ _ Hget). repeat split.
  - by destruct (products s !! product it).
  - by destruct (products s !! product it).
  - intros p Hp. by rewrite Hp.
  - intros H95.
    pose proof (increments_lookup uid pk 10 s it Hget) as Hten.
    apply owned_item_lookup in Hten as [Hten _].
    rewrite Hten, H95. reflexivity.
Qed.

Lemma increment_clamps_at_99_witness :
  CartItemViewSet_get_queryset (Some 7) (store_with_quantity 95) !! 3
    = Some (mkCartItem 1 5 95)
  ∧ items (api (Some 7) (Increment 3) (store_with_quantity 95)).2
    = <[3 := mkCartItem 1 5 96]> (items (store_with_quantity 95))
  ∧ items (increments 10 (Some 7) 3 (store_with_quantity 95)) !! 3
    = Some (mkCartItem 1 5 99).
Proof.
  assert (CartItemViewSet_get_queryset (Some 7) (store_with_quantity 95) !! 3
          = Some (mkCartItem 1 5 95)) as H by (vm_compute; reflexivity).
  pose proof (increment_clamps_at_99 (store_with_quantity 95) 7 3 _ H)
    as (Hitems & _ & _ & Hten).
  split; [exact H|]. split; [exact Hitems|]. exact (Hten eq_refl).
Defined.

(** ** Decrement *)

Lemma decrement_run uid pk it s :
  CartItemViewSet_get_queryset (Some uid) s !! pk = Some it →
  let it' := set_quantity (quantity it - 1) it in
  api (Some uid) (Decrement pk) s =
    if quantity it - 1 <? 1 then
      (mkResponse HTTP_200_OK (MessagePayload ItemRemovedFromCart),
       mkStore (products s) (carts s) (delete pk (items s))
         (invalidate (cart it) (cache s)))
    else
      let s' := mkStore (products s) (carts s) (<[pk := it']> (items s))
                  (invalidate (cart it) (cache s)) in
      match products s !! product it with
      | Some p =>
          (mkResponse HTTP_200_OK
             (ItemPayload (mkItemData (Some pk) (product it, p)
                             (quantity it - 1) ((quantity it - 1) * price p))),
           s')
      | None =>
          (mkResponse HTTP_500_INTERNAL_SERVER_ERROR ServerErrorPayload, s')
      end.
Proof.
  intros Hget it'.
  pose proof Hget as [Hit (c & Hc & Hu)]%owned_item_lookup.
  unfold api, dispatch, handle_exception, api_view, CartItemViewSet_decrement.
  cbn [bool_decide safe_method andb negb decide_rel].
  rewrite (bind_Ok _ _ _ _ _ (CartItemViewSet_get_object_run _ _ _ _ Hget)).
  fold it'. change (quantity it') with (quantity it - 1).
  destruct (quantity it - 1 <? 1).
  - erewrite bind_Ok; [|apply CartItem_delete_run; simpl; eauto]. done.
  - erewrite bind_Ok; [|apply CartItem_save_run; simpl; eauto]. cbv zeta.
    destruct (products s !! product it) as [p|] eqn:Hp.
    + erewrite bind_Ok; [|by apply (CartItemSerializer_data_run _ _ p)]. done.
    + erewrite bind_Raise; [|by apply CartItemSerializer_data_orphan]. done.
Qed.

(** C5.  [decrement] on an item of the caller takes one unit off.  When the
    result is below 1 the row is deleted (no row with quantity 0 is stored)
    and the response is the removal message, which is no item snapshot;
    otherwise the decremented quantity is stored and the response is the
    snapshot of the updated item (given that the item's product row can be
    rendered). *)
Theorem decrement_deletes_below_one (s : Store) (uid pk : Z) (it : CartItem) :
  CartItemViewSet_get_queryset (Some uid) s !! pk = Some it →
  let out := api (Some uid) (Decrement pk) s in
  (quantity it - 1 < 1 →
     items out.2 = delete pk (items s)
     ∧ items out.2 !! pk = None
     ∧ out.1 = mkResponse HTTP_200_OK (MessagePayload ItemRemovedFromCart)
     ∧ ∀ d, payload out.1 ≠ ItemPayload d)
  ∧ (1 ≤ quantity it - 1 →
     items out.2 = <[pk := set_quantity (quantity it - 1) it]> (items s)
     ∧ items out.2 !! pk = Some (set_quantity (quantity it - 1) it)
     ∧ ∀ p, products s !! product it = Some p →
         out.1 = mkResponse HTTP_200_OK
                   (ItemPayload (mkItemData (Some pk) (product it, p)
                                   (quantity it - 1)
                                   ((quantity it - 1) * price p)))).
Proof.
  intros Hget out. subst out. rewrite (decrement_run _ _ _ _ Hget).
  split; intros Hq.
  - rewrite (proj2 (Z.ltb_lt _ _) Hq). simpl.
    by rewrite lookup_delete_eq.
  - rewrite (proj2 (Z.ltb_ge _ _) Hq). cbv zeta.
    destruct (products s !! product it) as [p|] eqn:Hp; simpl;
      rewrite lookup_insert_eq; repeat split; try done.
    by intros ? [= <-].
Qed.

Lemma decrement_deletes_below_one_witness :
  CartItemViewSet_get_queryset (Some 7) (store_with_quantity 1) !! 3
    = Some (mkCartItem 1 5 1)
  ∧ items (api (Some 7) (Decrement 3) (store_with_quantity 1)).2 !! 3 = None
  ∧ (api (Some 7) (Decrement 3) (store_with_quantity 1)).1
    = mkResponse HTTP_200_OK (MessagePayload ItemRemovedFromCart).
Proof.
  assert (CartItemViewSet_get_queryset (Some 7) (store_with_quantity 1) !! 3
          = Some (mkCartItem 1 5 1)) as H by (vm_compute; reflexivity).
  pose proof (decrement_deletes_below_one (store_with_quantity 1) 7 3 _ H)
    as [Hdel _].
  destruct Hdel as (_ & Hgone & Hresp & _); [simpl; lia|].
  split; [exact H|]. split; [exact Hgone|exact Hresp].
Defined.

(** ** Reading the totals leaves the tables alone *)

Lemma same_tables_refl s : same_tables s s.
Proof. by repeat split. Qed.

Lemma same_tables_trans s1 s2 s3 :
  same_tables s1 s2 → same_tables s2 s3 → same_tables s1 s3.
Proof. intros (?&?&?) (?&?&?). repeat split; congruence. Qed.

Lemma same_tables_set_cache f s : same_tables s (set_cache f s).
Proof. by repeat split. Qed.

Lemma reads_only_ret {A} (a : A) : reads_only (mret a).
Proof. intros s. apply same_tables_refl. Qed.

Lemma reads_only_raise {A} e : reads_only (raise e : M A).
Proof. intros s. apply same_tables_refl. Qed.

Lemma reads_only_bind {A B} (m : M A) (f : A → M B) :
  reads_only m → (∀ a, reads_only (f a)) → reads_only (m ≫= f).
Proof.
  intros Hm Hf s. unfold mbind, M_bind.
  specialize (Hm s). destruct (m s) as [[a|e] s1]; simpl in *; [|done].
  eapply same_tables_trans; [exact Hm|apply Hf].
Qed.

Lemma reads_only_get_store : reads_only get_store.
Proof. intros s. apply same_tables_refl. Qed.

Lemma reads_only_set_cache f : reads_only (modify (set_cache f)).
Proof. intros s. apply same_tables_set_cache. Qed.

Lemma reads_only_mapM {A B} (f : A → M B) l :
  (∀ x, reads_only (f x)) → reads_only (mapM f l).
Proof.
  intros Hf. induction l as [|x l IH]; simpl.
  - apply reads_only_ret.
  - apply reads_only_bind; [apply Hf|]. intros y.
    apply reads_only_bind; [apply IH|]. intros ys. apply reads_only_ret.
Qed.

Ltac reads_only_tac :=
  repeat first
    [ apply reads_only_ret
    | apply reads_only_raise
    | apply reads_only_get_store
    | apply reads_only_set_cache
    | apply reads_only_bind; [|intros ?]
    | apply reads_only_mapM; intros ?
    | progress case_match ].

Lemma reads_only_CartItem_product it : reads_only (CartItem_product it).
Proof. unfold CartItem_product. reads_only_tac. Qed.

Lemma reads_only_CartItem_total_price it : reads_only (CartItem_total_price it).
Proof.
  unfold CartItem_total_price.
  apply reads_only_bind; [apply reads_only_CartItem_product|].
  intros p. apply reads_only_ret.
Qed.

Lemma reads_only_Cart_items_all id : reads_only (Cart_items_all id).
Proof. unfold Cart_items_all. reads_only_tac. Qed.

Lemma reads_only_Cart_total_items id : reads_only (Cart_total_items id).
Proof.
  unfold Cart_total_items, cache_get, cache_set.
  apply reads_only_bind; [reads_only_tac|]. intros [total|].
  - apply reads_only_ret.
  - apply reads_only_bind; [apply reads_only_Cart_items_all|]. intros rows.
    reads_only_tac.
Qed.

Lemma reads_only_Cart_total_price id : reads_only (Cart_total_price id).
Proof.
  unfold Cart_total_price, cache_get, cache_set.
  apply reads_only_bind; [reads_only_tac|]. intros [total|].
  - apply reads_only_ret.
  - apply reads_only_bind; [apply reads_only_Cart_items_all|]. intros rows.
    apply reads_only_bind.
    { apply reads_only_mapM. intros kv. apply reads_only_CartItem_total_price. }
    intros totals. reads_only_tac.
Qed.

Lemma reads_only_CartItemSerializer_data pk it :
  reads_only (CartItemSerializer_data pk it).
Proof.
  unfold CartItemSerializer_data.
  apply reads_only_bind; [apply reads_only_CartItem_product|]. intros p.
  apply reads_only_bind; [apply reads_only_CartItem_total_price|]. intros t.
  apply reads_only_ret.
Qed.

Lemma reads_only_CartSerializer_data pk c :
  reads_only (CartSerializer_data pk c).
Proof.
  unfold CartSerializer_data.
  apply reads_only_bind; [apply reads_only_Cart_items_all|]. intros rows.
  apply reads_only_bind.
  { apply reads_only_mapM. intros kv. apply reads_only_CartItemSerializer_data. }
  intros rendered.
  apply reads_only_bind; [apply reads_only_Cart_total_items|]. intros ti.
  apply reads_only_bind; [apply reads_only_Cart_total_price|]. intros tp.
  apply reads_only_ret.
Qed.

(** ** Adding a product *)

Lemma api_authenticated uid call s :
  api (Some uid) call s = handle_exception (api_view (Some uid) call) s.
Proof. unfold api, dispatch. by rewrite bool_decide_eq_false_2. Qed.

Lemma bind_Ok_tables {A B} (m : M A) (f : A → M B) s a s1 :
  m s = (Ok a, s1) → reads_only (f a) → same_tables s1 ((m ≫= f) s).2.
Proof. intros Hm Hf. rewrite (bind_Ok _ _ _ _ _ Hm). apply Hf. Qed.

Lemma handle_exception_store (m : M Response) s :
  (handle_exception m s).2 = (m s).2.
Proof.
  unfold handle_exception. by destruct (m s) as [[r|[]] s'].
Qed.

Lemma CartViewSet_get_object_run uid pk c s :
  CartViewSet_get_queryset (Some uid) s !! pk = Some c →
  CartViewSet_get_object (Some uid) pk s = (Ok c, s).
Proof.
  intros H. unfold CartViewSet_get_object.
  rewrite (bind_Ok get_store _ s s s) by done. by rewrite H.
Qed.

Lemma Product_get_available_run wanted p s :
  products s !! wanted = Some p → available p = true →
  Product_get_available wanted s = (Ok p, s).
Proof.
  intros Hp Ha. unfold Product_get_available.
  rewrite (bind_Ok get_store _ s s s) by done. by rewrite Hp, Ha.
Qed.

(** The product is missing or marked unavailable. *)
Lemma Product_get_available_missing wanted s :
  available <$> products s !! wanted ≠ Some true →
  Product_get_available wanted s = (Raise DoesNotExist, s).
Proof.
  intros Hp. unfold Product_get_available.
  rewrite (bind_Ok get_store _ s s s) by done.
  destruct (products s !! wanted) as [p|]; [|done].
  simpl in Hp. by destruct (available p).
Qed.

Lemma validate_quantity_in_range q :
  1 ≤ q ≤ 99 → CartItemCreateSerializer_validate_quantity q = inr q.
Proof.
  intros Hq. unfold CartItemCreateSerializer_validate_quantity.
  destruct (Z.ltb_spec q 1); [lia|]. destruct (Z.ltb_spec 99 q); [lia|]. done.
Qed.

Lemma merge_quantity_clamps k it q :
  merge_quantity k it q
  = CartItem_save k (set_quantity (Z.min (quantity it + q) 99) it).
Proof.
  unfold merge_quantity. simpl.
  destruct (Z.ltb_spec 99 (quantity it + q)).
  - rewrite Z.min_r by lia. reflexivity.
  - rewrite Z.min_l by lia. reflexivity.
Qed.

Lemma CartItem_get_or_create_new c p q s :
  CartItem_filter c p s = ∅ → is_Some (carts s !! c) →
  CartItem_get_or_create c p q s =
    (Ok (next_pk (items s), mkCartItem c p q, true),
     mkStore (products s) (carts s)
       (<[next_pk (items s) := mkCartItem c p q]> (items s))
       (invalidate c (cache s))).
Proof.
  intros Hnone Hc. unfold CartItem_get_or_create.
  rewrite (bind_Ok get_store _ s s s) by done.
  rewrite Hnone, map_to_list_empty. unfold CartItem_create.
  erewrite bind_Ok; [|erewrite (bind_Ok get_store _ s s s) by done;
    erewrite bind_Ok; [|by apply CartItem_save_run]; reflexivity].
  done.
Qed.

Lemma CartItem_get_or_create_found c p q s k it :
  CartItem_filter c p s = {[ k := it ]} →
  CartItem_get_or_create c p q s = (Ok (k, it, false), s).
Proof.
  intros Hone. unfold CartItem_get_or_create.
  rewrite (bind_Ok get_store _ s s s) by done.
  by rewrite Hone, map_to_list_singleton.
Qed.

(** The rows of a line after the line was created, and after it was
    merged into. *)
Lemma CartItem_filter_created c p q s t :
  CartItem_filter c p s = ∅ →
  items t = <[next_pk (items s) := mkCartItem c p q]> (items s) →
  CartItem_filter c p t = {[ next_pk (items s) := mkCartItem c p q ]}.
Proof.
  intros Hnone Ht. unfold CartItem_filter in *. rewrite Ht.
  rewrite map_filter_insert_True by done. by rewrite Hnone.
Qed.

Lemma CartItem_filter_merged c p s t k it q :
  CartItem_filter c p s = {[ k := it ]} →
  items t = <[k := set_quantity q it]> (items s) →
  CartItem_filter c p t = {[ k := set_quantity q it ]}.
Proof.
  intros Hone Ht. unfold CartItem_filter in *. rewrite Ht.
  assert (is_line c p (k, it)) as [Hc Hp].
  { assert (filter (is_line c p) (items s) !! k = Some it) as Hk
      by (by rewrite Hone, lookup_singleton_eq).
    by apply map_lookup_filter_Some in Hk as [_ ?]. }
  rewrite map_filter_insert_True by done.
  rewrite Hone. by rewrite insert_singleton_eq.
Qed.

Lemma try_except_Ok {A} (m : M A) h s a s' :
  m s = (Ok a, s') → try_except m h s = (Ok a, s').
Proof. intros H. unfold try_except. by rewrite H. Qed.

Lemma try_except_Raise {A} (m : M A) h s e s' :
  m s = (Raise e, s') → try_except m h s = h e s'.
Proof. intros H. unfold try_except. by rewrite H. Qed.

(** The part of an add that follows the lookups: get or create the line,
    merge, and leave the cart's cache entries deleted. *)
Lemma add_line_new c p q s :
  CartItem_filter c p s = ∅ → is_Some (carts s !! c) →
  (CartItem_get_or_create c p q
   ≫= λ '(item_pk, cart_item, created),
        if created : bool then mret tt
        else merge_quantity item_pk cart_item q) s
  = (Ok tt, mkStore (products s) (carts s)
              (<[next_pk (items s) := mkCartItem c p q]> (items s))
              (invalidate c (cache s))).
Proof.
  intros Hnone Hc.
  by rewrite (bind_Ok _ _ _ _ _ (CartItem_get_or_create_new _ _ q _ Hnone Hc)).
Qed.

Lemma add_line_found c p q s k it :
  CartItem_filter c p s = {[ k := it ]} → is_Some (carts s !! c) →
  (CartItem_get_or_create c p q
   ≫= λ '(item_pk, cart_item, created),
        if created : bool then mret tt
        else merge_quantity item_pk cart_item q) s
  = (Ok tt, mkStore (products s) (carts s)
              (<[k := set_quantity (Z.min (quantity it + q) 99) it]> (items s))
              (invalidate c (cache s))).
Proof.
  intros Hone Hc.
  rewrite (bind_Ok _ _ _ _ _ (CartItem_get_or_create_found _ _ q _ _ _ Hone)).
  rewrite merge_quantity_clamps.
  assert (cart it = c) as Hit.
  { assert (CartItem_filter c p s !! k = Some it) as Hk
      by (by rewrite Hone, lookup_singleton_eq).
    by apply map_lookup_filter_Some in Hk as [_ [? _]]. }
  rewrite CartItem_save_run by (simpl; by rewrite Hit). simpl. by rewrite Hit.
Qed.

Lemma bind_assoc {A B C} (m : M A) (f : A → M B) (g : B → M C) s :
  ((m ≫= f) ≫= g) s = (m ≫= λ a, f a ≫= g) s.
Proof. unfold mbind, M_bind. by destruct (m s) as [[a|e] s']. Qed.

(** [add_item] on a cart of the caller.  Data that fails the validation is
    answered 400.  For any other data, [validated_data['product_id']]
    raises [KeyError] before a product is looked up or a row is written. *)
Lemma CartViewSet_add_item_run uid pk c data s :
  CartViewSet_get_queryset (Some uid) s !! pk = Some c →
  CartViewSet_add_item (Some uid) pk data s =
    match CartItemCreateSerializer_is_valid data with
    | inl errors =>
        (Ok (mkResponse HTTP_400_BAD_REQUEST (ErrorsPayload errors)), s)
    | inr _ => (Raise KeyError, s)
    end.
Proof.
  intros Hget. unfold CartViewSet_add_item.
  rewrite (bind_Ok _ _ _ _ _ (CartViewSet_get_object_run _ _ _ _ Hget)).
  unfold CartItemCreateSerializer_is_valid.
  destruct (quantity_field data) as [| |z]; try done.
  by destruct (CartItemCreateSerializer_validate_quantity z).
Qed.

Lemma api_add_run uid pk c wanted q s :
  CartViewSet_get_queryset (Some uid) s !! pk = Some c →
  1 ≤ q ≤ 99 →
  api_add uid pk wanted q s
  = (mkResponse HTTP_500_INTERNAL_SERVER_ERROR ServerErrorPayload, s).
Proof.
  intros Hget Hq.
  unfold api_add. rewrite api_authenticated.
  unfold handle_exception, api_view.
  rewrite (CartViewSet_add_item_run _ _ _ _ _ Hget).
  unfold CartItemCreateSerializer_is_valid. cbn [quantity_field].
  by rewrite validate_quantity_in_range.
Qed.

(** ** The cart of a site request *)

Lemma next_pk_fresh {A} (table : gmap Z A) : table !! next_pk table = None.
Proof. apply not_elem_of_dom. unfold next_pk. apply is_fresh. Qed.

Lemma Cart_get_or_create_found (P : Z * Cart → Prop) `{∀ kv, Decision (P kv)}
    new s pk :
  Cart_get_or_create P new s = (Ok (pk, false), s) ↔
  ∃ c, map_to_list (filter P (carts s)) = [(pk, c)].
Proof.
  unfold Cart_get_or_create.
  rewrite (bind_Ok get_store _ s s s) by done.
  destruct (map_to_list (filter P (carts s))) as [|[k c] [|kv rest]] eqn:Hl.
  - unfold Cart_create.
    rewrite (bind_Ok _ _ s (next_pk (carts s))
               (set_carts (<[next_pk (carts s) := new]>) s)) by done.
    split; [|by intros [? ?]]. intros [= ? ?].
  - split.
    + intros [= ->]. by exists c.
    + intros (c' & [= -> ->]). done.
  - split; [done|]. by intros [? ?].
Qed.

Lemma Cart_get_or_create_same_store (P : Z * Cart → Prop)
    `{∀ kv, Decision (P kv)} new s pk created :
  Cart_get_or_create P new s = (Ok (pk, created), s) → created = false.
Proof.
  unfold Cart_get_or_create.
  rewrite (bind_Ok get_store _ s s s) by done.
  destruct (map_to_list (filter P (carts s))) as [|[k c] [|kv rest]] eqn:Hl.
  - unfold Cart_create.
    rewrite (bind_Ok _ _ s (next_pk (carts s))
               (set_carts (<[next_pk (carts s) := new]>) s)) by done.
    intros [= _ _ Hs]. exfalso.
    apply (f_equal carts) in Hs. simpl in Hs.
    apply (f_equal (.!! next_pk (carts s))) in Hs.
    by rewrite lookup_insert_eq, next_pk_fresh in Hs.
  - by intros [= _ <-].
  - done.
Qed.

Lemma get_or_create_cart_iff (P : Z * Cart → Prop) `{∀ kv, Decision (P kv)}
    new s pk :
  (Cart_get_or_create P new ≫= λ '(c, created), mret c) s = (Ok pk, s) ↔
  ∃ c, map_to_list (filter P (carts s)) = [(pk, c)].
Proof.
  rewrite <- (Cart_get_or_create_found P new s pk).
  unfold mbind, M_bind at 1.
  destruct (Cart_get_or_create P new s) as [[[k cr]|e] s1] eqn:Hrun.
  - split.
    + intros [= -> ->].
      by rewrite (Cart_get_or_create_same_store _ _ _ _ _ Hrun).
    + by intros [= -> -> ->].
  - split; intros [=].
Qed.

Lemma has_cart_iff request s pk :
  has_cart request s pk ↔
  ∃ c, map_to_list (caller_carts request s) = [(pk, c)].
Proof.
  unfold has_cart, CartMixin_get_cart, caller_carts, caller_session.
  destruct (request_user request) as [uid|].
  - apply get_or_create_cart_iff.
  - apply get_or_create_cart_iff.
Qed.

Lemma has_cart_same_carts request s s' pk :
  carts s' = carts s → has_cart request s pk → has_cart request s' pk.
Proof.
  intros Hc. rewrite !has_cart_iff. unfold caller_carts. by rewrite Hc.
Qed.

Lemma has_cart_exists request s pk :
  has_cart request s pk → is_Some (carts s !! pk).
Proof.
  intros [c Hl]%has_cart_iff.
  assert ((pk, c) ∈ map_to_list (caller_carts request s)) as Hin
    by (rewrite Hl; apply list_elem_of_here).
  apply elem_of_map_to_list in Hin. unfold caller_carts in Hin.
  destruct (request_user request);
    apply map_lookup_filter_Some in Hin as [Hin _]; eauto.
Qed.

(** ** The cached totals *)

Lemma Cart_items_all_run id s :
  Cart_items_all id s = (Ok (map_to_list (Cart_items id s)), s).
Proof. reflexivity. Qed.

Lemma Cart_total_items_run id s :
  Cart_total_items id s =
    match cache s !! cart_items_key id with
    | Some total => (Ok total, s)
    | None =>
        (Ok (items_total id s),
         set_cache (<[cart_items_key id := items_total id s]>) s)
    end.
Proof.
  unfold Cart_total_items. cbv zeta.
  rewrite (bind_Ok (cache_get _) _ s (cache s !! cart_items_key id) s) by done.
  by destruct (cache s !! cart_items_key id).
Qed.

Lemma line_totals_run (rows : list (Z * CartItem)) s :
  Forall (λ kv, is_Some (products s !! product kv.2)) rows →
  mapM (λ kv, CartItem_total_price kv.2) rows s
  = (Ok ((λ kv, line_price s kv.2) <$> rows), s).
Proof.
  induction 1 as [|kv rows [p Hp] _ IH]; [done|]. simpl.
  erewrite bind_Ok.
  2:{ unfold CartItem_total_price, CartItem_product.
      erewrite bind_Ok; [reflexivity|].
      rewrite (bind_Ok get_store _ s s s) by done. by rewrite Hp. }
  rewrite (bind_Ok _ _ _ _ _ IH).
  unfold line_price at 2. by rewrite Hp.
Qed.

Lemma products_present_rows id s :
  products_present id s →
  Forall (λ kv, is_Some (products s !! product kv.2))
    (map_to_list (Cart_items id s)).
Proof.
  intros Hall. apply Forall_forall. intros [k it] Hin.
  apply elem_of_map_to_list in Hin. by apply (Hall k it).
Qed.

Lemma Cart_total_price_run id s :
  products_present id s →
  Cart_total_price id s =
    match cache s !! cart_total_key id with
    | Some total => (Ok total, s)
    | None =>
        (Ok (price_total id s),
         set_cache (<[cart_total_key id := price_total id s]>) s)
    end.
Proof.
  intros Hall. unfold Cart_total_price. cbv zeta.
  rewrite (bind_Ok (cache_get _) _ s (cache s !! cart_total_key id) s) by done.
  destruct (cache s !! cart_total_key id); [done|].
  rewrite (bind_Ok _ _ _ _ _ (Cart_items_all_run id s)).
  rewrite (bind_Ok _ _ _ _ _
             (line_totals_run _ s (products_present_rows _ _ Hall))).
  done.
Qed.

(** A cached total is served as it is, whatever the rows are. *)
Lemma Cart_total_price_hit id s total :
  cache s !! cart_total_key id = Some total →
  Cart_total_price id s = (Ok total, s).
Proof.
  intros Hhit. unfold Cart_total_price. cbv zeta.
  rewrite (bind_Ok (cache_get _) _ s (cache s !! cart_total_key id) s) by done.
  by rewrite Hhit.
Qed.

Lemma same_tables_Cart_items id s s' :
  same_tables s s' → Cart_items id s' = Cart_items id s.
Proof. intros (_ & _ & Hi). unfold Cart_items. by rewrite Hi. Qed.

Lemma same_tables_items_total id s s' :
  same_tables s s' → items_total id s' = items_total id s.
Proof.
  intros H. unfold items_total. by rewrite (same_tables_Cart_items _ _ _ H).
Qed.

Lemma same_tables_price_total id s s' :
  same_tables s s' → price_total id s' = price_total id s.
Proof.
  intros H. unfold price_total, line_price.
  rewrite (same_tables_Cart_items _ _ _ H). destruct H as (Hp & _ & _).
  by rewrite Hp.
Qed.

Lemma same_tables_products_present id s s' :
  same_tables s s' → products_present id s → products_present id s'.
Proof.
  intros H. unfold products_present.
  rewrite (same_tables_Cart_items _ _ _ H). destruct H as (Hp & _ & _).
  by rewrite Hp.
Qed.

Lemma invalidate_total_key id m : invalidate id m !! cart_total_key id = None.
Proof.
  unfold invalidate.
  rewrite lookup_delete_ne by (apply not_eq_sym, cart_total_key_ne_items).
  apply lookup_delete_eq.
Qed.

Lemma invalidate_items_key id m : invalidate id m !! cart_items_key id = None.
Proof. unfold invalidate. apply lookup_delete_eq. Qed.

(** The sums of the code, over the queryset of the cart, are the sums of
    the contract, over the rows of the table that belong to the cart. *)
Lemma py_sum_foldr (l : list Z) : py_sum l = foldr Z.add 0 l.
Proof. unfold py_sum. apply fold_symmetric; intros; lia. Qed.

Lemma Cart_items_rows_of id s : map_to_list (Cart_items id s) ≡ₚ rows_of id s.
Proof.
  unfold Cart_items, rows_of. apply NoDup_Permutation.
  - apply NoDup_map_to_list.
  - apply NoDup_filter, NoDup_map_to_list.
  - intros [k it].
    rewrite elem_of_map_to_list, map_lookup_filter_Some, list_elem_of_filter,
      elem_of_map_to_list.
    unfold in_cart. tauto.
Qed.

Lemma sum_over_rows (f : Z * CartItem → Z) id s :
  py_sum (f <$> map_to_list (Cart_items id s))
  = foldr (λ kv acc, f kv + acc) 0 (rows_of id s).
Proof.
  rewrite py_sum_foldr, foldr_fmap.
  apply (foldr_permutation_proper (=) (λ kv acc, f kv + acc) 0);
    [intros; lia|apply Cart_items_rows_of].
Qed.

Lemma items_total_sum id s : items_total id s = sum_of_quantities id s.
Proof. apply (sum_over_rows (λ kv, quantity kv.2)). Qed.

Lemma price_total_sum id s : price_total id s = sum_of_prices id s.
Proof. apply (sum_over_rows (λ kv, line_price s kv.2)). Qed.

Lemma products_present_of_table id s :
  (∀ k it, items s !! k = Some it → cart it = id →
           is_Some (products s !! product it)) →
  products_present id s.
Proof.
  intros Hfk. apply map_Forall_lookup. intros k it Hk.
  apply map_lookup_filter_Some in Hk as [Hk Hin]. by apply (Hfk k).
Qed.

(** C4.  With no cached entry for the cart, [total_price] returns the sum
    of quantity times product price over the rows of the item table that
    belong to the cart, and [total_items] the sum of their quantities; the
    rows of other carts do not count.  Each read caches what it returns.
    In any later store [s'] whose tables are those of the first read (no
    mutation in between), the totals recomputed after [clear_cache] equal
    the values that were cached. *)
Theorem totals_recomputed_equal_cached (s s' : Store) (id : Z) :
  (∀ k it, items s !! k = Some it → cart it = id →
           is_Some (products s !! product it)) →
  cache s !! cart_total_key id = None →
  cache s !! cart_items_key id = None →
  same_tables s s' →
  let price := Cart_total_price id s in
  let count := Cart_total_items id s in
  price.1 = Ok (sum_of_prices id s)
  ∧ count.1 = Ok (sum_of_quantities id s)
  ∧ cache price.2 !! cart_total_key id = Some (sum_of_prices id s)
  ∧ cache count.2 !! cart_items_key id = Some (sum_of_quantities id s)
  ∧ (Cart_total_price id (Cart_clear_cache id s').2).1
    = Ok (sum_of_prices id s)
  ∧ (Cart_total_items id (Cart_clear_cache id s').2).1
    = Ok (sum_of_quantities id s).
Proof.
  intros Hfk%products_present_of_table Hprice Hcount Hsame price count.
  subst price count.
  assert (same_tables s (set_cache (invalidate id) s')) as Hsame'.
  { eapply same_tables_trans; [exact Hsame|apply same_tables_set_cache]. }
  rewrite <- price_total_sum, <- items_total_sum.
  rewrite Cart_clear_cache_run. cbn [snd].
  rewrite (Cart_total_price_run id s Hfk), Hprice.
  rewrite (Cart_total_price_run id (set_cache (invalidate id) s'))
    by by apply (same_tables_products_present id s).
  rewrite !Cart_total_items_run, Hcount. cbn [fst snd set_cache cache].
  rewrite !lookup_insert_eq, invalidate_total_key, invalidate_items_key.
  cbn [fst].
  rewrite (same_tables_price_total id s _ Hsame').
  rewrite (same_tables_items_total id s _ Hsame'). done.
Qed.

(** Of the two carts of the example, each total counts the rows of its own
    cart only: 2 units and 200.00 for cart 1, whose reads after
    [clear_cache] give the same, although the table holds 3 units. *)
Lemma totals_recomputed_equal_cached_witness :
  sum_of_prices 1 example_two_users = 20000
  ∧ sum_of_quantities 1 example_two_users = 2
  ∧ (Cart_total_price 1 example_two_users).1 = Ok 20000
  ∧ (Cart_total_items 1 example_two_users).1 = Ok 2
  ∧ (Cart_total_price 1
       (Cart_clear_cache 1 (Cart_total_price 1 example_two_users).2).2).1
    = Ok 20000
  ∧ (Cart_total_items 1
       (Cart_clear_cache 1 (Cart_total_price 1 example_two_users).2).2).1
    = Ok 2.
Proof.
  assert (∀ k it, items example_two_users !! k = Some it → cart it = 1 →
                  is_Some (products example_two_users !! product it)) as Hfk.
  { intros k it Hk _.
    cbn [items example_two_users] in Hk.
    apply lookup_insert_Some in Hk as [[_ <-]|[_ Hk]]; [by eexists|].
    apply lookup_singleton_Some in Hk as [_ <-]. by eexists. }
  assert (sum_of_prices 1 example_two_users = 20000) as Hprice
    by (by vm_compute).
  assert (sum_of_quantities 1 example_two_users = 2) as Hcount
    by (by vm_compute).
  pose proof (totals_recomputed_equal_cached example_two_users
                (Cart_total_price 1 example_two_users).2 1 Hfk
                eq_refl eq_refl
                (reads_only_Cart_total_price 1 example_two_users))
    as (Hp & Hc & _ & _ & Hrp & Hrc).
  rewrite Hprice in Hp, Hrp. rewrite Hcount in Hc, Hrc.
  split; [exact Hprice|]. split; [exact Hcount|].
  split; [exact Hp|]. split; [exact Hc|]. split; [exact Hrp|exact Hrc].
Defined.

(** ** Adding through the site *)

Lemma get_product_or_404_run wanted p s :
  products s !! wanted = Some p → available p = true →
  get_product_or_404 wanted s = (Ok p, s).
Proof.
  intros Hp Ha. unfold get_product_or_404.
  apply try_except_Ok. by apply Product_get_available_run.
Qed.

Lemma get_product_or_404_missing wanted s :
  available <$> products s !! wanted ≠ Some true →
  get_product_or_404 wanted s = (Raise Http404, s).
Proof.
  intros Hp. unfold get_product_or_404.
  erewrite try_except_Raise; [|by apply Product_get_available_missing]. done.
Qed.

(** A view of the site whose [try] block raised: whatever the exception,
    the clause that handles it calls [JsonResponse], and the [NameError]
    of that call leaves the view. *)
Lemma add_to_cart_raised request wanted s e s' :
  add_to_cart_try request wanted s = (Raise e, s') →
  add_to_cart request wanted s = (Raise NameError, s').
Proof.
  intros Htry. unfold add_to_cart.
  rewrite (try_except_Raise _ _ _ _ _ Htry). by destruct e.
Qed.

Lemma update_cart_item_raised request item_id s e s' :
  update_cart_item_try request item_id s = (Raise e, s') →
  update_cart_item request item_id s = (Raise NameError, s').
Proof.
  intros Htry. unfold update_cart_item.
  rewrite (try_except_Raise _ _ _ _ _ Htry). by destruct e.
Qed.

Lemma site_raised request call s s' :
  site_view request call s = (Raise NameError, s') →
  site request call s
  = (mkResponse HTTP_500_INTERNAL_SERVER_ERROR ServerErrorPayload, s').
Proof. intros Hview. unfold site, handle_exception. by rewrite Hview. Qed.

(** An add that passes the guards writes the line, deletes the key
    [cart_<id>] and then fails at the [JsonResponse] of its last
    statement: the total of the response is never computed, so nothing is
    cached. *)
Lemma add_to_cart_run request wanted p q s pk s1 :
  has_cart request s pk →
  products s !! wanted = Some p → available p = true →
  1 ≤ q ≤ 99 →
  (CartItem_get_or_create pk wanted q
   ≫= λ '(item_pk, cart_item, created),
        if created : bool then mret tt
        else merge_quantity item_pk cart_item q) s = (Ok tt, s1) →
  add_to_cart (with_quantity q request) wanted s =
    (Raise NameError, set_cache (delete (cart_key pk)) s1).
Proof.
  intros Hcart Hp Ha Hq Hline.
  apply (add_to_cart_raised _ _ _ NameError).
  unfold add_to_cart_try. cbn [with_quantity request_body body_is_empty].
  rewrite (bind_Ok (json_loads _) _ s (Some (IntOf q)) s) by done.
  rewrite (bind_Ok (int_quantity _) _ s q s) by done.
  destruct (Z.ltb_spec q 1); [lia|]. destruct (Z.ltb_spec 99 q); [lia|].
  rewrite (bind_Ok _ _ _ _ _ (get_product_or_404_run _ _ _ Hp Ha)).
  rewrite (bind_Ok _ _ _ _ _ Hcart).
  transitivity
    ((((CartItem_get_or_create pk wanted q
        ≫= λ '(item_pk, cart_item, created),
             if created : bool then mret tt
             else merge_quantity item_pk cart_item q)
       ≫= λ _, cache_delete (cart_key pk)
       ≫= λ _, JsonResponse
                 (Cart_total_items pk
                  ≫= λ total, mret (json true (ProductAdded wanted)
                                      (Some ("cart_total", total)) 200))))
       s).
  { rewrite bind_assoc. unfold mbind, M_bind.
    by destruct (CartItem_get_or_create pk wanted q s)
      as [[[[k it] cr]|e] s0]. }
  by rewrite (bind_Ok _ _ _ _ _ Hline).
Qed.

Lemma site_add_run request pk wanted p q s s1 :
  has_cart request s pk →
  products s !! wanted = Some p → available p = true →
  1 ≤ q ≤ 99 →
  (CartItem_get_or_create pk wanted q
   ≫= λ '(item_pk, cart_item, created),
        if created : bool then mret tt
        else merge_quantity item_pk cart_item q) s = (Ok tt, s1) →
  site_add request wanted q s
  = (mkResponse HTTP_500_INTERNAL_SERVER_ERROR ServerErrorPayload,
     set_cache (delete (cart_key pk)) s1).
Proof.
  intros Hcart Hp Ha Hq Hline. unfold site_add.
  apply site_raised. cbn [site_view].
  by apply (add_to_cart_run _ _ p).
Qed.

Lemma site_add_new request pk wanted p q s :
  has_cart request s pk →
  products s !! wanted = Some p → available p = true →
  1 ≤ q ≤ 99 →
  CartItem_filter pk wanted s = ∅ →
  let out := site_add request wanted q s in
  status out.1 = HTTP_500_INTERNAL_SERVER_ERROR
  ∧ products out.2 = products s ∧ carts out.2 = carts s
  ∧ items out.2 = <[next_pk (items s) := mkCartItem pk wanted q]> (items s).
Proof.
  intros Hcart Hp Ha Hq Hnone out. subst out.
  by rewrite (site_add_run _ _ _ _ _ _ _ Hcart Hp Ha Hq
                (add_line_new pk wanted q s Hnone
                   (has_cart_exists _ _ _ Hcart))).
Qed.

Lemma site_add_found request pk wanted p q s k it :
  has_cart request s pk →
  products s !! wanted = Some p → available p = true →
  1 ≤ q ≤ 99 →
  CartItem_filter pk wanted s = {[ k := it ]} →
  let out := site_add request wanted q s in
  status out.1 = HTTP_500_INTERNAL_SERVER_ERROR
  ∧ products out.2 = products s ∧ carts out.2 = carts s
  ∧ items out.2 = <[k := set_quantity (Z.min (quantity it + q) 99) it]> (items s).
Proof.
  intros Hcart Hp Ha Hq Hone out. subst out.
  by rewrite (site_add_run _ _ _ _ _ _ _ Hcart Hp Ha Hq
                (add_line_found pk wanted q s k it Hone
                   (has_cart_exists _ _ _ Hcart))).
Qed.

(** C1.  The two add views on a cart that holds no item of the product,
    for an available product and quantities [q1], [q2] within [1, 99].
    Through the API nothing is merged, because nothing is added: each call
    of [add_item] answers 500 and leaves the store as it was, so the cart
    still has no item of the product.  Through the site the two adds leave
    exactly one item for the pair of cart and product, with the quantity
    [min(q1 + q2, 99)], which is what the claim says of every add; the
    view answers 500 all the same. *)
Theorem add_twice_api_adds_nothing (s : Store) (pk wanted q1 q2 : Z)
    (p : Product) :
  products s !! wanted = Some p → available p = true →
  1 ≤ q1 ≤ 99 → 1 ≤ q2 ≤ 99 →
  CartItem_filter pk wanted s = ∅ →
  (∀ uid c,
     CartViewSet_get_queryset (Some uid) s !! pk = Some c →
     let first := api_add uid pk wanted q1 s in
     let second := api_add uid pk wanted q2 first.2 in
     first = (mkResponse HTTP_500_INTERNAL_SERVER_ERROR ServerErrorPayload, s)
     ∧ second
       = (mkResponse HTTP_500_INTERNAL_SERVER_ERROR ServerErrorPayload, s)
     ∧ CartItem_filter pk wanted second.2 = ∅)
  ∧ (∀ request,
       has_cart request s pk →
       let first := site_add request wanted q1 s in
       let second := site_add request wanted q2 first.2 in
       status first.1 = HTTP_500_INTERNAL_SERVER_ERROR
       ∧ status second.1 = HTTP_500_INTERNAL_SERVER_ERROR
       ∧ ∃ k, CartItem_filter pk wanted second.2
              = {[ k := mkCartItem pk wanted (Z.min (q1 + q2) 99) ]}).
Proof.
  intros Hp Ha Hq1 Hq2 Hnone. split.
  - intros uid c Hget first second. subst first second.
    rewrite (api_add_run _ _ _ wanted q1 _ Hget Hq1). cbn [snd].
    by rewrite (api_add_run _ _ _ wanted q2 _ Hget Hq2).
  - intros request Hcart first second. subst first second.
    destruct (site_add_new _ _ _ _ _ _ Hcart Hp Ha Hq1 Hnone)
      as (Hfirst & Hp1 & Hc1 & Hi1).
    set (s1 := (site_add request wanted q1 s).2) in *.
    pose proof (CartItem_filter_created _ _ _ _ s1 Hnone Hi1) as Hone.
    assert (has_cart request s1 pk) as Hcart1
      by by apply (has_cart_same_carts _ s).
    destruct (site_add_found _ _ _ p q2 _ _ _ Hcart1
                ltac:(by rewrite Hp1) Ha Hq2 Hone) as (Hsecond & _ & _ & Hi2).
    split; [exact Hfirst|]. split; [exact Hsecond|].
    exists (next_pk (items s)).
    apply (CartItem_filter_merged _ _ s1 _ _ _ _ Hone Hi2).
Qed.

Lemma add_twice_api_adds_nothing_witness :
  CartItem_filter 1 5 example_empty_cart = ∅
  ∧ status (api_add 7 1 5 1 example_empty_cart).1 = 500
  ∧ items (api_add 7 1 5 1 (api_add 7 1 5 1 example_empty_cart).2).2 = ∅
  ∧ (∃ k, CartItem_filter 1 5
            (site_add example_request 5 60
               (site_add example_request 5 60 example_empty_cart).2).2
          = {[ k := mkCartItem 1 5 99 ]}).
Proof.
  assert (CartItem_filter 1 5 example_empty_cart = ∅) as Hnone
    by apply map_filter_empty.
  destruct (add_twice_api_adds_nothing example_empty_cart 1 5 1 1
              (mkProduct 10000 true) eq_refl eq_refl
              ltac:(lia) ltac:(lia) Hnone) as [Hapi _].
  destruct (add_twice_api_adds_nothing example_empty_cart 1 5 60 60
              (mkProduct 10000 true) eq_refl eq_refl
              ltac:(lia) ltac:(lia) Hnone) as [_ Hsite].
  destruct (Hapi 7 (mkCart (Some 7) None) ltac:(by vm_compute))
    as (Hfirst & Hsecond & _).
  destruct (Hsite example_request ltac:(by vm_compute)) as (_ & _ & Hline).
  split; [exact Hnone|]. split; [by rewrite Hfirst|].
  split; [|exact Hline].
  by rewrite Hsecond.
Defined.

(** On a cart that already holds one line of the product, the two adds of
    the site merge into that line: it ends with [min(q0 + q1 + q2, 99)],
    where [q0] is the quantity the line had. *)
Lemma site_add_twice_merges_into_line (s : Store) (pk wanted q1 q2 k : Z)
    (p : Product) (it : CartItem) (request : HttpRequest) :
  products s !! wanted = Some p → available p = true →
  1 ≤ q1 ≤ 99 → 1 ≤ q2 ≤ 99 →
  CartItem_filter pk wanted s = {[ k := it ]} →
  has_cart request s pk →
  CartItem_filter pk wanted
    (site_add request wanted q2 (site_add request wanted q1 s).2).2
  = {[ k := set_quantity (Z.min (quantity it + q1 + q2) 99) it ]}.
Proof.
  intros Hp Ha Hq1 Hq2 Hone Hcart.
  assert (∀ it1, it1 = set_quantity (Z.min (quantity it + q1) 99) it →
            set_quantity (Z.min (quantity it1 + q2) 99) it1
            = set_quantity (Z.min (quantity it + q1 + q2) 99) it) as Hmerge.
  { intros it1 ->. unfold set_quantity. simpl. f_equal. lia. }
  destruct (site_add_found _ _ _ _ _ _ _ _ Hcart Hp Ha Hq1 Hone)
    as (_ & Hp1 & Hc1 & Hi1).
  set (s1 := (site_add request wanted q1 s).2) in *.
  pose proof (CartItem_filter_merged _ _ _ s1 _ _ _ Hone Hi1) as Hone1.
  assert (has_cart request s1 pk) as Hcart1
    by by apply (has_cart_same_carts _ s).
  destruct (site_add_found _ _ _ p q2 _ _ _ Hcart1
              ltac:(by rewrite Hp1) Ha Hq2 Hone1) as (_ & _ & _ & Hi2).
  rewrite (CartItem_filter_merged _ _ s1 _ _ _ _ Hone1 Hi2).
  by rewrite (Hmerge _ eq_refl).
Qed.

(** ** Adding a product that is missing or unavailable *)

Lemma site_add_missing_product request wanted q s :
  available <$> products s !! wanted ≠ Some true →
  1 ≤ q ≤ 99 →
  site_add request wanted q s
  = (mkResponse HTTP_500_INTERNAL_SERVER_ERROR ServerErrorPayload, s).
Proof.
  intros Hmissing Hq. unfold site_add.
  apply site_raised. cbn [site_view].
  apply (add_to_cart_raised _ _ _ Http404).
  unfold add_to_cart_try. cbn [with_quantity request_body body_is_empty].
  rewrite (bind_Ok (json_loads _) _ s (Some (IntOf q)) s) by done.
  rewrite (bind_Ok (int_quantity _) _ s q s) by done.
  destruct (Z.ltb_spec q 1); [lia|]. destruct (Z.ltb_spec 99 q); [lia|].
  by rewrite (bind_Raise _ _ _ _ _
                (get_product_or_404_missing _ _ Hmissing)).
Qed.

(** C7.  For a product id that is missing or marked unavailable (and a
    quantity within [1, 99]), neither add view touches the store, so no
    item is created or modified and the totals stay as they were; and
    neither answers 404: both answer 500.  The API view raises [KeyError]
    at [validated_data['product_id']], before it looks the product up.
    The site view raises [Http404] inside its own [try] block, whose last
    clause, [except Exception], catches it and then fails at
    [JsonResponse]. *)
Theorem add_unknown_product_answers_500 (s : Store) (wanted q : Z) :
  available <$> products s !! wanted ≠ Some true →
  1 ≤ q ≤ 99 →
  (∀ uid pk c,
     CartViewSet_get_queryset (Some uid) s !! pk = Some c →
     api_add uid pk wanted q s
     = (mkResponse HTTP_500_INTERNAL_SERVER_ERROR ServerErrorPayload, s))
  ∧ (∀ request,
       site_add request wanted q s
       = (mkResponse HTTP_500_INTERNAL_SERVER_ERROR ServerErrorPayload, s)).
Proof.
  intros Hmissing Hq. split.
  - intros uid pk c Hget. by apply (api_add_run _ _ c).
  - intros request. by apply site_add_missing_product.
Qed.

Lemma add_unknown_product_answers_500_witness :
  available <$> products example_store !! 6 ≠ Some true
  ∧ site example_request (AddToCart 6) example_store
    = (mkResponse 500 ServerErrorPayload, example_store)
  ∧ api (Some 7) (AddItem 1 (mkItemInput (Int 6) (Int 1))) example_store
    = (mkResponse 500 ServerErrorPayload, example_store).
Proof.
  assert (available <$> products example_store !! 6 ≠ Some true) as Hgone
    by (by vm_compute).
  destruct (add_unknown_product_answers_500 example_store 6 1 Hgone
              ltac:(lia)) as [Hapi Hsite].
  split; [exact Hgone|]. split.
  - exact (Hsite example_request).
  - apply (Hapi 7 1 (mkCart (Some 7) None)). by vm_compute.
Defined.

(** ** Setting a quantity *)

Lemma CartItemSerializer_rejects partial data q :
  quantity_field data = Int q → q < 1 ∨ 99 < q →
  ∃ errors, CartItemSerializer_is_valid partial data = inl errors.
Proof.
  intros Hfield Hq.
  unfold CartItemSerializer_is_valid, run_validation,
    CartItemSerializer_validate_quantity.
  rewrite Hfield.
  destruct (Z.ltb_spec q 1), (Z.ltb_spec 99 q); try lia;
    destruct (product_id data), partial; eauto.
Qed.

Lemma CartItemSerializer_accepts partial data q :
  quantity_field data = Int q → 1 ≤ q ≤ 99 →
  product_id_accepted partial data →
  ∃ wanted, CartItemSerializer_is_valid partial data
            = inr (mkValidated wanted (Some q)).
Proof.
  intros Hfield Hq Hproduct.
  unfold CartItemSerializer_is_valid, run_validation,
    CartItemSerializer_validate_quantity, product_id_accepted in *.
  rewrite Hfield.
  destruct (Z.ltb_spec q 1), (Z.ltb_spec 99 q); try lia.
  destruct (product_id data); [subst partial| |]; by eauto.
Qed.

(** What leaves the serializer with a quantity has it within [1, 99]. *)
Lemma CartItemSerializer_validated_range partial data validated q :
  CartItemSerializer_is_valid partial data = inr validated →
  validated_quantity validated = Some q →
  1 ≤ q ≤ 99 ∧ quantity_field data = Int q.
Proof.
  unfold CartItemSerializer_is_valid, run_validation,
    CartItemSerializer_validate_quantity.
  intros Hvalid Hq.
  destruct (quantity_field data) as [| |z]; [| |destruct (Z.ltb_spec z 1);
    [|destruct (Z.ltb_spec 99 z)]];
    destruct (product_id data), partial; simplify_eq/=; split; (lia || done).
Qed.

Lemma CartItemSerializer_validated_missing partial data validated :
  CartItemSerializer_is_valid partial data = inr validated →
  validated_quantity validated = None →
  quantity_field data = Missing.
Proof.
  unfold CartItemSerializer_is_valid, run_validation,
    CartItemSerializer_validate_quantity.
  intros Hvalid Hq.
  destruct (quantity_field data) as [| |z]; [| |destruct (Z.ltb_spec z 1);
    [|destruct (Z.ltb_spec 99 z)]];
    destruct (product_id data), partial; by simplify_eq/=.
Qed.

Lemma perform_update_save pk it validated s q :
  is_Some (carts s !! cart it) →
  default (quantity it) (validated_quantity validated) = q → 1 ≤ q →
  CartItemViewSet_perform_update pk it validated s =
    (Ok (Some pk, set_quantity q it),
     mkStore (products s) (carts s) (<[pk := set_quantity q it]> (items s))
       (invalidate (cart it) (cache s))).
Proof.
  intros Hc Hdefault Hq. unfold CartItemViewSet_perform_update.
  rewrite Hdefault. destruct (Z.ltb_spec q 1); [lia|].
  by rewrite (bind_Ok _ _ _ _ _ (CartItem_save_run pk (set_quantity q it) s Hc)).
Qed.

Lemma perform_update_delete pk it validated s q :
  is_Some (carts s !! cart it) →
  default (quantity it) (validated_quantity validated) = q → q < 1 →
  CartItemViewSet_perform_update pk it validated s =
    (Ok (None, it),
     mkStore (products s) (carts s) (delete pk (items s))
       (invalidate (cart it) (cache s))).
Proof.
  intros Hc Hdefault Hq. unfold CartItemViewSet_perform_update.
  rewrite Hdefault. destruct (Z.ltb_spec q 1); [|lia].
  by rewrite (bind_Ok _ _ _ _ _ (CartItem_delete_run pk _ s Hc)).
Qed.

Lemma api_update_rejected uid pk it partial data s errors :
  CartItemViewSet_get_queryset (Some uid) s !! pk = Some it →
  CartItemSerializer_is_valid partial data = inl errors →
  api (Some uid) (Update pk partial data) s
  = (mkResponse HTTP_400_BAD_REQUEST (ErrorsPayload errors), s).
Proof.
  intros Hget Hinvalid. rewrite api_authenticated.
  unfold handle_exception, api_view, CartItemViewSet_update.
  rewrite (bind_Ok _ _ _ _ _ (CartItemViewSet_get_object_run _ _ _ _ Hget)).
  by rewrite Hinvalid.
Qed.

Lemma reads_only_render_item pk it :
  reads_only (CartItemSerializer_data pk it
              ≫= λ d, mret (mkResponse HTTP_200_OK (ItemPayload d))).
Proof.
  apply reads_only_bind; [apply reads_only_CartItemSerializer_data|].
  intros d. apply reads_only_ret.
Qed.

Lemma api_update_performed uid pk it partial data s validated out s1 :
  CartItemViewSet_get_queryset (Some uid) s !! pk = Some it →
  CartItemSerializer_is_valid partial data = inr validated →
  CartItemViewSet_perform_update pk it validated s = (Ok out, s1) →
  same_tables s1 (api (Some uid) (Update pk partial data) s).2.
Proof.
  intros Hget Hvalid Hperform. rewrite api_authenticated.
  rewrite handle_exception_store.
  unfold api_view, CartItemViewSet_update.
  rewrite (bind_Ok _ _ _ _ _ (CartItemViewSet_get_object_run _ _ _ _ Hget)).
  rewrite Hvalid. rewrite (bind_Ok _ _ _ _ _ Hperform).
  destruct out as [pk' it']. apply reads_only_render_item.
Qed.

Lemma try_except_store {A} (m : M A) (h : Exn → M A) s :
  (∀ e s', (h e s').2 = s') → (try_except m h s).2 = (m s).2.
Proof.
  intros Hh. unfold try_except. destruct (m s) as [[a|e] s']; [done|].
  apply Hh.
Qed.

(** A quantity outside [1, 99] stops [update_cart_item] at its guard,
    before the item is fetched: the store is as it was.  The [JsonResponse]
    of the guard raises [NameError], and so does the clause that catches
    it. *)
Lemma site_update_rejected request item_id q s :
  request_body request = JsonObject (Some (IntOf q)) →
  q < 1 ∨ 99 < q →
  site request (UpdateCartItem item_id) s
  = (mkResponse HTTP_500_INTERNAL_SERVER_ERROR ServerErrorPayload, s).
Proof.
  intros Hbody Hq.
  apply site_raised. cbn [site_view].
  apply (update_cart_item_raised _ _ _ NameError).
  unfold update_cart_item_try. rewrite Hbody.
  rewrite (bind_Ok (json_loads _) _ s (Some (IntOf q)) s) by done.
  rewrite (bind_Ok (int_quantity _) _ s q s) by done.
  destruct (Z.ltb_spec q 1); [done|].
  destruct (Z.ltb_spec 99 q); [done|lia].
Qed.

Lemma reads_only_CartItem_cart it : reads_only (CartItem_cart it).
Proof. unfold CartItem_cart. reads_only_tac. Qed.

Lemma site_update_stored request item_id it q s :
  request_body request = JsonObject (Some (IntOf q)) →
  1 ≤ q ≤ 99 →
  items s !! item_id = Some it →
  let s' := (site request (UpdateCartItem item_id) s).2 in
  products s' = products s ∧ carts s' = carts s
  ∧ items s' = <[item_id := set_quantity q it]> (items s).
Proof.
  intros Hbody Hq Hit s'. subst s'.
  unfold site. rewrite handle_exception_store.
  unfold site_view, update_cart_item.
  rewrite try_except_store by (by intros []).
  unfold update_cart_item_try. rewrite Hbody.
  rewrite (bind_Ok (json_loads _) _ s (Some (IntOf q)) s) by done.
  rewrite (bind_Ok (int_quantity _) _ s q s) by done.
  destruct (Z.ltb_spec q 1); [lia|]. destruct (Z.ltb_spec 99 q); [lia|].
  rewrite (bind_Ok (get_cart_item_or_404 item_id) _ s it s).
  2:{ unfold get_cart_item_or_404.
      rewrite (bind_Ok get_store _ s s s) by done. by rewrite Hit. }
  destruct (carts s !! cart it) as [c|] eqn:Hc.
  - assert (is_Some (carts s !! cart (set_quantity q it))) as Hsome by eauto.
    destruct (bind_Ok_tables _
      (λ _ : (), c ← CartItem_cart (set_quantity q it);
                 cache_delete (cart_key c);;
                 JsonResponse
                   (c ← CartItem_cart (set_quantity q it);
                    total ← Cart_total_price c;
                    mret (json true QuantityUpdated
                            (Some ("new_total", total)) 200))) _ _ _
      (CartItem_save_run item_id (set_quantity q it) s Hsome))
      as (? & ? & ?); [|done].
    apply reads_only_bind; [apply reads_only_CartItem_cart|]. intros c'.
    apply reads_only_bind; [apply reads_only_set_cache|]. intros _.
    apply reads_only_raise.
  - by rewrite (bind_Raise _ _ _ _ _
                  (CartItem_save_orphan item_id (set_quantity q it) s Hc)).
Qed.

(** C2, as stated, fails: a quantity below 1 submitted to the update of the
    API does not delete the item, and one above 99 is not stored. *)
Lemma direct_update_is_validated :
  ¬ (∀ (s : Store) (uid pk q : Z) (it : CartItem) (partial : bool)
       (data : ItemInput),
       CartItemViewSet_get_queryset (Some uid) s !! pk = Some it →
       quantity_field data = Int q →
       let s' := (api (Some uid) (Update pk partial data) s).2 in
       (q < 1 → items s' !! pk = None)
       ∧ (1 ≤ q → quantity <$> items s' !! pk = Some q)).
Proof.
  intros Hclaim.
  destruct (Hclaim example_store 7 3 0 (mkCartItem 1 5 2) true
              (mkItemInput Missing (Int 0))) as [Hdeleted _];
    [by vm_compute|done|].
  specialize (Hdeleted ltac:(lia)). by vm_compute in Hdeleted.
Qed.

(** C2, amended.  A quantity submitted to the direct update of an existing
    item is checked first, on both paths.  Below 1 or above 99 the store
    stays as it was (nothing is deleted, nothing is stored), and the API
    answers 400; within [1, 99] the stored quantity becomes the submitted
    one. *)
Theorem direct_update_stores_valid_quantity (s : Store) (it : CartItem) (q : Z) :
  (∀ uid pk partial data,
     CartItemViewSet_get_queryset (Some uid) s !! pk = Some it →
     quantity_field data = Int q →
     let out := api (Some uid) (Update pk partial data) s in
     (q < 1 ∨ 99 < q → status out.1 = HTTP_400_BAD_REQUEST ∧ out.2 = s)
     ∧ (1 ≤ q ≤ 99 → product_id_accepted partial data →
          items out.2 = <[pk := set_quantity q it]> (items s)))
  ∧ (∀ request item_id,
       items s !! item_id = Some it →
       request_body request = JsonObject (Some (IntOf q)) →
       let out := site request (UpdateCartItem item_id) s in
       (q < 1 ∨ 99 < q → out.2 = s)
       ∧ (1 ≤ q ≤ 99 → items out.2 = <[item_id := set_quantity q it]> (items s))).
Proof.
  split.
  - intros uid pk partial data Hget Hfield out. subst out. split.
    + intros Hq.
      destruct (CartItemSerializer_rejects partial _ _ Hfield Hq)
        as [errors Hinvalid].
      by rewrite (api_update_rejected _ _ _ _ _ _ _ Hget Hinvalid).
    + intros Hq Hproduct.
      destruct (CartItemSerializer_accepts _ _ _ Hfield Hq Hproduct)
        as [wanted Hvalid].
      pose proof Hget as [_ (c & Hc & _)]%owned_item_lookup.
      pose proof (perform_update_save pk it (mkValidated wanted (Some q)) s q
                    ltac:(eauto) eq_refl ltac:(lia)) as Hperform.
      by destruct (api_update_performed _ _ _ _ _ _ _ _ _
                     Hget Hvalid Hperform) as (_ & _ & ->).
  - intros request item_id Hit Hbody out. subst out. split.
    + intros Hq.
      by rewrite (site_update_rejected request item_id q s Hbody Hq).
    + intros Hq.
      by destruct (site_update_stored request item_id it q s Hbody Hq Hit)
        as (_ & _ & ->).
Qed.

Lemma direct_update_stores_valid_quantity_witness :
  CartItemViewSet_get_queryset (Some 7) example_store !! 3
    = Some (mkCartItem 1 5 2)
  ∧ items (api (Some 7) (Update 3 true (mkItemInput Missing (Int 4)))
             example_store).2
    = <[3 := mkCartItem 1 5 4]> (items example_store)
  ∧ items (site (with_quantity 4 example_request) (UpdateCartItem 3)
             example_store).2
    = <[3 := mkCartItem 1 5 4]> (items example_store)
  ∧ (site (with_quantity 100 example_request) (UpdateCartItem 3)
       example_store).2
    = example_store.
Proof.
  assert (CartItemViewSet_get_queryset (Some 7) example_store !! 3
          = Some (mkCartItem 1 5 2)) as Hget by (by vm_compute).
  assert (items example_store !! 3 = Some (mkCartItem 1 5 2)) as Hit
    by (by vm_compute).
  destruct (direct_update_stores_valid_quantity example_store
              (mkCartItem 1 5 2) 4) as [Hapi Hsite].
  destruct (direct_update_stores_valid_quantity example_store
              (mkCartItem 1 5 2) 100) as [_ Hrejected].
  split; [exact Hget|]. split; [|split].
  - exact (proj2 (Hapi 7 3 true (mkItemInput Missing (Int 4)) Hget eq_refl)
             ltac:(lia) eq_refl).
  - exact (proj2 (Hsite (with_quantity 4 example_request) 3 Hit eq_refl)
             ltac:(lia)).
  - exact (proj1 (Hrejected (with_quantity 100 example_request) 3 Hit eq_refl)
             ltac:(lia)).
Defined.

(** ** Which branch of [perform_update] runs *)

(** C10, as stated, fails: an update that leaves the quantity out passes
    the validation, [perform_update] falls back on the stored quantity, and
    for an item stored with quantity 0 (which the column type allows) it
    runs the delete branch. *)
Lemma update_without_quantity_reaches_delete :
  ¬ (∀ (s : Store) (uid pk : Z) (it : CartItem) (partial : bool)
       (data : ItemInput) (validated : Validated),
       CartItemViewSet_get_queryset (Some uid) s !! pk = Some it →
       CartItemSerializer_is_valid partial data = inr validated →
       ∃ q s1,
         1 ≤ q ≤ 99
         ∧ CartItemViewSet_perform_update pk it validated s
           = (Ok (Some pk, set_quantity q it), s1)).
Proof.
  intros Hclaim.
  destruct (Hclaim (store_with_quantity 0) 7 3 (mkCartItem 1 5 0) true
              (mkItemInput Missing Missing) (mkValidated None None))
    as (q & s1 & _ & Hsave); [by vm_compute|done|].
  rewrite (perform_update_delete 3 _ _ (store_with_quantity 0) 0) in Hsave;
    [done|by vm_compute|done|lia].
Qed.

(** C10, amended.  A submitted quantity below 1 or above 99 is rejected by
    [validate_quantity] with the response 400 before [perform_update] runs.
    When the data passes, and it carries a quantity or the stored quantity
    is within [1, 99], [perform_update] executes the save branch with a
    quantity within [1, 99].  (Without a submitted quantity it falls back
    on the stored one.) *)
Theorem update_runs_save_branch (s : Store) (uid pk : Z) (it : CartItem)
    (partial : bool) (data : ItemInput) :
  CartItemViewSet_get_queryset (Some uid) s !! pk = Some it →
  (∀ q, quantity_field data = Int q → q < 1 ∨ 99 < q →
     ∃ errors,
       CartItemSerializer_is_valid partial data = inl errors
       ∧ api (Some uid) (Update pk partial data) s
         = (mkResponse HTTP_400_BAD_REQUEST (ErrorsPayload errors), s))
  ∧ (∀ validated,
       CartItemSerializer_is_valid partial data = inr validated →
       quantity_field data ≠ Missing ∨ 1 ≤ quantity it ≤ 99 →
       ∃ q,
         1 ≤ q ≤ 99
         ∧ CartItemViewSet_perform_update pk it validated s
           = (Ok (Some pk, set_quantity q it),
              mkStore (products s) (carts s)
                (<[pk := set_quantity q it]> (items s))
                (invalidate (cart it) (cache s)))).
Proof.
  intros Hget. split.
  - intros q Hfield Hq.
    destruct (CartItemSerializer_rejects partial _ _ Hfield Hq)
      as [errors Hinvalid].
    exists errors. split; [done|]. by apply (api_update_rejected _ _ it).
  - intros validated Hvalid Hrange.
    pose proof Hget as [_ (c & Hc & _)]%owned_item_lookup.
    destruct (validated_quantity validated) as [q|] eqn:Hq.
    + destruct (CartItemSerializer_validated_range _ _ _ _ Hvalid Hq)
        as [Hin _].
      exists q. split; [done|].
      apply perform_update_save; [by eauto|by rewrite Hq|lia].
    + pose proof (CartItemSerializer_validated_missing _ _ _ Hvalid Hq).
      destruct Hrange as [?|Hstored]; [done|].
      exists (quantity it). split; [done|].
      apply perform_update_save; [by eauto|by rewrite Hq|lia].
Qed.

Lemma update_runs_save_branch_witness :
  CartItemViewSet_get_queryset (Some 7) example_store !! 3
    = Some (mkCartItem 1 5 2)
  ∧ (∃ q, 1 ≤ q ≤ 99
       ∧ (CartItemViewSet_perform_update 3 (mkCartItem 1 5 2)
            (mkValidated None None) example_store).1
         = Ok (Some 3, mkCartItem 1 5 q))
  ∧ status (api (Some 7) (Update 3 true (mkItemInput Missing (Int 0)))
              example_store).1 = HTTP_400_BAD_REQUEST.
Proof.
  assert (CartItemViewSet_get_queryset (Some 7) example_store !! 3
          = Some (mkCartItem 1 5 2)) as Hget by (by vm_compute).
  split; [exact Hget|]. split.
  - destruct (proj2 (update_runs_save_branch example_store 7 3
                       (mkCartItem 1 5 2) true
                       (mkItemInput Missing Missing) Hget)
                (mkValidated None None) eq_refl)
      as (q & Hq & Hrun); [right; simpl; lia|].
    exists q. split; [exact Hq|]. by rewrite Hrun.
  - destruct (proj1 (update_runs_save_branch example_store 7 3
                       (mkCartItem 1 5 2) true
                       (mkItemInput Missing (Int 0)) Hget)
                0 eq_refl)
      as (errors & _ & Hrun); [left; lia|].
    by rewrite Hrun.
Defined.

(** ** Clearing a cart *)

Lemma Cart_items_all_delete_run id s :
  Cart_items_all_delete id s
  = (Ok tt, set_items (filter (not_in_cart id)) s).
Proof. reflexivity. Qed.

Lemma Cart_items_after_delete id (m : gmap Z CartItem) :
  filter (in_cart id) (filter (not_in_cart id) m) = ∅.
Proof.
  apply map_empty_filter_2. intros k it Hk.
  by apply map_lookup_filter_Some in Hk as [_ Hout].
Qed.

Lemma delete_from_empty_cart id s :
  Cart_items id s = ∅ → filter (not_in_cart id) (items s) = items s.
Proof.
  intros Hempty. apply map_filter_id. intros k it Hk.
  by apply (map_empty_filter_1 _ _ Hempty k it).
Qed.

Lemma set_cache_id s : set_cache (λ m, m) s = s.
Proof. by destruct s. Qed.

Lemma Cart_total_items_memo id s :
  Cart_total_items id s =
    (Ok (default (items_total id s) (cache s !! cart_items_key id)),
     set_cache (memo (cart_items_key id) (items_total id s)) s).
Proof.
  rewrite Cart_total_items_run. unfold memo, set_cache.
  destruct (cache s !! cart_items_key id); [by destruct s|done].
Qed.

Lemma Cart_total_price_memo id s :
  products_present id s →
  Cart_total_price id s =
    (Ok (default (price_total id s) (cache s !! cart_total_key id)),
     set_cache (memo (cart_total_key id) (price_total id s)) s).
Proof.
  intros Hfk. rewrite (Cart_total_price_run id s Hfk). unfold memo, set_cache.
  destruct (cache s !! cart_total_key id); [by destruct s|done].
Qed.

Lemma empty_cart_totals id s :
  Cart_items id s = ∅ →
  items_total id s = 0 ∧ price_total id s = 0 ∧ products_present id s.
Proof.
  intros Hempty. unfold items_total, price_total, products_present.
  rewrite Hempty, map_to_list_empty. repeat split. apply map_Forall_empty.
Qed.

Lemma memo_other key key' v (m : gmap string Z) :
  key ≠ key' → memo key v m !! key' = m !! key'.
Proof.
  intros Hne. unfold memo. destruct (m !! key); [done|].
  by rewrite lookup_insert_ne.
Qed.

Lemma memo_keeps key key' v w (m : gmap string Z) :
  m !! key' = Some w → memo key v m !! key' = Some w.
Proof.
  intros Hw. unfold memo. destruct (m !! key) eqn:Hk; [done|].
  rewrite lookup_insert_ne; [done|]. intros ->. congruence.
Qed.

(** Rendering a cart without items: no row to render, and the two totals
    come from the cache or are computed as 0. *)
Lemma CartSerializer_data_empty pk c s :
  Cart_items pk s = ∅ →
  CartSerializer_data pk c s =
    (Ok (mkCartData pk (user c) []
           (default 0 (cache s !! cart_items_key pk))
           (default 0 (cache s !! cart_total_key pk))),
     set_cache (λ m, memo (cart_total_key pk) 0
                       (memo (cart_items_key pk) 0 m)) s).
Proof.
  intros Hempty. unfold CartSerializer_data.
  rewrite (bind_Ok _ _ _ _ _ (Cart_items_all_run pk s)).
  rewrite Hempty, map_to_list_empty. cbn [mapM].
  rewrite (bind_Ok (mret []) _ s [] s) by done.
  destruct (empty_cart_totals pk s Hempty) as (Hcount & Hprice & Hfk).
  rewrite (bind_Ok _ _ _ _ _ (Cart_total_items_memo pk s)).
  rewrite Hcount.
  set (s1 := set_cache (memo (cart_items_key pk) 0) s).
  assert (same_tables s s1) as Hsame by apply same_tables_set_cache.
  rewrite (bind_Ok _ _ _ _ _
             (Cart_total_price_memo pk s1
                (same_tables_products_present pk s s1 Hsame Hfk))).
  rewrite (same_tables_price_total pk s s1 Hsame), Hprice.
  subst s1. cbn [set_cache cache].
  rewrite memo_other by (apply not_eq_sym, cart_total_key_ne_items).
  done.
Qed.

Lemma api_clear_run uid pk c s :
  CartViewSet_get_queryset (Some uid) s !! pk = Some c →
  api (Some uid) (Clear pk) s =
    (mkResponse HTTP_200_OK
       (CartPayload (mkCartData pk (user c) []
                       (default 0 (cache s !! cart_items_key pk))
                       (default 0 (cache s !! cart_total_key pk)))),
     mkStore (products s) (carts s) (filter (not_in_cart pk) (items s))
       (memo (cart_total_key pk) 0 (memo (cart_items_key pk) 0 (cache s)))).
Proof.
  intros Hget. rewrite api_authenticated.
  unfold handle_exception, api_view, CartViewSet_clear.
  rewrite (bind_Ok _ _ _ _ _ (CartViewSet_get_object_run _ _ _ _ Hget)).
  rewrite (bind_Ok _ _ _ _ _ (Cart_items_all_delete_run pk s)).
  rewrite (bind_Ok _ _ _ _ _
             (CartSerializer_data_empty pk c
                (set_items (filter (not_in_cart pk)) s)
                (Cart_items_after_delete pk (items s)))).
  done.
Qed.

(** [clear_cart] deletes the rows and the key [cart_<id>], then fails at
    the [JsonResponse] of its [return]; the [except] clause fails at its
    own. *)
Lemma site_clear_run request pk s :
  has_cart request s pk →
  site request ClearCart s =
    (mkResponse HTTP_500_INTERNAL_SERVER_ERROR ServerErrorPayload,
     mkStore (products s) (carts s) (filter (not_in_cart pk) (items s))
       (delete (cart_key pk) (cache s))).
Proof.
  intros Hcart.
  apply site_raised. cbn [site_view]. unfold clear_cart.
  erewrite try_except_Raise; [reflexivity|].
  rewrite (bind_Ok _ _ _ _ _ Hcart).
  by rewrite (bind_Ok _ _ _ _ _ (Cart_items_all_delete_run pk s)).
Qed.

Lemma api_summary_run uid pk c s :
  CartViewSet_get_queryset (Some uid) s !! pk = Some c →
  products_present pk s →
  api (Some uid) (Summary pk) s =
    (mkResponse HTTP_200_OK
       (SummaryPayload
          (default (items_total pk s) (cache s !! cart_items_key pk))
          (default (price_total pk s) (cache s !! cart_total_key pk))
          (length (map_to_list (Cart_items pk s)))),
     set_cache (λ m, memo (cart_total_key pk) (price_total pk s)
                       (memo (cart_items_key pk) (items_total pk s) m)) s).
Proof.
  intros Hget Hfk. rewrite api_authenticated.
  unfold handle_exception, api_view, CartViewSet_summary.
  rewrite (bind_Ok _ _ _ _ _ (CartViewSet_get_object_run _ _ _ _ Hget)).
  rewrite (bind_Ok _ _ _ _ _ (Cart_total_items_memo pk s)).
  set (s1 := set_cache (memo (cart_items_key pk) (items_total pk s)) s).
  assert (same_tables s s1) as Hsame by apply same_tables_set_cache.
  rewrite (bind_Ok _ _ _ _ _
             (Cart_total_price_memo pk s1
                (same_tables_products_present pk s s1 Hsame Hfk))).
  rewrite (same_tables_price_total pk s s1 Hsame).
  set (s2 := set_cache _ s1).
  rewrite (bind_Ok _ _ _ _ _ (Cart_items_all_run pk s2)).
  subst s2 s1. cbn [set_cache cache].
  rewrite memo_other by (apply not_eq_sym, cart_total_key_ne_items).
  done.
Qed.

(** C3.  [clear] deletes the rows with one bulk [delete()] on the queryset,
    which does not go through [CartItem.delete] and so never reaches
    [Cart.clear_cache]; the site view then deletes the key [cart_<id>],
    which is neither of the keys the totals are cached under.  Totals that
    were cached before the clear are therefore still cached after it and
    are what the next reads return, for a cart that has no items left: the
    response of the API's clear itself, the summary after it, and the cart
    page after the site's clear. *)
Theorem clear_serves_cached_totals (s : Store) (pk count total : Z) :
  cache s !! cart_items_key pk = Some count →
  cache s !! cart_total_key pk = Some total →
  (∀ uid c,
     CartViewSet_get_queryset (Some uid) s !! pk = Some c →
     let cleared := api (Some uid) (Clear pk) s in
     Cart_items pk cleared.2 = ∅
     ∧ cleared.1 = mkResponse HTTP_200_OK
                     (CartPayload (mkCartData pk (user c) [] count total))
     ∧ cache cleared.2 !! cart_items_key pk = Some count
     ∧ cache cleared.2 !! cart_total_key pk = Some total
     ∧ (api (Some uid) (Summary pk) cleared.2).1
       = mkResponse HTTP_200_OK (SummaryPayload count total 0))
  ∧ (∀ request,
       has_cart request s pk →
       let cleared := site request ClearCart s in
       Cart_items pk cleared.2 = ∅
       ∧ cache cleared.2 !! cart_items_key pk = Some count
       ∧ cache cleared.2 !! cart_total_key pk = Some total
       ∧ (CartView_get_context_data request cleared.2).1
         = Ok (mkCartContext [] count total total)).
Proof.
  intros Hcount Htotal. split.
  - intros uid c Hget cleared. subst cleared.
    rewrite (api_clear_run _ _ _ _ Hget). cbn [fst snd cache].
    rewrite Hcount, Htotal. cbn [default].
    set (s1 := mkStore _ _ _ _).
    assert (Cart_items pk s1 = ∅) as Hempty
      by apply Cart_items_after_delete.
    assert (cache s1 !! cart_items_key pk = Some count) as Hcount1.
    { subst s1. cbn [cache]. apply memo_keeps. unfold memo. by rewrite Hcount. }
    assert (cache s1 !! cart_total_key pk = Some total) as Htotal1.
    { subst s1. cbn [cache]. unfold memo at 1.
      rewrite memo_other by (apply not_eq_sym, cart_total_key_ne_items).
      by rewrite Htotal, memo_other
        by (apply not_eq_sym, cart_total_key_ne_items). }
    repeat split; try done.
    assert (CartViewSet_get_queryset (Some uid) s1 !! pk = Some c) as Hget1.
    { apply owned_cart_lookup. by apply owned_cart_lookup in Hget. }
    destruct (empty_cart_totals pk s1 Hempty) as (_ & _ & Hfk).
    rewrite (api_summary_run _ _ _ _ Hget1 Hfk). cbn [fst].
    by rewrite Hcount1, Htotal1, Hempty, map_to_list_empty.
  - intros request Hcart cleared. subst cleared.
    rewrite (site_clear_run _ _ _ Hcart). cbn [fst snd].
    set (s1 := mkStore _ _ _ _).
    assert (cache s1 !! cart_items_key pk = Some count) as Hcount1.
    { subst s1. cbn [cache].
      by rewrite lookup_delete_ne by apply cart_key_ne_items. }
    assert (cache s1 !! cart_total_key pk = Some total) as Htotal1.
    { subst s1. cbn [cache].
      by rewrite lookup_delete_ne by apply cart_key_ne_total. }
    assert (Cart_items pk s1 = ∅) as Hempty
      by apply Cart_items_after_delete.
    repeat split; try done.
    unfold CartView_get_context_data.
    rewrite (bind_Ok _ _ _ _ _ (has_cart_same_carts _ s s1 _ eq_refl Hcart)).
    rewrite (bind_Ok _ _ _ _ _ (Cart_items_all_run pk s1)).
    rewrite Hempty, map_to_list_empty.
    rewrite (bind_Ok _ _ s1 count s1)
      by (by rewrite Cart_total_items_run, Hcount1).
    by rewrite !(bind_Ok _ _ _ _ _ (Cart_total_price_hit _ _ _ Htotal1)).
Qed.

Lemma clear_serves_cached_totals_witness :
  cache example_read_store !! cart_items_key 1 = Some 2
  ∧ cache example_read_store !! cart_total_key 1 = Some 20000
  ∧ (api (Some 7) (Clear 1) example_read_store).1
    = mkResponse 200 (CartPayload (mkCartData 1 (Some 7) [] 2 20000))
  ∧ (api (Some 7) (Summary 1)
       (api (Some 7) (Clear 1) example_read_store).2).1
    = mkResponse 200 (SummaryPayload 2 20000 0)
  ∧ (CartView_get_context_data example_request
       (site example_request ClearCart example_read_store).2).1
    = Ok (mkCartContext [] 2 20000 20000).
Proof.
  assert (cache example_read_store !! cart_items_key 1 = Some 2) as Hcount
    by (by vm_compute).
  assert (cache example_read_store !! cart_total_key 1 = Some 20000)
    as Htotal by (by vm_compute).
  destruct (clear_serves_cached_totals example_read_store 1 2 20000
              Hcount Htotal) as [Hapi Hsite].
  destruct (Hapi 7 (mkCart (Some 7) None) ltac:(by vm_compute))
    as (_ & Hresponse & _ & _ & Hsummary).
  destruct (Hsite example_request ltac:(by vm_compute))
    as (_ & _ & _ & Hpage).
  split; [exact Hcount|]. split; [exact Htotal|].
  split; [exact Hresponse|]. split; [exact Hsummary|exact Hpage].
Defined.

(** C9.  Clearing a cart twice in a row leaves the cart with no items, and
    the second clear, like any clear of a cart that is already empty,
    leaves the three tables as they were and drops no cached total.
    Through the API both calls succeed: status 200 and a cart rendered
    without items.  Through the site, for a caller whose cart is [pk],
    neither call succeeds: the rows are deleted, and each time the view
    fails at [JsonResponse] and the response is 500. *)
Theorem clear_twice_site_answers_500 (s : Store) (pk : Z) :
  (∀ uid c,
     CartViewSet_get_queryset (Some uid) s !! pk = Some c →
     let first := api (Some uid) (Clear pk) s in
     let second := api (Some uid) (Clear pk) first.2 in
     (∃ count total,
        first.1 = mkResponse HTTP_200_OK
                    (CartPayload (mkCartData pk (user c) [] count total)))
     ∧ (∃ count total,
          second.1 = mkResponse HTTP_200_OK
                       (CartPayload (mkCartData pk (user c) [] count total)))
     ∧ Cart_items pk first.2 = ∅
     ∧ Cart_items pk second.2 = ∅
     ∧ same_tables first.2 second.2
     ∧ (Cart_items pk s = ∅ →
          same_tables s first.2
          ∧ ∀ key v, cache s !! key = Some v → cache first.2 !! key = Some v))
  ∧ (∀ request,
       has_cart request s pk →
       let first := site request ClearCart s in
       let second := site request ClearCart first.2 in
       first.1 = mkResponse HTTP_500_INTERNAL_SERVER_ERROR ServerErrorPayload
       ∧ second.1
         = mkResponse HTTP_500_INTERNAL_SERVER_ERROR ServerErrorPayload
       ∧ Cart_items pk first.2 = ∅
       ∧ Cart_items pk second.2 = ∅
       ∧ same_tables first.2 second.2
       ∧ (Cart_items pk s = ∅ →
            same_tables s first.2
            ∧ ∀ key v, key ≠ cart_key pk →
                cache s !! key = Some v → cache first.2 !! key = Some v)).
Proof.
  split.
  - intros uid c Hget first second. subst second first.
    rewrite (api_clear_run _ _ _ _ Hget). cbn [fst snd].
    set (s1 := mkStore _ _ _ _).
    assert (CartViewSet_get_queryset (Some uid) s1 !! pk = Some c) as Hget1.
    { apply owned_cart_lookup. by apply owned_cart_lookup in Hget. }
    assert (Cart_items pk s1 = ∅) as Hempty1
      by apply Cart_items_after_delete.
    rewrite (api_clear_run _ _ _ _ Hget1). cbn [fst snd].
    split; [by eauto|]. split; [by eauto|]. split; [done|].
    split; [apply Cart_items_after_delete|]. split.
    + repeat split. cbn [items]. by apply delete_from_empty_cart.
    + intros Hempty. split.
      * repeat split. subst s1. cbn [items].
        by apply delete_from_empty_cart.
      * intros key v Hkey. subst s1. cbn [cache]. by do 2 apply memo_keeps.
  - intros request Hcart first second. subst second first.
    rewrite (site_clear_run _ _ _ Hcart). cbn [fst snd].
    set (s1 := mkStore _ _ _ _).
    assert (has_cart request s1 pk) as Hcart1
      by by apply (has_cart_same_carts _ s).
    assert (Cart_items pk s1 = ∅) as Hempty1
      by apply Cart_items_after_delete.
    rewrite (site_clear_run _ _ _ Hcart1). cbn [fst snd].
    split; [done|]. split; [done|]. split; [done|].
    split; [apply Cart_items_after_delete|]. split.
    + repeat split. cbn [items]. by apply delete_from_empty_cart.
    + intros Hempty. split.
      * repeat split. subst s1. cbn [items].
        by apply delete_from_empty_cart.
      * intros key v Hne Hkey. subst s1. cbn [cache].
        by rewrite lookup_delete_ne.
Qed.

Lemma clear_twice_site_answers_500_witness :
  CartViewSet_get_queryset (Some 7) example_store !! 1
    = Some (mkCart (Some 7) None)
  ∧ Cart_items 1 (api (Some 7) (Clear 1)
                    (api (Some 7) (Clear 1) example_store).2).2 = ∅
  ∧ (site example_request ClearCart example_store).1
    = mkResponse 500 ServerErrorPayload
  ∧ (site example_request ClearCart
       (site example_request ClearCart example_store).2).1
    = mkResponse 500 ServerErrorPayload
  ∧ Cart_items 1 (site example_request ClearCart example_store).2 = ∅.
Proof.
  assert (CartViewSet_get_queryset (Some 7) example_store !! 1
          = Some (mkCart (Some 7) None)) as Hget by (by vm_compute).
  destruct (clear_twice_site_answers_500 example_store 1) as [Hapi Hsite].
  destruct (Hapi 7 _ Hget) as (_ & _ & _ & Hempty & _).
  destruct (Hsite example_request ltac:(by vm_compute))
    as (Hfirst & Hsecond & Hcleared & _).
  split; [exact Hget|]. split; [exact Hempty|].
  split; [exact Hfirst|]. split; [exact Hsecond|exact Hcleared].
Defined.

(** ** The quantity range is an invariant *)

Lemma keeps_ret {A} (a : A) (Q : A → Prop) : Q a → keeps (mret a) Q.
Proof. intros HQ s Hs. by split. Qed.

Lemma keeps_raise {A} e (Q : A → Prop) : keeps (raise e) Q.
Proof. intros s Hs. by split. Qed.

Lemma keeps_bind {A B} (m : M A) (f : A → M B) (Q : A → Prop) (R : B → Prop) :
  keeps m Q → (∀ a, Q a → keeps (f a) R) → keeps (m ≫= f) R.
Proof.
  intros Hm Hf s Hs. unfold mbind, M_bind.
  destruct (Hm s Hs) as [Hs1 Ha].
  destruct (m s) as [[a|e] s1]; simpl in *; [|done].
  by apply Hf.
Qed.

Lemma keeps_try_except {A} (m : M A) (h : Exn → M A) (Q : A → Prop) :
  keeps m Q → (∀ e, keeps (h e) Q) → keeps (try_except m h) Q.
Proof.
  intros Hm Hh s Hs. unfold try_except.
  destruct (Hm s Hs) as [Hs1 Ha].
  destruct (m s) as [[a|e] s1]; simpl in *; [done|].
  by apply Hh.
Qed.

Lemma keeps_same_items {A} (m : M A) :
  (∀ s, items (m s).2 = items s) → keeps m (λ _, True).
Proof.
  intros Hm s Hs. split; [|by destruct ((m s).1)].
  unfold quantity_ok. by rewrite Hm.
Qed.

Lemma keeps_reads_only {A} (m : M A) : reads_only m → keeps m (λ _, True).
Proof. intros Hm. apply keeps_same_items. intros s. apply Hm. Qed.

(** Reading a row of the item table returns a row within the range. *)
Lemma keeps_lookup {A} (table : Store → gmap Z CartItem) (pk : Z)
    (none : M A) (some : CartItem → M A) (Q : A → Prop) :
  (∀ s, table s ⊆ items s) →
  keeps none Q → (∀ it, in_range it → keeps (some it) Q) →
  keeps (s ← get_store;
         match table s !! pk with
         | Some it => some it
         | None => none
         end) Q.
Proof.
  intros Htable Hnone Hsome s Hs.
  rewrite (bind_Ok get_store _ s s s) by done.
  destruct (table s !! pk) as [it|] eqn:Hit; [|by apply Hnone].
  apply Hsome; [|done].
  apply (Hs pk it). by eapply lookup_weaken, Htable.
Qed.

Lemma keeps_CartItemViewSet_get_object u pk :
  keeps (CartItemViewSet_get_object u pk) in_range.
Proof.
  unfold CartItemViewSet_get_object. apply keeps_lookup.
  - intros s. unfold CartItemViewSet_get_queryset.
    destruct u; [apply map_filter_subseteq|apply map_empty_subseteq].
  - apply keeps_raise.
  - intros it Hit. by apply keeps_ret.
Qed.

Lemma keeps_get_cart_item_or_404 item_id :
  keeps (get_cart_item_or_404 item_id) in_range.
Proof.
  unfold get_cart_item_or_404.
  apply (keeps_lookup items); [done|apply keeps_raise|].
  intros it Hit. by apply keeps_ret.
Qed.

Lemma keeps_Cart_clear_cache id : keeps (Cart_clear_cache id) (λ _, True).
Proof. by apply keeps_same_items. Qed.

Lemma keeps_cache_delete key : keeps (cache_delete key) (λ _, True).
Proof. by apply keeps_same_items. Qed.

Lemma keeps_CartItem_cart it : keeps (CartItem_cart it) (λ _, True).
Proof. apply keeps_reads_only, reads_only_CartItem_cart. Qed.

Lemma keeps_CartItem_save pk it :
  in_range it → keeps (CartItem_save pk it) (λ _, True).
Proof.
  intros Hit. unfold CartItem_save.
  eapply (keeps_bind _ _ (λ _, True)).
  - intros s Hs. split; [|done]. by apply map_Forall_insert_2.
  - intros _ _. eapply keeps_bind; [apply keeps_CartItem_cart|].
    intros c _. apply keeps_Cart_clear_cache.
Qed.

Lemma keeps_CartItem_delete pk it : keeps (CartItem_delete pk it) (λ _, True).
Proof.
  unfold CartItem_delete.
  eapply keeps_bind; [apply keeps_CartItem_cart|]. intros c _.
  eapply (keeps_bind _ _ (λ _, True)).
  - intros s Hs. split; [|done]. by apply map_Forall_delete.
  - intros _ _. apply keeps_Cart_clear_cache.
Qed.

Lemma keeps_Cart_items_all_delete id :
  keeps (Cart_items_all_delete id) (λ _, True).
Proof.
  intros s Hs. split; [|done].
  intros k it Hk. apply map_lookup_filter_Some in Hk as [Hk _].
  by apply (Hs k it).
Qed.

Lemma keeps_CartItem_get_or_create c p q :
  1 ≤ q ≤ 99 →
  keeps (CartItem_get_or_create c p q) (λ '(_, it, _), in_range it).
Proof.
  intros Hq s Hs. unfold CartItem_get_or_create.
  rewrite (bind_Ok get_store _ s s s) by done.
  destruct (map_to_list (CartItem_filter c p s)) as [|[k it] [|kv rest]] eqn:Hl.
  - refine (keeps_bind _ _ (λ '(_, it), in_range it) _ _ _ s Hs).
    + unfold CartItem_create.
      eapply keeps_bind; [apply keeps_reads_only, reads_only_get_store|].
      intros s0 _.
      eapply keeps_bind; [by apply keeps_CartItem_save|].
      intros _ _. by apply keeps_ret.
    + intros [pk it] Hit. by apply keeps_ret.
  - split; [done|]. simpl.
    assert ((k, it) ∈ map_to_list (CartItem_filter c p s)) as Hin
      by (rewrite Hl; apply list_elem_of_here).
    apply elem_of_map_to_list, map_lookup_filter_Some in Hin as [Hin _].
    by apply (Hs k it).
  - by split.
Qed.

Lemma keeps_merge_quantity k it q :
  in_range it → 1 ≤ q ≤ 99 → keeps (merge_quantity k it q) (λ _, True).
Proof.
  intros Hit Hq. rewrite merge_quantity_clamps.
  apply keeps_CartItem_save. unfold in_range in *. simpl. lia.
Qed.

Lemma reads_only_try_except {A} (m : M A) (h : Exn → M A) :
  reads_only m → (∀ e, reads_only (h e)) → reads_only (try_except m h).
Proof.
  intros Hm Hh s. unfold try_except. specialize (Hm s).
  destruct (m s) as [[a|e] s1]; simpl in *; [done|].
  eapply same_tables_trans; [exact Hm|apply Hh].
Qed.

Lemma reads_only_CartViewSet_get_object u pk :
  reads_only (CartViewSet_get_object u pk).
Proof. unfold CartViewSet_get_object. reads_only_tac. Qed.

Lemma reads_only_Product_get_available wanted :
  reads_only (Product_get_available wanted).
Proof. unfold Product_get_available. reads_only_tac. Qed.

Lemma reads_only_getitem {A} (v : option A) : reads_only (getitem v).
Proof. destruct v; [apply reads_only_ret|apply reads_only_raise]. Qed.

Lemma run_validation_range validate partial data validated q :
  (∀ z v, validate z = inr v → 1 ≤ v ≤ 99) →
  run_validation validate partial data = inr validated →
  validated_quantity validated = Some q →
  1 ≤ q ≤ 99.
Proof.
  intros Hvalidate. unfold run_validation. intros Hvalid Hq.
  destruct (quantity_field data) as [| |z];
    [| |destruct (validate z) as [e|v] eqn:Hv;
        [|apply Hvalidate in Hv]];
    destruct (product_id data), partial; by simplify_eq/=.
Qed.

Lemma validate_quantity_range z v :
  CartItemSerializer_validate_quantity z = inr v → 1 ≤ v ≤ 99.
Proof.
  unfold CartItemSerializer_validate_quantity.
  destruct (Z.ltb_spec z 1); [done|].
  destruct (Z.ltb_spec 99 z); [done|]. intros [= <-]. lia.
Qed.

Lemma CartItemCreateSerializer_validated_range data validated q :
  CartItemCreateSerializer_is_valid data = inr validated →
  validated_quantity validated = Some q →
  1 ≤ q ≤ 99.
Proof.
  unfold CartItemCreateSerializer_is_valid,
    CartItemCreateSerializer_validate_quantity.
  intros Hvalid Hq.
  destruct (quantity_field data) as [| |z]; [| |destruct (Z.ltb_spec z 1);
    [|destruct (Z.ltb_spec 99 z)]]; simplify_eq/=. lia.
Qed.

Lemma keeps_getitem_quantity validated :
  (∀ q, validated_quantity validated = Some q → 1 ≤ q ≤ 99) →
  keeps (getitem (validated_quantity validated)) (λ q, 1 ≤ q ≤ 99).
Proof.
  intros Hrange.
  destruct (validated_quantity validated) as [q|] eqn:Hq.
  - apply keeps_ret. by apply Hrange.
  - apply keeps_raise.
Qed.

Lemma reads_only_render pk c :
  reads_only (CartSerializer_data pk c
              ≫= λ d, mret (mkResponse HTTP_200_OK (CartPayload d))).
Proof.
  apply reads_only_bind; [apply reads_only_CartSerializer_data|].
  intros d. apply reads_only_ret.
Qed.

Lemma keeps_render_cart pk c :
  keeps (d ← CartSerializer_data pk c;
         mret (mkResponse HTTP_200_OK (CartPayload d))) (λ _, True).
Proof. apply keeps_reads_only, reads_only_render. Qed.

Lemma keeps_render_item pk it :
  keeps (d ← CartItemSerializer_data pk it;
         mret (mkResponse HTTP_200_OK (ItemPayload d))) (λ _, True).
Proof. apply keeps_reads_only, reads_only_render_item. Qed.

Lemma keeps_CartViewSet_add_item u pk data :
  keeps (CartViewSet_add_item u pk data) (λ _, True).
Proof.
  unfold CartViewSet_add_item.
  eapply keeps_bind;
    [apply keeps_reads_only, reads_only_CartViewSet_get_object|].
  intros c _.
  destruct (CartItemCreateSerializer_is_valid data) as [errors|validated]
    eqn:Hvalid; [by apply keeps_ret|].
  eapply keeps_bind; [apply keeps_reads_only, reads_only_getitem|].
  intros wanted _.
  eapply keeps_bind.
  { apply keeps_getitem_quantity. intros q.
    by apply (CartItemCreateSerializer_validated_range data). }
  intros requested Hrequested. cbv beta in Hrequested.
  eapply keeps_bind.
  { apply keeps_reads_only, reads_only_try_except.
    - apply reads_only_bind; [apply reads_only_Product_get_available|].
      intros p. apply reads_only_ret.
    - intros []; (apply reads_only_ret || apply reads_only_raise). }
  intros [p|] _; [|by apply keeps_ret].
  eapply keeps_bind; [by apply keeps_CartItem_get_or_create|].
  intros [[k it] created] Hit.
  eapply (keeps_bind _ _ (λ _, True));
    [|intros _ _; apply keeps_render_cart].
  destruct created; [by apply keeps_ret|by apply keeps_merge_quantity].
Qed.

Lemma keeps_CartViewSet_clear u pk :
  keeps (CartViewSet_clear u pk) (λ _, True).
Proof.
  unfold CartViewSet_clear.
  eapply keeps_bind;
    [apply keeps_reads_only, reads_only_CartViewSet_get_object|].
  intros c _.
  eapply keeps_bind; [apply keeps_Cart_items_all_delete|]. intros _ _.
  apply keeps_render_cart.
Qed.

Lemma keeps_CartViewSet_summary u pk :
  keeps (CartViewSet_summary u pk) (λ _, True).
Proof.
  apply keeps_reads_only. unfold CartViewSet_summary.
  apply reads_only_bind; [apply reads_only_CartViewSet_get_object|].
  intros c.
  apply reads_only_bind; [apply reads_only_Cart_total_items|]. intros ti.
  apply reads_only_bind; [apply reads_only_Cart_total_price|]. intros tp.
  apply reads_only_bind; [apply reads_only_Cart_items_all|]. intros rows.
  apply reads_only_ret.
Qed.

Lemma keeps_perform_update pk it validated partial data :
  in_range it →
  CartItemSerializer_is_valid partial data = inr validated →
  keeps (CartItemViewSet_perform_update pk it validated) (λ _, True).
Proof.
  intros Hit Hvalid. unfold CartItemViewSet_perform_update.
  set (requested := default (quantity it) (validated_quantity validated)).
  assert (requested ≤ 99) as Hle.
  { subst requested.
    destruct (validated_quantity validated) as [q|] eqn:Hq; simpl.
    - eapply run_validation_range in Hq;
        [lia|apply validate_quantity_range|exact Hvalid].
    - apply Hit. }
  destruct (Z.ltb_spec requested 1).
  - eapply keeps_bind; [apply keeps_CartItem_delete|].
    intros _ _. by apply keeps_ret.
  - eapply keeps_bind; [|intros _ _; by apply keeps_ret].
    apply keeps_CartItem_save. unfold in_range. simpl. lia.
Qed.

Lemma keeps_CartItemViewSet_update u pk partial data :
  keeps (CartItemViewSet_update u pk partial data) (λ _, True).
Proof.
  unfold CartItemViewSet_update.
  eapply keeps_bind; [apply keeps_CartItemViewSet_get_object|].
  intros it Hit.
  destruct (CartItemSerializer_is_valid partial data) as [errors|validated]
    eqn:Hvalid; [by apply keeps_ret|].
  eapply keeps_bind; [by eapply keeps_perform_update|].
  intros [pk' it'] _. apply keeps_render_item.
Qed.

Lemma keeps_CartItemViewSet_increment u pk :
  keeps (CartItemViewSet_increment u pk) (λ _, True).
Proof.
  unfold CartItemViewSet_increment.
  eapply keeps_bind; [apply keeps_CartItemViewSet_get_object|].
  intros it Hit. rewrite increment_quantity.
  eapply keeps_bind; [|intros _ _; apply keeps_render_item].
  apply keeps_CartItem_save. unfold in_range in *. simpl. lia.
Qed.

Lemma keeps_CartItemViewSet_decrement u pk :
  keeps (CartItemViewSet_decrement u pk) (λ _, True).
Proof.
  unfold CartItemViewSet_decrement.
  eapply keeps_bind; [apply keeps_CartItemViewSet_get_object|].
  intros it Hit. cbv zeta.
  change (quantity (set_quantity (quantity it - 1) it))
    with (quantity it - 1).
  destruct (Z.ltb_spec (quantity it - 1) 1).
  - eapply keeps_bind; [apply keeps_CartItem_delete|].
    intros _ _. by apply keeps_ret.
  - eapply keeps_bind; [|intros _ _; apply keeps_render_item].
    apply keeps_CartItem_save. unfold in_range in *. simpl. lia.
Qed.

Lemma keeps_api u call : keeps (api_view u call) (λ _, True).
Proof.
  destruct call; simpl.
  - apply keeps_CartViewSet_add_item.
  - apply keeps_CartViewSet_clear.
  - apply keeps_CartViewSet_summary.
  - apply keeps_CartItemViewSet_update.
  - apply keeps_CartItemViewSet_increment.
  - apply keeps_CartItemViewSet_decrement.
Qed.

Lemma Cart_get_or_create_items (P : Z * Cart → Prop)
    `{∀ kv, Decision (P kv)} new s :
  items (Cart_get_or_create P new s).2 = items s.
Proof.
  unfold Cart_get_or_create.
  rewrite (bind_Ok get_store _ s s s) by done.
  by destruct (map_to_list (filter P (carts s))) as [|[k c] [|kv rest]].
Qed.

Lemma keeps_CartMixin_get_cart request :
  keeps (CartMixin_get_cart request) (λ _, True).
Proof.
  apply keeps_same_items. intros s. unfold CartMixin_get_cart.
  destruct (request_user request) as [uid|].
  - pose proof (Cart_get_or_create_items (has_user uid)
                  (mkCart (Some uid) None) s) as Hitems.
    unfold mbind, M_bind.
    by destruct (Cart_get_or_create _ _ s) as [[[c created]|e] s1].
  - set (key := match request_session_key request with
                | Some k => _ | None => _ end).
    pose proof (Cart_get_or_create_items (has_session key)
                  (mkCart None (Some key)) s) as Hitems.
    unfold mbind, M_bind.
    by destruct (Cart_get_or_create _ _ s) as [[[c created]|e] s1].
Qed.

Lemma keeps_json_loads b : keeps (json_loads b) (λ _, True).
Proof. destruct b; (by apply keeps_ret) || apply keeps_raise. Qed.

Lemma keeps_int_quantity entry : keeps (int_quantity entry) (λ _, True).
Proof.
  destruct entry as [[]|]; (by apply keeps_ret) || apply keeps_raise.
Qed.

Lemma keeps_get_product_or_404 wanted :
  keeps (get_product_or_404 wanted) (λ _, True).
Proof.
  apply keeps_reads_only, reads_only_try_except.
  - apply reads_only_Product_get_available.
  - intros []; apply reads_only_raise.
Qed.

Lemma keeps_JsonResponse arguments :
  keeps (JsonResponse arguments) (λ _, True).
Proof. apply keeps_raise. Qed.

Lemma keeps_add_to_cart request wanted :
  keeps (add_to_cart request wanted) (λ _, True).
Proof.
  unfold add_to_cart. apply keeps_try_except.
  2:{ intros []; apply keeps_JsonResponse. }
  unfold add_to_cart_try.
  destruct (body_is_empty (request_body request));
    [apply keeps_JsonResponse|].
  eapply keeps_bind; [apply keeps_json_loads|]. intros data _.
  eapply keeps_bind; [apply keeps_int_quantity|]. intros requested _.
  destruct (Z.ltb_spec requested 1); [apply keeps_JsonResponse|].
  destruct (Z.ltb_spec 99 requested); [apply keeps_JsonResponse|].
  eapply keeps_bind; [apply keeps_get_product_or_404|]. intros p _.
  eapply keeps_bind; [apply keeps_CartMixin_get_cart|]. intros c _.
  eapply keeps_bind; [by apply keeps_CartItem_get_or_create|].
  intros [[k it] created] Hit.
  eapply (keeps_bind _ _ (λ _, True)).
  { destruct created; [by apply keeps_ret|by apply keeps_merge_quantity]. }
  intros _ _.
  eapply keeps_bind; [apply keeps_cache_delete|]. intros _ _.
  apply keeps_JsonResponse.
Qed.

Lemma keeps_update_cart_item request item_id :
  keeps (update_cart_item request item_id) (λ _, True).
Proof.
  unfold update_cart_item. apply keeps_try_except.
  2:{ intros []; apply keeps_JsonResponse. }
  unfold update_cart_item_try.
  eapply keeps_bind; [apply keeps_json_loads|]. intros data _.
  eapply keeps_bind; [apply keeps_int_quantity|]. intros requested _.
  destruct (Z.ltb_spec requested 1); [apply keeps_JsonResponse|].
  destruct (Z.ltb_spec 99 requested); [apply keeps_JsonResponse|].
  eapply keeps_bind; [apply keeps_get_cart_item_or_404|]. intros it Hit.
  eapply keeps_bind.
  { apply keeps_CartItem_save. unfold in_range. simpl. lia. }
  intros _ _.
  eapply keeps_bind; [apply keeps_CartItem_cart|]. intros c _.
  eapply keeps_bind; [apply keeps_cache_delete|]. intros _ _.
  apply keeps_JsonResponse.
Qed.

Lemma keeps_remove_cart_item request item_id :
  keeps (remove_cart_item request item_id) (λ _, True).
Proof.
  unfold remove_cart_item. apply keeps_try_except.
  2:{ intros e. apply keeps_JsonResponse. }
  eapply keeps_bind; [apply keeps_get_cart_item_or_404|]. intros it Hit.
  eapply keeps_bind; [apply keeps_CartItem_cart|]. intros c _.
  eapply keeps_bind; [apply keeps_CartItem_delete|]. intros _ _.
  eapply keeps_bind; [apply keeps_cache_delete|]. intros _ _.
  apply keeps_JsonResponse.
Qed.

Lemma keeps_clear_cart request : keeps (clear_cart request) (λ _, True).
Proof.
  unfold clear_cart. apply keeps_try_except.
  2:{ intros e. apply keeps_JsonResponse. }
  eapply keeps_bind; [apply keeps_CartMixin_get_cart|]. intros c _.
  eapply keeps_bind; [apply keeps_Cart_items_all_delete|]. intros _ _.
  eapply keeps_bind; [apply keeps_cache_delete|]. intros _ _.
  apply keeps_JsonResponse.
Qed.

Lemma keeps_site request call : keeps (site_view request call) (λ _, True).
Proof.
  destruct call; simpl.
  - apply keeps_add_to_cart.
  - apply keeps_update_cart_item.
  - apply keeps_remove_cart_item.
  - apply keeps_clear_cart.
Qed.

Lemma step_keeps_quantity_ok op s :
  quantity_ok s → quantity_ok (step op s).2.
Proof.
  intros Hs. destruct op as [throttled u call|request call]; simpl.
  - unfold dispatch.
    destruct (bool_decide (u = None) && negb (safe_method call)); [done|].
    destruct throttled; [done|].
    rewrite handle_exception_store. by apply keeps_api.
  - unfold site. rewrite handle_exception_store. by apply keeps_site.
Qed.

Lemma run_keeps_quantity_ok ops : ∀ s,
  quantity_ok s → quantity_ok (run ops s).
Proof.
  unfold run. induction ops as [|op ops IH]; intros s Hs; [done|].
  simpl. apply IH. by apply step_keeps_quantity_ok.
Qed.

(** C8.  Every sequence of cart operations (add and its merge, increment,
    decrement, the direct quantity update, removal and clear, through the
    API and through the site, with any arguments, throttled or not) run
    from a store whose items have quantities within [1, 99] — in
    particular from one without items — leaves every item with a quantity
    within [1, 99]. *)
Theorem quantity_stays_in_range (ops : list Op) (s : Store) :
  quantity_ok s →
  ∀ pk it, items (run ops s) !! pk = Some it → 1 ≤ quantity it ≤ 99.
Proof.
  intros Hs pk it Hit.
  by apply (run_keeps_quantity_ok ops s Hs pk it).
Qed.

(** From 2 units: the add of the API writes nothing, the increment gives
    3, the add of the site 63, the update to 150 is rejected, the throttled
    increment does not run, the decrement gives 62; from 95 units, ten
    increments and the site's add of 99 stop at 99, and a decrement from 1
    deletes the row. *)
Lemma quantity_stays_in_range_witness :
  quantity_ok example_store
  ∧ items (run [ ApiOp false (Some 7) (AddItem 1 (mkItemInput (Int 5) (Int 99)));
                 ApiOp false (Some 7) (Increment 3);
                 SiteOp (with_quantity 60 example_request) (AddToCart 5);
                 ApiOp false (Some 7)
                   (Update 3 true (mkItemInput Missing (Int 150)));
                 ApiOp true (Some 7) (Increment 3);
                 ApiOp false (Some 7) (Decrement 3) ] example_store) !! 3
    = Some (mkCartItem 1 5 62)
  ∧ 1 ≤ quantity (mkCartItem 1 5 62) ≤ 99
  ∧ items (run [ SiteOp (with_quantity 99 example_request) (AddToCart 5);
                 ApiOp false (Some 7) (Increment 3) ] example_store) !! 3
    = Some (mkCartItem 1 5 99)
  ∧ items (run [ ApiOp false (Some 7) (Decrement 3) ]
             (store_with_quantity 1)) !! 3
    = None.
Proof.
  assert (quantity_ok example_store) as Hok.
  { apply map_Forall_singleton. unfold in_range. simpl. lia. }
  assert (items (run [ ApiOp false (Some 7) (AddItem 1 (mkItemInput (Int 5) (Int 99)));
                 ApiOp false (Some 7) (Increment 3);
                 SiteOp (with_quantity 60 example_request) (AddToCart 5);
                 ApiOp false (Some 7)
                   (Update 3 true (mkItemInput Missing (Int 150)));
                 ApiOp true (Some 7) (Increment 3);
                 ApiOp false (Some 7) (Decrement 3) ] example_store) !! 3
          = Some (mkCartItem 1 5 62)) as Hrow by (by vm_compute).
  split; [exact Hok|]. split; [exact Hrow|].
  split; [exact (quantity_stays_in_range _ example_store Hok 3 _ Hrow)|].
  split; by vm_compute.
Defined.

(** * Further properties of the cart code *)

(** ** Removing an item through the site *)

Lemma get_cart_item_or_404_run item_id it s :
  items s !! item_id = Some it →
  get_cart_item_or_404 item_id s = (Ok it, s).
Proof.
  intros Hit. unfold get_cart_item_or_404.
  rewrite (bind_Ok get_store _ s s s) by done. by rewrite Hit.
Qed.

Lemma get_cart_item_or_404_missing item_id s :
  items s !! item_id = None →
  get_cart_item_or_404 item_id s = (Raise Http404, s).
Proof.
  intros Hit. unfold get_cart_item_or_404.
  rewrite (bind_Ok get_store _ s s s) by done. by rewrite Hit.
Qed.

Lemma CartItem_cart_run it s :
  is_Some (carts s !! cart it) → CartItem_cart it s = (Ok (cart it), s).
Proof.
  intros [c Hc]. unfold CartItem_cart.
  rewrite (bind_Ok get_store _ s s s) by done. by rewrite Hc.
Qed.

Lemma remove_cart_item_run request item_id it s :
  items s !! item_id = Some it →
  is_Some (carts s !! cart it) →
  site request (RemoveCartItem item_id) s =
    (mkResponse HTTP_500_INTERNAL_SERVER_ERROR ServerErrorPayload,
     mkStore (products s) (carts s) (delete item_id (items s))
       (delete (cart_key (cart it)) (invalidate (cart it) (cache s)))).
Proof.
  intros Hit Hc.
  apply site_raised. cbn [site_view]. unfold remove_cart_item.
  erewrite try_except_Raise; [reflexivity|].
  rewrite (bind_Ok _ _ _ _ _ (get_cart_item_or_404_run _ _ _ Hit)).
  rewrite (bind_Ok _ _ _ _ _ (CartItem_cart_run _ _ Hc)).
  by rewrite (bind_Ok _ _ _ _ _ (CartItem_delete_run item_id it s Hc)).
Qed.

(** X1.  [remove_cart_item], for whatever caller, deletes the row of an
    existing item and no other row, and leaves neither total of the item's
    cart in the cache: the next read of [total_items] is computed from the
    remaining rows.  The row is gone when the view reaches its [return],
    whose [JsonResponse] raises [NameError]: the response is 500. *)
Theorem remove_cart_item_deletes_row (request : HttpRequest) (item_id : Z)
    (it : CartItem) (s : Store) :
  items s !! item_id = Some it →
  is_Some (carts s !! cart it) →
  let out := site request (RemoveCartItem item_id) s in
  out.1 = mkResponse HTTP_500_INTERNAL_SERVER_ERROR ServerErrorPayload
  ∧ items out.2 = delete item_id (items s)
  ∧ products out.2 = products s ∧ carts out.2 = carts s
  ∧ cache out.2 !! cart_items_key (cart it) = None
  ∧ cache out.2 !! cart_total_key (cart it) = None
  ∧ (Cart_total_items (cart it) out.2).1 = Ok (items_total (cart it) out.2).
Proof.
  intros Hit Hc out. subst out.
  rewrite (remove_cart_item_run _ _ _ _ Hit Hc). cbn [fst snd].
  set (s1 := mkStore _ _ _ _).
  assert (cache s1 !! cart_items_key (cart it) = None) as Hitems.
  { subst s1. cbn [cache].
    rewrite lookup_delete_ne by apply cart_key_ne_items.
    apply invalidate_items_key. }
  assert (cache s1 !! cart_total_key (cart it) = None) as Htotal.
  { subst s1. cbn [cache].
    rewrite lookup_delete_ne by apply cart_key_ne_total.
    apply invalidate_total_key. }
  repeat split; try done.
  by rewrite Cart_total_items_run, Hitems.
Qed.

Lemma remove_cart_item_deletes_row_witness :
  items example_store !! 3 = Some (mkCartItem 1 5 2)
  ∧ (site example_request (RemoveCartItem 3) example_store).1
    = mkResponse 500 ServerErrorPayload
  ∧ items (site example_request (RemoveCartItem 3) example_store).2
    = delete 3 (items example_store)
  ∧ (Cart_total_items 1
       (site example_request (RemoveCartItem 3) example_read_store).2).1
    = Ok 0.
Proof.
  assert (items example_store !! 3 = Some (mkCartItem 1 5 2)) as Hit
    by (by vm_compute).
  assert (items example_read_store !! 3 = Some (mkCartItem 1 5 2)) as Hit'
    by (by vm_compute).
  assert (is_Some (carts example_store !! 1)) as Hc
    by (eexists; by vm_compute).
  assert (is_Some (carts example_read_store !! 1)) as Hc'
    by (eexists; by vm_compute).
  split; [exact Hit|]. split; [|split].
  - exact (proj1 (remove_cart_item_deletes_row example_request 3
                    (mkCartItem 1 5 2) example_store Hit Hc)).
  - exact (proj1 (proj2 (remove_cart_item_deletes_row example_request 3
                           (mkCartItem 1 5 2) example_store Hit Hc))).
  - destruct (remove_cart_item_deletes_row example_request 3
                (mkCartItem 1 5 2) example_read_store Hit' Hc')
      as (_ & _ & _ & _ & _ & _ & Hread).
    cbn [cart] in Hread. rewrite Hread. by vm_compute.
Defined.

(** X2.  An item id that is not in the table: [get_object_or_404] raises
    [Http404] inside the [try] block of the view, the last [except] clause
    catches it, and the [JsonResponse] of that clause raises [NameError];
    nothing is written.  So [update_cart_item] (with a quantity that passes
    the range checks) and [remove_cart_item] both answer 500, not 404, and
    leave the store as it was. *)
Theorem site_views_unknown_item (request : HttpRequest) (item_id q : Z)
    (s : Store) :
  items s !! item_id = None →
  1 ≤ q ≤ 99 →
  site (with_quantity q request) (UpdateCartItem item_id) s
    = (mkResponse HTTP_500_INTERNAL_SERVER_ERROR ServerErrorPayload, s)
  ∧ site request (RemoveCartItem item_id) s
    = (mkResponse HTTP_500_INTERNAL_SERVER_ERROR ServerErrorPayload, s).
Proof.
  intros Hit Hq. split.
  - apply site_raised. cbn [site_view].
    apply (update_cart_item_raised _ _ _ Http404).
    unfold update_cart_item_try. cbn [with_quantity request_body].
    rewrite (bind_Ok (json_loads _) _ s (Some (IntOf q)) s) by done.
    rewrite (bind_Ok (int_quantity _) _ s q s) by done.
    destruct (Z.ltb_spec q 1); [lia|]. destruct (Z.ltb_spec 99 q); [lia|].
    by rewrite (bind_Raise _ _ _ _ _ (get_cart_item_or_404_missing _ _ Hit)).
  - apply site_raised. cbn [site_view]. unfold remove_cart_item.
    rewrite (try_except_Raise _ _ s Http404 s); [done|].
    by rewrite (bind_Raise _ _ _ _ _ (get_cart_item_or_404_missing _ _ Hit)).
Qed.

Lemma site_views_unknown_item_witness :
  items example_store !! 4 = None
  ∧ site (with_quantity 5 example_request) (UpdateCartItem 4) example_store
    = (mkResponse 500 ServerErrorPayload, example_store)
  ∧ site example_request (RemoveCartItem 4) example_store
    = (mkResponse 500 ServerErrorPayload, example_store).
Proof.
  assert (items example_store !! 4 = None) as Hnone by (by vm_compute).
  destruct (site_views_unknown_item example_request 4 5 example_store Hnone
              ltac:(lia)) as [Hupdate Hremove].
  split; [exact Hnone|]. split; [exact Hupdate|exact Hremove].
Defined.

(** ** Triples: the rules *)

Lemma hoare_ret {A} (P : Store → Prop) (a : A) Q R :
  (∀ s, P s → Q a s) → hoare P (mret a) Q R.
Proof. intros HQ s Hs. by apply HQ. Qed.

Lemma hoare_raise {A} (P : Store → Prop) e (Q : A → Store → Prop) R :
  (∀ s, P s → R e s) → hoare P (raise e) Q R.
Proof. intros HR s Hs. by apply HR. Qed.

Lemma hoare_bind {A B} P (m : M A) (f : A → M B) Q' Q R :
  hoare P m Q' R → (∀ a, hoare (Q' a) (f a) Q R) → hoare P (m ≫= f) Q R.
Proof.
  intros Hm Hf s Hs. unfold mbind, M_bind. specialize (Hm s Hs).
  destruct (m s) as [[a|e] s1]; [by apply Hf|done].
Qed.

Lemma hoare_try_except {A} P (m : M A) (h : Exn → M A) Q R' R :
  hoare P m Q R' → (∀ e, hoare (R' e) (h e) Q R) →
  hoare P (try_except m h) Q R.
Proof.
  intros Hm Hh s Hs. unfold try_except. specialize (Hm s Hs).
  destruct (m s) as [[a|e] s1]; [done|by apply Hh].
Qed.

Lemma hoare_conseq {A} (P P' : Store → Prop) (m : M A)
    (Q Q' : A → Store → Prop) (R R' : Exn → Store → Prop) :
  hoare P' m Q' R' →
  (∀ s, P s → P' s) → (∀ a s, Q' a s → Q a s) → (∀ e s, R' e s → R e s) →
  hoare P m Q R.
Proof.
  intros Hm HP HQ HR s Hs. specialize (Hm s (HP s Hs)).
  destruct (m s) as [[a|e] s1]; [by apply HQ|by apply HR].
Qed.

(** A read keeps whatever held before it, and what it returned is known
    afterwards. *)
Lemma hoare_pure {A} (P : Store → Prop) (m : M A) :
  pure_read m →
  hoare P m (λ a s, P s ∧ m s = (Ok a, s)) (λ e s, P s ∧ m s = (Raise e, s)).
Proof.
  intros Hm s Hs. specialize (Hm s).
  destruct (m s) as [[a|e] s1] eqn:Hrun; simpl in Hm; by subst.
Qed.

Lemma hoare_bind_pure {A B} (P : Store → Prop) (m : M A) (f : A → M B) Q R :
  pure_read m →
  (∀ e s, P s → R e s) →
  (∀ a, hoare (λ s, P s ∧ m s = (Ok a, s)) (f a) Q R) →
  hoare P (m ≫= f) Q R.
Proof.
  intros Hm HR Hf. eapply hoare_bind; [|exact Hf].
  eapply hoare_conseq; [by apply hoare_pure|done|done|].
  intros e s [Hs _]. by apply HR.
Qed.

Lemma pure_read_ret {A} (a : A) : pure_read (mret a).
Proof. by intros s. Qed.

Lemma pure_read_raise {A} e : pure_read (@raise A e).
Proof. by intros s. Qed.

Lemma pure_read_get_store : pure_read get_store.
Proof. by intros s. Qed.

Lemma pure_read_bind {A B} (m : M A) (f : A → M B) :
  pure_read m → (∀ a, pure_read (f a)) → pure_read (m ≫= f).
Proof.
  intros Hm Hf s. unfold mbind, M_bind. specialize (Hm s).
  destruct (m s) as [[a|e] s1]; simpl in Hm; subst; [apply Hf|done].
Qed.

Lemma pure_read_try_except {A} (m : M A) (h : Exn → M A) :
  pure_read m → (∀ e, pure_read (h e)) → pure_read (try_except m h).
Proof.
  intros Hm Hh s. unfold try_except. specialize (Hm s).
  destruct (m s) as [[a|e] s1]; simpl in Hm; subst; [done|apply Hh].
Qed.

Lemma pure_read_mapM {A B} (f : A → M B) (l : list A) :
  (∀ a, pure_read (f a)) → pure_read (mapM f l).
Proof.
  intros Hf. induction l as [|a l IH]; simpl; [apply pure_read_ret|].
  apply pure_read_bind; [apply Hf|]. intros b.
  apply pure_read_bind; [apply IH|]. intros bs. apply pure_read_ret.
Qed.

Ltac pure_read_tac :=
  repeat first
    [ apply pure_read_ret
    | apply pure_read_raise
    | apply pure_read_get_store
    | apply pure_read_mapM; intros ?
    | apply pure_read_try_except; [|intros []]
    | apply pure_read_bind; [|intros ?]
    | match goal with
      | |- pure_read (match ?x with _ => _ end) => destruct x
      | |- pure_read (if ?x then _ else _) => destruct x
      end ].

Lemma pure_read_getitem {A} (v : option A) : pure_read (getitem v).
Proof. unfold getitem. pure_read_tac. Qed.

Lemma pure_read_cache_get key : pure_read (cache_get key).
Proof. unfold cache_get. pure_read_tac. Qed.

Lemma pure_read_Product_get_available wanted :
  pure_read (Product_get_available wanted).
Proof. unfold Product_get_available. pure_read_tac. Qed.

Lemma pure_read_get_product_or_404 wanted :
  pure_read (get_product_or_404 wanted).
Proof.
  unfold get_product_or_404.
  apply pure_read_try_except; [apply pure_read_Product_get_available|].
  intros []; apply pure_read_raise.
Qed.

Lemma pure_read_get_cart_item_or_404 item_id :
  pure_read (get_cart_item_or_404 item_id).
Proof. unfold get_cart_item_or_404. pure_read_tac. Qed.

Lemma pure_read_CartItem_product it : pure_read (CartItem_product it).
Proof. unfold CartItem_product. pure_read_tac. Qed.

Lemma pure_read_CartItem_cart it : pure_read (CartItem_cart it).
Proof. unfold CartItem_cart. pure_read_tac. Qed.

Lemma pure_read_CartItem_total_price it :
  pure_read (CartItem_total_price it).
Proof.
  unfold CartItem_total_price.
  apply pure_read_bind; [apply pure_read_CartItem_product|].
  intros p. apply pure_read_ret.
Qed.

Lemma pure_read_CartItemSerializer_data pk it :
  pure_read (CartItemSerializer_data pk it).
Proof.
  unfold CartItemSerializer_data.
  apply pure_read_bind; [apply pure_read_CartItem_product|]. intros p.
  apply pure_read_bind; [apply pure_read_CartItem_total_price|]. intros t.
  apply pure_read_ret.
Qed.

Lemma pure_read_Cart_items_all id : pure_read (Cart_items_all id).
Proof. unfold Cart_items_all. pure_read_tac. Qed.

Lemma pure_read_CartViewSet_get_object u pk :
  pure_read (CartViewSet_get_object u pk).
Proof. unfold CartViewSet_get_object. pure_read_tac. Qed.

Lemma pure_read_CartItemViewSet_get_object u pk :
  pure_read (CartItemViewSet_get_object u pk).
Proof. unfold CartItemViewSet_get_object. pure_read_tac. Qed.

Lemma pure_read_json_loads b : pure_read (json_loads b).
Proof. unfold json_loads. pure_read_tac. Qed.

Lemma pure_read_int_quantity entry : pure_read (int_quantity entry).
Proof. unfold int_quantity. pure_read_tac. Qed.

(** ** The invariant under each write *)

Lemma invalidate_lookup_items c id (m : gmap string Z) :
  id ≠ c → invalidate c m !! cart_items_key id = m !! cart_items_key id.
Proof.
  intros Hne. unfold invalidate.
  rewrite lookup_delete_ne by (by intros H%cart_items_key_inj).
  rewrite lookup_delete_ne by apply cart_total_key_ne_items. done.
Qed.

Lemma invalidate_lookup_total c id (m : gmap string Z) :
  id ≠ c → invalidate c m !! cart_total_key id = m !! cart_total_key id.
Proof.
  intros Hne. unfold invalidate.
  rewrite lookup_delete_ne
    by (intros H; symmetry in H; by apply cart_total_key_ne_items in H).
  rewrite lookup_delete_ne by (by intros H%cart_total_key_inj). done.
Qed.

Lemma invalidate_subseteq c (m : gmap string Z) : invalidate c m ⊆ m.
Proof.
  unfold invalidate. etrans; apply delete_subseteq.
Qed.

Lemma totals_agree id s s' :
  products s' = products s → Cart_items id s' = Cart_items id s →
  items_total id s' = items_total id s ∧ price_total id s' = price_total id s.
Proof.
  intros Hp Hi. unfold items_total, price_total, line_price.
  by rewrite Hp, Hi.
Qed.

Lemma coherent_write c s s' :
  products s' = products s →
  (∀ id, id ≠ c → Cart_items id s' = Cart_items id s) →
  cache s' = invalidate c (cache s) →
  coherent s → coherent s'.
Proof.
  intros Hp Hi Hc Hs id v. rewrite Hc.
  destruct (decide (id = c)) as [->|Hne].
  - by rewrite invalidate_items_key, invalidate_total_key.
  - rewrite invalidate_lookup_items, invalidate_lookup_total by done.
    destruct (totals_agree id s s' Hp (Hi id Hne)) as [-> ->].
    apply Hs.
Qed.

Lemma coherent_cache_subseteq s s' :
  products s' = products s → items s' = items s → cache s' ⊆ cache s →
  coherent s → coherent s'.
Proof.
  intros Hp Hi Hc Hs id v.
  assert (Cart_items id s' = Cart_items id s) as Hrows
    by (unfold Cart_items; by rewrite Hi).
  destruct (totals_agree id s s' Hp Hrows) as [-> ->].
  split; intros Hv; apply (Hs id v); by eapply lookup_weaken.
Qed.

Lemma coherent_fill_items id s :
  coherent s →
  coherent (set_cache (<[cart_items_key id := items_total id s]>) s).
Proof.
  intros Hs id' v. cbn [cache set_cache]. split.
  - destruct (decide (id' = id)) as [->|Hne].
    + rewrite lookup_insert_eq. by intros [= <-].
    + rewrite lookup_insert_ne by (by intros H%cart_items_key_inj).
      apply (Hs id' v).
  - rewrite lookup_insert_ne
      by (intros H; symmetry in H; by apply cart_total_key_ne_items in H).
    apply (Hs id' v).
Qed.

Lemma coherent_fill_total id s :
  coherent s →
  coherent (set_cache (<[cart_total_key id := price_total id s]>) s).
Proof.
  intros Hs id' v. cbn [cache set_cache]. split.
  - rewrite lookup_insert_ne by apply cart_total_key_ne_items.
    apply (Hs id' v).
  - destruct (decide (id' = id)) as [->|Hne].
    + rewrite lookup_insert_eq. by intros [= <-].
    + rewrite lookup_insert_ne by (by intros H%cart_total_key_inj).
      apply (Hs id' v).
Qed.

Lemma well_formed_same_tables s s' :
  same_tables s s' → well_formed s → well_formed s'.
Proof.
  intros (Hp & Hc & Hi).
  unfold well_formed, carts_present, all_products_present, lines_unique.
  by rewrite Hp, Hc, Hi.
Qed.

Lemma well_formed_subseteq s s' :
  products s' = products s → carts s' = carts s → items s' ⊆ items s →
  well_formed s → well_formed s'.
Proof.
  intros Hp Hc Hi (Hcarts & Hproducts & Hunique). repeat split.
  - intros k it Hk. rewrite Hc. apply (Hcarts k it).
    by eapply lookup_weaken.
  - intros k it Hk. rewrite Hp. apply (Hproducts k it).
    by eapply lookup_weaken.
  - intros k1 k2 it1 it2 H1 H2.
    apply (Hunique k1 k2 it1 it2); by eapply lookup_weaken.
Qed.

Lemma well_formed_insert pk it s s' :
  products s' = products s → carts s' = carts s →
  items s' = <[pk := it]> (items s) →
  writable pk it s → well_formed s → well_formed s'.
Proof.
  intros Hp Hc Hi (Hcart & Hproduct & Hline) (Hcarts & Hproducts & Hunique).
  assert (∀ k row, items s !! k = Some row → k ≠ pk →
            cart row = cart it → product row = product it → False)
    as Hother.
  { intros k row Hk Hne Hsame_cart Hsame_product.
    destruct (items s !! pk) as [old|] eqn:Hold.
    - destruct Hline as [Hold_cart Hold_product]. apply Hne.
      apply (Hunique k pk row old); congruence.
    - assert (CartItem_filter (cart it) (product it) s !! k = Some row)
        as Hin by (by apply map_lookup_filter_Some).
      by rewrite Hline in Hin. }
  repeat split.
  - unfold carts_present. rewrite Hc, Hi.
    by apply map_Forall_insert_2.
  - unfold all_products_present. rewrite Hp, Hi.
    by apply map_Forall_insert_2.
  - intros k1 k2 it1 it2. rewrite Hi.
    intros [[<- <-]|[Hne1 H1]]%lookup_insert_Some
           [[<- <-]|[Hne2 H2]]%lookup_insert_Some Hsame_cart Hsame_product.
    + done.
    + by destruct (Hother k2 it2 H2).
    + by destruct (Hother k1 it1 H1).
    + by apply (Hunique k1 k2 it1 it2).
Qed.

Lemma well_formed_cart_insert pk c s s' :
  products s' = products s → carts s' = <[pk := c]> (carts s) →
  items s' = items s →
  well_formed s → well_formed s'.
Proof.
  intros Hp Hc Hi (Hcarts & Hproducts & Hunique).
  unfold well_formed, carts_present, all_products_present, lines_unique.
  rewrite Hp, Hc, Hi. repeat split; [|done|done].
  intros k it Hk. apply lookup_insert_is_Some'. right. by apply (Hcarts k it).
Qed.

Lemma cart_inv_save b pk it s :
  cart_inv b s → writable pk it s →
  cart_inv b (mkStore (products s) (carts s) (<[pk := it]> (items s))
                (invalidate (cart it) (cache s))).
Proof.
  intros [Hwf Hcoh] Hw. split.
  - by apply (well_formed_insert pk it s).
  - intros Hb. apply (coherent_write (cart it) s); [done| |done|by apply Hcoh].
    intros id Hne. unfold Cart_items. cbn [items].
    apply map_filter_insert_not'.
    + unfold in_cart. simpl. congruence.
    + intros old Hold. destruct Hw as (_ & _ & Hline). rewrite Hold in Hline.
      unfold in_cart. simpl. destruct Hline. congruence.
Qed.

Lemma cart_inv_delete b pk it s :
  cart_inv b s →
  (∀ old, items s !! pk = Some old → cart old = cart it) →
  cart_inv b (mkStore (products s) (carts s) (delete pk (items s))
                (invalidate (cart it) (cache s))).
Proof.
  intros [Hwf Hcoh] Hold. split.
  - apply (well_formed_subseteq s); [done|done|apply delete_subseteq|done].
  - intros Hb. apply (coherent_write (cart it) s); [done| |done|by apply Hcoh].
    intros id Hne. unfold Cart_items. cbn [items].
    apply map_filter_delete_not.
    intros old Hlookup. unfold in_cart. simpl.
    rewrite (Hold old Hlookup). congruence.
Qed.

Lemma cart_inv_cache_subseteq b s s' :
  same_tables s s' → cache s' ⊆ cache s → cart_inv b s → cart_inv b s'.
Proof.
  intros Ht Hc [Hwf Hcoh]. split.
  - by apply (well_formed_same_tables s).
  - intros Hb. destruct Ht as (Hp & _ & Hi).
    by apply (coherent_cache_subseteq s); [| | |apply Hcoh].
Qed.

Lemma cart_inv_products_present b id s :
  cart_inv b s → products_present id s.
Proof.
  intros [(_ & Hproducts & _) _] k it Hk.
  apply map_lookup_filter_Some in Hk as [Hk _]. by apply (Hproducts k it).
Qed.

(** ** The invariant through the models *)

Lemma preserves_store b {A} (m : M A) s :
  preserves b m → cart_inv b s → cart_inv b (m s).2.
Proof.
  intros Hm Hs. specialize (Hm s Hs). by destruct (m s) as [[a|e] s1].
Qed.

Lemma preserves_pure b {A} (m : M A) : pure_read m → preserves b m.
Proof.
  intros Hm. eapply hoare_conseq; [by apply hoare_pure|done|..];
    by intros ? ? [? _].
Qed.

Lemma preserves_ret b {A} (a : A) : preserves b (mret a).
Proof. by apply hoare_ret. Qed.

Lemma preserves_bind b {A B} (m : M A) (f : A → M B) :
  preserves b m → (∀ a, preserves b (f a)) → preserves b (m ≫= f).
Proof. intros Hm Hf. eapply hoare_bind; [exact Hm|exact Hf]. Qed.

Lemma preserves_cache_delete b key : preserves b (cache_delete key).
Proof.
  intros s Hs. apply (cart_inv_cache_subseteq b s); [done| |done].
  apply delete_subseteq.
Qed.

Lemma preserves_Cart_total_items b id : preserves b (Cart_total_items id).
Proof.
  intros s Hs. rewrite Cart_total_items_run.
  destruct (cache s !! cart_items_key id); [done|].
  destruct Hs as [Hwf Hcoh]. split; [done|].
  intros Hb. by apply coherent_fill_items, Hcoh.
Qed.

Lemma preserves_Cart_total_price b id : preserves b (Cart_total_price id).
Proof.
  intros s Hs.
  rewrite Cart_total_price_run by (by eapply cart_inv_products_present).
  destruct (cache s !! cart_total_key id); [done|].
  destruct Hs as [Hwf Hcoh]. split; [done|].
  intros Hb. by apply coherent_fill_total, Hcoh.
Qed.

Lemma preserves_render_cart b pk c :
  preserves b (d ← CartSerializer_data pk c;
               mret (mkResponse HTTP_200_OK (CartPayload d))).
Proof.
  apply preserves_bind; [|intros d; apply preserves_ret].
  unfold CartSerializer_data.
  apply preserves_bind; [apply preserves_pure, pure_read_Cart_items_all|].
  intros rows. apply preserves_bind.
  { apply preserves_pure, pure_read_mapM. intros kv.
    apply pure_read_CartItemSerializer_data. }
  intros rendered.
  apply preserves_bind; [apply preserves_Cart_total_items|]. intros ti.
  apply preserves_bind; [apply preserves_Cart_total_price|]. intros tp.
  apply preserves_ret.
Qed.

Lemma preserves_render_item b pk it :
  preserves b (d ← CartItemSerializer_data pk it;
               mret (mkResponse HTTP_200_OK (ItemPayload d))).
Proof.
  apply preserves_bind; [|intros d; apply preserves_ret].
  apply preserves_pure, pure_read_CartItemSerializer_data.
Qed.

Lemma hoare_CartItem_save b pk it :
  hoare (λ s, cart_inv b s ∧ writable pk it s) (CartItem_save pk it)
    (λ _, cart_inv b) (λ _, cart_inv b).
Proof.
  intros s [Hs Hw]. rewrite CartItem_save_run by apply Hw.
  by apply cart_inv_save.
Qed.

Lemma hoare_CartItem_delete b pk it :
  hoare (λ s, cart_inv b s ∧ ∀ old, items s !! pk = Some old → cart old = cart it)
    (CartItem_delete pk it) (λ _, cart_inv b) (λ _, cart_inv b).
Proof.
  intros s [Hs Hold]. destruct (carts s !! cart it) as [c|] eqn:Hc.
  - rewrite CartItem_delete_run by eauto. by apply cart_inv_delete.
  - by rewrite CartItem_delete_orphan.
Qed.

(** A row of the table can be written back with another quantity. *)
Lemma writable_update b pk it q s :
  cart_inv b s → items s !! pk = Some it → writable pk (set_quantity q it) s.
Proof.
  intros [(Hcarts & Hproducts & _) _] Hit. unfold writable. simpl.
  rewrite Hit. split; [by apply (Hcarts pk it)|].
  split; [by apply (Hproducts pk it)|done].
Qed.

Lemma preserves_Cart_items_all_delete id :
  preserves false (Cart_items_all_delete id).
Proof.
  intros s [Hwf _]. rewrite Cart_items_all_delete_run. split; [|done].
  apply (well_formed_subseteq s); [done|done|apply map_filter_subseteq|done].
Qed.

Lemma hoare_CartItem_get_or_create b c p q :
  hoare (λ s, cart_inv b s ∧ is_Some (carts s !! c) ∧ is_Some (products s !! p))
    (CartItem_get_or_create c p q)
    (λ '(k, it, _) s, cart_inv b s ∧ items s !! k = Some it)
    (λ _, cart_inv b).
Proof.
  intros s (Hs & Hc & Hp).
  destruct (map_to_list (CartItem_filter c p s)) as [|[k it] [|kv rest]] eqn:Hl.
  - apply map_to_list_empty_iff in Hl.
    rewrite CartItem_get_or_create_new by done. split.
    + apply (cart_inv_save b _ (mkCartItem c p q)); [done|].
      unfold writable. simpl. by rewrite next_pk_fresh.
    + cbn [items]. apply lookup_insert_eq.
  - unfold CartItem_get_or_create.
    rewrite (bind_Ok get_store _ s s s) by done. rewrite Hl.
    split; [done|].
    assert ((k, it) ∈ map_to_list (CartItem_filter c p s)) as Hin
      by (rewrite Hl; apply list_elem_of_here).
    by apply elem_of_map_to_list, map_lookup_filter_Some in Hin as [Hin _].
  - unfold CartItem_get_or_create.
    rewrite (bind_Ok get_store _ s s s) by done. by rewrite Hl.
Qed.

Lemma hoare_merge_quantity b k it q :
  hoare (λ s, cart_inv b s ∧ items s !! k = Some it) (merge_quantity k it q)
    (λ _, cart_inv b) (λ _, cart_inv b).
Proof.
  rewrite merge_quantity_clamps.
  eapply hoare_conseq; [apply (hoare_CartItem_save b)| |done|done].
  intros s [Hs Hk]. split; [done|]. by apply (writable_update b).
Qed.

Lemma hoare_Cart_get_or_create b (P : Z * Cart → Prop)
    `{∀ kv, Decision (P kv)} new (F : gmap Z Product → Prop) :
  hoare (λ s, cart_inv b s ∧ F (products s)) (Cart_get_or_create P new)
    (λ '(c, _) s, cart_inv b s ∧ F (products s) ∧ is_Some (carts s !! c))
    (λ _, cart_inv b).
Proof.
  intros s [Hs HF]. unfold Cart_get_or_create.
  rewrite (bind_Ok get_store _ s s s) by done.
  destruct (map_to_list (filter P (carts s))) as [|[k c] [|kv rest]] eqn:Hl.
  - unfold Cart_create.
    rewrite (bind_Ok _ _ s (next_pk (carts s))
               (set_carts (<[next_pk (carts s) := new]>) s)) by done.
    cbn [mret M_ret]. split; [|split; [done|]].
    + destruct Hs as [Hwf Hcoh]. split.
      * by apply (well_formed_cart_insert (next_pk (carts s)) new s).
      * intros Hb. by apply (coherent_cache_subseteq s); [| | |apply Hcoh].
    + cbn [carts set_carts]. rewrite lookup_insert_eq. eauto.
  - split; [done|]. split; [done|].
    assert ((k, c) ∈ map_to_list (filter P (carts s))) as Hin
      by (rewrite Hl; apply list_elem_of_here).
    apply elem_of_map_to_list, map_lookup_filter_Some in Hin as [Hin _].
    eauto.
  - done.
Qed.

Lemma hoare_CartMixin_get_cart b request (F : gmap Z Product → Prop) :
  hoare (λ s, cart_inv b s ∧ F (products s)) (CartMixin_get_cart request)
    (λ c s, cart_inv b s ∧ F (products s) ∧ is_Some (carts s !! c))
    (λ _, cart_inv b).
Proof.
  unfold CartMixin_get_cart. destruct (request_user request) as [uid|].
  - eapply hoare_bind; [apply (hoare_Cart_get_or_create b _ _ F)|].
    intros [c created]. by apply hoare_ret.
  - eapply hoare_bind; [apply (hoare_Cart_get_or_create b _ _ F)|].
    intros [c created]. by apply hoare_ret.
Qed.

(** What a successful read says about the tables. *)
Lemma CartItemViewSet_get_object_Ok u pk s it s' :
  CartItemViewSet_get_object u pk s = (Ok it, s') → items s !! pk = Some it.
Proof.
  unfold CartItemViewSet_get_object.
  rewrite (bind_Ok get_store _ s s s) by done.
  destruct (CartItemViewSet_get_queryset u s !! pk) as [row|] eqn:Hq; [|done].
  intros [= <- <-]. destruct u as [uid|]; [|done].
  by apply map_lookup_filter_Some in Hq as [Hq _].
Qed.

Lemma CartViewSet_get_object_Ok u pk s c s' :
  CartViewSet_get_object u pk s = (Ok c, s') → carts s !! pk = Some c.
Proof.
  unfold CartViewSet_get_object.
  rewrite (bind_Ok get_store _ s s s) by done.
  destruct (CartViewSet_get_queryset u s !! pk) as [row|] eqn:Hq; [|done].
  intros [= <- <-]. destruct u as [uid|]; [|done].
  by apply map_lookup_filter_Some in Hq as [Hq _].
Qed.

Lemma get_cart_item_or_404_Ok item_id s it s' :
  get_cart_item_or_404 item_id s = (Ok it, s') → items s !! item_id = Some it.
Proof.
  unfold get_cart_item_or_404.
  rewrite (bind_Ok get_store _ s s s) by done.
  destruct (items s !! item_id) as [row|]; [|done]. by intros [= <- <-].
Qed.

Lemma Product_get_available_Ok wanted s p s' :
  Product_get_available wanted s = (Ok p, s') →
  products s !! wanted = Some p ∧ available p = true.
Proof.
  unfold Product_get_available.
  rewrite (bind_Ok get_store _ s s s) by done.
  destruct (products s !! wanted) as [row|]; [|done].
  destruct (available row) eqn:Ha; [|done]. by intros [= <- <-].
Qed.

Lemma get_product_or_404_Ok wanted s p s' :
  get_product_or_404 wanted s = (Ok p, s') →
  products s !! wanted = Some p ∧ available p = true.
Proof.
  unfold get_product_or_404, try_except.
  destruct (Product_get_available wanted s) as [[row|e] s1] eqn:Hget.
  - intros [= <- <-]. by eapply Product_get_available_Ok.
  - by destruct e.
Qed.

Lemma find_product_Ok wanted s p s' :
  try_except (p ← Product_get_available wanted; mret (Some p))
    (λ e, match e with
          | DoesNotExist => mret None
          | _ => raise e
          end) s = (Ok (Some p), s') →
  products s !! wanted = Some p ∧ available p = true.
Proof.
  unfold try_except, mbind, M_bind.
  destruct (Product_get_available wanted s) as [[row|e] s1] eqn:Hget.
  - intros [= <- <-]. by eapply Product_get_available_Ok.
  - by destruct e.
Qed.

Lemma pure_read_find_product wanted :
  pure_read (try_except (p ← Product_get_available wanted; mret (Some p))
               (λ e, match e with
                     | DoesNotExist => mret None
                     | _ => raise e
                     end)).
Proof.
  apply pure_read_try_except.
  - apply pure_read_bind; [apply pure_read_Product_get_available|].
    intros p. apply pure_read_ret.
  - intros []; apply pure_read_ret || apply pure_read_raise.
Qed.

Ltac frame := intros; cbv beta in *; tauto.

Lemma preserves_CartViewSet_add_item b u pk data :
  preserves b (CartViewSet_add_item u pk data).
Proof.
  unfold preserves, CartViewSet_add_item.
  eapply hoare_bind_pure; [apply pure_read_CartViewSet_get_object|done|].
  intros c.
  destruct (CartItemCreateSerializer_is_valid data) as [errors|validated];
    [apply hoare_ret; frame|].
  eapply hoare_bind_pure; [apply pure_read_getitem|frame|]. intros wanted.
  eapply hoare_bind_pure; [apply pure_read_getitem|frame|].
  intros requested.
  eapply hoare_bind_pure; [apply pure_read_find_product|frame|].
  intros [p|]; [|apply hoare_ret; frame].
  eapply hoare_bind.
  { eapply hoare_conseq;
      [apply (hoare_CartItem_get_or_create b pk wanted requested)
      | |done|done].
    intros s ((((Hs & Hget) & _) & _) & Hfound). split; [done|].
    apply CartViewSet_get_object_Ok in Hget.
    apply find_product_Ok in Hfound as [Hfound _]. eauto. }
  intros [[k it] created].
  eapply (hoare_bind _ _ _ (λ _, cart_inv b)).
  { destruct created; [apply hoare_ret; frame|apply hoare_merge_quantity]. }
  intros []. apply preserves_render_cart.
Qed.

Lemma preserves_CartViewSet_clear u pk :
  preserves false (CartViewSet_clear u pk).
Proof.
  unfold CartViewSet_clear.
  apply preserves_bind;
    [apply preserves_pure, pure_read_CartViewSet_get_object|].
  intros c.
  apply preserves_bind; [apply preserves_Cart_items_all_delete|].
  intros []. apply preserves_render_cart.
Qed.

Lemma preserves_CartViewSet_summary b u pk :
  preserves b (CartViewSet_summary u pk).
Proof.
  unfold CartViewSet_summary.
  apply preserves_bind;
    [apply preserves_pure, pure_read_CartViewSet_get_object|].
  intros c.
  apply preserves_bind; [apply preserves_Cart_total_items|]. intros ti.
  apply preserves_bind; [apply preserves_Cart_total_price|]. intros tp.
  apply preserves_bind; [apply preserves_pure, pure_read_Cart_items_all|].
  intros rows. apply preserves_ret.
Qed.

Lemma hoare_perform_update b pk it validated :
  hoare (λ s, cart_inv b s ∧ items s !! pk = Some it)
    (CartItemViewSet_perform_update pk it validated)
    (λ _, cart_inv b) (λ _, cart_inv b).
Proof.
  unfold CartItemViewSet_perform_update.
  destruct (_ <? 1).
  - eapply (hoare_bind _ _ _ (λ _, cart_inv b));
      [|intros []; by apply hoare_ret].
    eapply hoare_conseq; [apply (hoare_CartItem_delete b)| |done|done].
    intros s [Hs Hit]. split; [done|]. intros old Hold. congruence.
  - eapply (hoare_bind _ _ _ (λ _, cart_inv b));
      [|intros []; by apply hoare_ret].
    eapply hoare_conseq; [apply (hoare_CartItem_save b)| |done|done].
    intros s [Hs Hit]. split; [done|]. by apply (writable_update b).
Qed.

Lemma preserves_CartItemViewSet_update b u pk partial data :
  preserves b (CartItemViewSet_update u pk partial data).
Proof.
  unfold preserves, CartItemViewSet_update.
  eapply hoare_bind_pure;
    [apply pure_read_CartItemViewSet_get_object|done|].
  intros it.
  destruct (CartItemSerializer_is_valid partial data) as [errors|validated];
    [apply hoare_ret; frame|].
  eapply hoare_bind.
  { eapply hoare_conseq; [apply (hoare_perform_update b pk it)| |done|done].
    intros s [Hs Hget]. split; [done|].
    by eapply CartItemViewSet_get_object_Ok. }
  intros [pk' it']. apply preserves_render_item.
Qed.

Lemma preserves_CartItemViewSet_increment b u pk :
  preserves b (CartItemViewSet_increment u pk).
Proof.
  unfold preserves, CartItemViewSet_increment.
  eapply hoare_bind_pure;
    [apply pure_read_CartItemViewSet_get_object|done|].
  intros it. rewrite increment_quantity.
  eapply (hoare_bind _ _ _ (λ _, cart_inv b));
    [|intros []; apply preserves_render_item].
  eapply hoare_conseq; [apply (hoare_CartItem_save b)| |done|done].
  intros s [Hs Hget]. split; [done|].
  apply (writable_update b); [done|]. by eapply CartItemViewSet_get_object_Ok.
Qed.

Lemma preserves_CartItemViewSet_decrement b u pk :
  preserves b (CartItemViewSet_decrement u pk).
Proof.
  unfold preserves, CartItemViewSet_decrement.
  eapply hoare_bind_pure;
    [apply pure_read_CartItemViewSet_get_object|done|].
  intros it. cbv zeta.
  destruct (_ <? 1).
  - eapply (hoare_bind _ _ _ (λ _, cart_inv b));
      [|intros []; by apply hoare_ret].
    eapply hoare_conseq; [apply (hoare_CartItem_delete b)| |done|done].
    intros s [Hs Hget]. split; [done|]. intros old Hold.
    apply CartItemViewSet_get_object_Ok in Hget. simpl. congruence.
  - eapply (hoare_bind _ _ _ (λ _, cart_inv b));
      [|intros []; apply preserves_render_item].
    eapply hoare_conseq; [apply (hoare_CartItem_save b)| |done|done].
    intros s [Hs Hget]. split; [done|].
    apply (writable_update b); [done|].
    by eapply CartItemViewSet_get_object_Ok.
Qed.

Lemma hoare_JsonResponse (P : Store → Prop) arguments Q R :
  (∀ s, P s → R NameError s) → hoare P (JsonResponse arguments) Q R.
Proof. apply hoare_raise. Qed.

Lemma preserves_add_to_cart b request wanted :
  preserves b (add_to_cart request wanted).
Proof.
  unfold preserves, add_to_cart.
  eapply (hoare_try_except _ _ _ _ (λ _, cart_inv b));
    [|intros []; by apply hoare_JsonResponse].
  unfold add_to_cart_try.
  destruct (body_is_empty (request_body request));
    [by apply hoare_JsonResponse|].
  eapply hoare_bind_pure; [apply pure_read_json_loads|done|]. intros data.
  eapply hoare_bind_pure; [apply pure_read_int_quantity|frame|].
  intros requested.
  destruct (requested <? 1); [apply hoare_JsonResponse; frame|].
  destruct (99 <? requested); [apply hoare_JsonResponse; frame|].
  eapply hoare_bind_pure; [apply pure_read_get_product_or_404|frame|].
  intros p.
  eapply hoare_bind.
  { eapply hoare_conseq;
      [apply (hoare_CartMixin_get_cart b request
                (λ ps, is_Some (ps !! wanted)))| |done|done].
    intros s (((Hs & _) & _) & Hget). split; [done|].
    apply get_product_or_404_Ok in Hget as [Hget _]. eauto. }
  intros c.
  eapply hoare_bind.
  { eapply hoare_conseq;
      [apply (hoare_CartItem_get_or_create b c wanted requested)
      | |done|done].
    intros s (Hs & Hp & Hc). done. }
  intros [[k it] created].
  eapply (hoare_bind _ _ _ (λ _, cart_inv b)).
  { destruct created; [apply hoare_ret; frame|apply hoare_merge_quantity]. }
  intros [].
  apply preserves_bind; [apply preserves_cache_delete|]. intros [].
  by apply hoare_JsonResponse.
Qed.

Lemma preserves_update_cart_item b request item_id :
  preserves b (update_cart_item request item_id).
Proof.
  unfold preserves, update_cart_item.
  eapply (hoare_try_except _ _ _ _ (λ _, cart_inv b));
    [|intros []; by apply hoare_JsonResponse].
  unfold update_cart_item_try.
  eapply hoare_bind_pure; [apply pure_read_json_loads|done|]. intros data.
  eapply hoare_bind_pure; [apply pure_read_int_quantity|frame|].
  intros requested.
  destruct (requested <? 1); [apply hoare_JsonResponse; frame|].
  destruct (99 <? requested); [apply hoare_JsonResponse; frame|].
  eapply hoare_bind_pure; [apply pure_read_get_cart_item_or_404|frame|].
  intros it. cbv zeta.
  eapply (hoare_bind _ _ _ (λ _, cart_inv b)).
  { eapply hoare_conseq; [apply (hoare_CartItem_save b)| |done|done].
    intros s (((Hs & _) & _) & Hget). split; [done|].
    apply (writable_update b); [done|]. by eapply get_cart_item_or_404_Ok. }
  intros [].
  apply preserves_bind; [apply preserves_pure, pure_read_CartItem_cart|].
  intros c.
  apply preserves_bind; [apply preserves_cache_delete|]. intros [].
  by apply hoare_JsonResponse.
Qed.

Lemma preserves_remove_cart_item b request item_id :
  preserves b (remove_cart_item request item_id).
Proof.
  unfold preserves, remove_cart_item.
  eapply (hoare_try_except _ _ _ _ (λ _, cart_inv b));
    [|intros e; by apply hoare_JsonResponse].
  eapply hoare_bind_pure; [apply pure_read_get_cart_item_or_404|done|].
  intros it.
  eapply hoare_bind_pure; [apply pure_read_CartItem_cart|frame|].
  intros c.
  eapply (hoare_bind _ _ _ (λ _, cart_inv b)).
  { eapply hoare_conseq; [apply (hoare_CartItem_delete b)| |done|done].
    intros s ((Hs & Hget) & _). split; [done|]. intros old Hold.
    apply get_cart_item_or_404_Ok in Hget. congruence. }
  intros [].
  apply preserves_bind; [apply preserves_cache_delete|]. intros [].
  by apply hoare_JsonResponse.
Qed.

Lemma preserves_clear_cart request : preserves false (clear_cart request).
Proof.
  unfold preserves, clear_cart.
  eapply (hoare_try_except _ _ _ _ (λ _, cart_inv false));
    [|intros e; by apply hoare_JsonResponse].
  eapply (hoare_bind _ _ _ (λ _, cart_inv false)).
  { eapply hoare_conseq;
      [apply (hoare_CartMixin_get_cart false request (λ _, True))
      |done|by intros c s [Hs _]|done]. }
  intros c.
  apply preserves_bind; [apply preserves_Cart_items_all_delete|]. intros [].
  apply preserves_bind; [apply preserves_cache_delete|]. intros [].
  by apply hoare_JsonResponse.
Qed.

Lemma step_cart_inv b op s :
  (b = true → clears op = false) →
  cart_inv b s → cart_inv b (step op s).2.
Proof.
  intros Hop Hs. destruct op as [throttled u call|request call]; simpl.
  - unfold dispatch.
    destruct (bool_decide (u = None) && negb (safe_method call)); [done|].
    destruct throttled; [done|].
    rewrite handle_exception_store. apply preserves_store; [|done].
    destruct call; simpl.
    + apply preserves_CartViewSet_add_item.
    + destruct b; [by specialize (Hop eq_refl)|].
      apply preserves_CartViewSet_clear.
    + apply preserves_CartViewSet_summary.
    + apply preserves_CartItemViewSet_update.
    + apply preserves_CartItemViewSet_increment.
    + apply preserves_CartItemViewSet_decrement.
  - unfold site. rewrite handle_exception_store.
    apply preserves_store; [|done].
    destruct call; simpl.
    + apply preserves_add_to_cart.
    + apply preserves_update_cart_item.
    + apply preserves_remove_cart_item.
    + destruct b; [by specialize (Hop eq_refl)|].
      apply preserves_clear_cart.
Qed.

Lemma run_cart_inv b ops s :
  (b = true → Forall (λ op, clears op = false) ops) →
  cart_inv b s → cart_inv b (run ops s).
Proof.
  revert s. induction ops as [|op ops IH]; intros s Hops Hs; [done|].
  simpl. apply IH.
  - intros Hb. specialize (Hops Hb). by inversion Hops.
  - apply step_cart_inv; [|done].
    intros Hb. specialize (Hops Hb). by inversion Hops.
Qed.

(** ** Integrity and coherence over sequences of operations *)

Lemma example_store_well_formed q : well_formed (store_with_quantity q).
Proof.
  unfold well_formed, carts_present, all_products_present, lines_unique.
  cbn [items carts products store_with_quantity]. repeat split.
  - intros k it [<- <-]%lookup_singleton_Some. by eexists.
  - intros k it [<- <-]%lookup_singleton_Some. by eexists.
  - intros k1 k2 it1 it2 [<- _]%lookup_singleton_Some
      [<- _]%lookup_singleton_Some. done.
Qed.

Lemma empty_cache_coherent s : cache s = ∅ → coherent s.
Proof. intros Hc id v. rewrite Hc, !lookup_empty. by split. Qed.

(** X3.  The cart operations keep the integrity of the tables: after any
    sequence of API calls and site views, run from a store whose item rows
    all point to an existing cart and an existing product and that has at
    most one row for a cart and a product, the same holds.  The views never
    leave an orphan row, and never write a second row for a cart and a
    product (what [unique_together] forbids). *)
Theorem operations_keep_integrity (ops : list Op) (s : Store) :
  well_formed s → well_formed (run ops s).
Proof.
  intros Hs.
  destruct (run_cart_inv false ops s) as [Hwf _]; [done|by split|done].
Qed.

Lemma operations_keep_integrity_witness :
  well_formed example_store
  ∧ well_formed
      (run [SiteOp example_request (AddToCart 5);
            ApiOp false (Some 7) (Decrement 3);
            ApiOp false (Some 7) (Clear 1)] example_store).
Proof.
  split; [apply example_store_well_formed|].
  apply operations_keep_integrity, example_store_well_formed.
Defined.

(** X4.  As long as no operation of the sequence is one of the two bulk
    clears ([clear] of the API, [clear_cart] of the site), the cache stays
    coherent: whatever is cached under [cart_items_<id>] and
    [cart_total_<id>] is the sum over the current rows of the cart.  Every
    other write goes through [CartItem.save] or [CartItem.delete], which
    drop both entries of the cart they touch. *)
Theorem cached_totals_stay_exact (ops : list Op) (s : Store) :
  Forall (λ op, clears op = false) ops →
  well_formed s → coherent s →
  coherent (run ops s).
Proof.
  intros Hops Hwf Hcoh.
  destruct (run_cart_inv true ops s) as [_ Hrun]; [done|by split|].
  by apply Hrun.
Qed.

Lemma cached_totals_stay_exact_witness :
  coherent
    (run [ApiOp false (Some 7) (Summary 1);
          ApiOp false (Some 7) (Increment 3);
          SiteOp example_request (AddToCart 5);
          ApiOp false (Some 7) (Summary 1)] example_store).
Proof.
  apply cached_totals_stay_exact.
  - repeat constructor.
  - apply example_store_well_formed.
  - by apply empty_cache_coherent.
Defined.

(** X5.  Hence [summary] tells the truth after any such sequence: its
    [total_items] and [total_price] are the sums over the rows the cart has
    now, and [items_count] their number. *)
Theorem summary_is_exact_without_clear (ops : list Op) (s : Store)
    (uid pk : Z) (c : Cart) :
  Forall (λ op, clears op = false) ops →
  well_formed s → coherent s →
  let s' := run ops s in
  CartViewSet_get_queryset (Some uid) s' !! pk = Some c →
  (api (Some uid) (Summary pk) s').1
  = mkResponse HTTP_200_OK
      (SummaryPayload (items_total pk s') (price_total pk s')
         (length (map_to_list (Cart_items pk s')))).
Proof.
  intros Hops Hwf Hcoh s' Hget.
  assert (cart_inv true s') as Hinv
    by (apply run_cart_inv; [done|by split]).
  rewrite (api_summary_run uid pk c s' Hget)
    by (by eapply cart_inv_products_present).
  cbn [fst]. destruct Hinv as [_ Hcoh'].
  assert (default (items_total pk s') (cache s' !! cart_items_key pk)
          = items_total pk s') as ->.
  { destruct (cache s' !! cart_items_key pk) as [v|] eqn:Hv; [|done].
    simpl. by apply (Hcoh' eq_refl pk v). }
  assert (default (price_total pk s') (cache s' !! cart_total_key pk)
          = price_total pk s') as ->.
  { destruct (cache s' !! cart_total_key pk) as [v|] eqn:Hv; [|done].
    simpl. by apply (Hcoh' eq_refl pk v). }
  done.
Qed.

Lemma summary_is_exact_without_clear_witness :
  (api (Some 7) (Summary 1)
     (run [ApiOp false (Some 7) (Summary 1);
           ApiOp false (Some 7) (Increment 3)] example_store)).1
  = mkResponse HTTP_200_OK (SummaryPayload 3 30000 1).
Proof.
  rewrite (summary_is_exact_without_clear
             [ApiOp false (Some 7) (Summary 1); ApiOp false (Some 7) (Increment 3)]
             example_store 7 1 (mkCart (Some 7) None)).
  - by vm_compute.
  - repeat constructor.
  - apply example_store_well_formed.
  - by apply empty_cache_coherent.
  - by vm_compute.
Defined.

(** ** The API and the objects of other users *)

Lemma CartViewSet_get_object_missing u pk s :
  CartViewSet_get_queryset u s !! pk = None →
  CartViewSet_get_object u pk s = (Raise Http404, s).
Proof.
  intros H. unfold CartViewSet_get_object.
  rewrite (bind_Ok get_store _ s s s) by done. by rewrite H.
Qed.

Lemma CartItemViewSet_get_object_missing u pk s :
  CartItemViewSet_get_queryset u s !! pk = None →
  CartItemViewSet_get_object u pk s = (Raise Http404, s).
Proof.
  intros H. unfold CartItemViewSet_get_object.
  rewrite (bind_Ok get_store _ s s s) by done. by rewrite H.
Qed.

Lemma api_view_not_found u call s :
  ¬ in_queryset u call s →
  handle_exception (api_view u call) s
  = (mkResponse HTTP_404_NOT_FOUND NotFoundPayload, s).
Proof.
  intros Hout. unfold handle_exception.
  destruct call as [pk data|pk|pk|pk partial data|pk|pk]; simpl in *;
    apply eq_None_not_Some in Hout.
  - unfold CartViewSet_add_item.
    by rewrite (bind_Raise _ _ _ _ _ (CartViewSet_get_object_missing _ _ _ Hout)).
  - unfold CartViewSet_clear.
    by rewrite (bind_Raise _ _ _ _ _ (CartViewSet_get_object_missing _ _ _ Hout)).
  - unfold CartViewSet_summary.
    by rewrite (bind_Raise _ _ _ _ _ (CartViewSet_get_object_missing _ _ _ Hout)).
  - unfold CartItemViewSet_update.
    by rewrite (bind_Raise _ _ _ _ _
                  (CartItemViewSet_get_object_missing _ _ _ Hout)).
  - unfold CartItemViewSet_increment.
    by rewrite (bind_Raise _ _ _ _ _
                  (CartItemViewSet_get_object_missing _ _ _ Hout)).
  - unfold CartItemViewSet_decrement.
    by rewrite (bind_Raise _ _ _ _ _
                  (CartItemViewSet_get_object_missing _ _ _ Hout)).
Qed.

(** X6.  A call of the API on a cart or an item that is not in the
    caller's queryset (it belongs to another user, to a session, or does
    not exist) is answered 404 by [get_object], whatever the data, and
    nothing is read from or written to the store. *)
Theorem api_foreign_object_not_found (uid : Z) (call : ApiCall) (s : Store) :
  ¬ in_queryset (Some uid) call s →
  api (Some uid) call s = (mkResponse HTTP_404_NOT_FOUND NotFoundPayload, s).
Proof.
  intros Hout. rewrite api_authenticated. by apply api_view_not_found.
Qed.

Lemma api_foreign_object_not_found_witness :
  api (Some 8) (Decrement 3) example_store
  = (mkResponse HTTP_404_NOT_FOUND NotFoundPayload, example_store).
Proof.
  apply api_foreign_object_not_found.
  intros [it Hit]. by vm_compute in Hit.
Defined.

Lemma owned_product_present uid pk it s :
  all_products_present s →
  CartItemViewSet_get_queryset (Some uid) s !! pk = Some it →
  is_Some (products s !! product it).
Proof.
  intros Hs [Hit _]%owned_item_lookup. by apply (Hs pk it).
Qed.

Lemma api_update_answered uid pk it partial data s :
  all_products_present s →
  CartItemViewSet_get_queryset (Some uid) s !! pk = Some it →
  answered (api (Some uid) (Update pk partial data) s).1.
Proof.
  intros Hs Hget.
  destruct (owned_product_present uid pk it s Hs Hget) as [p Hp].
  pose proof Hget as [Hit (c & Hc & _)]%owned_item_lookup.
  destruct (CartItemSerializer_is_valid partial data) as [errors|validated]
    eqn:Hvalid.
  { rewrite (api_update_rejected uid pk it partial data s errors) by done.
    right. by left. }
  rewrite api_authenticated.
  unfold handle_exception, api_view, CartItemViewSet_update.
  rewrite (bind_Ok _ _ _ _ _ (CartItemViewSet_get_object_run _ _ _ _ Hget)).
  rewrite Hvalid.
  set (q := default (quantity it) (validated_quantity validated)).
  destruct (Z.lt_ge_cases q 1) as [Hq|Hq].
  - rewrite (bind_Ok _ _ _ _ _
               (perform_update_delete pk it validated s q
                  ltac:(eauto) eq_refl Hq)).
    cbv beta iota.
    erewrite bind_Ok; [|apply CartItemSerializer_data_run; exact Hp].
    by left.
  - rewrite (bind_Ok _ _ _ _ _
               (perform_update_save pk it validated s q
                  ltac:(eauto) eq_refl Hq)).
    cbv beta iota.
    erewrite bind_Ok; [|apply CartItemSerializer_data_run; exact Hp].
    by left.
Qed.

(** X7.  When every item row points to an existing product, the calls of
    the API other than [add_item] are always answered on purpose: 200, 400
    (the data of an update was refused), 403 (an anonymous caller on an
    unsafe method), 404 (the object is not the caller's) or 429 (the rate
    of the caller is used up); no exception other than [Http404] leaves
    the view, so the response is never 500. *)
Theorem api_calls_are_answered (throttled : bool) (u : option Z)
    (call : ApiCall) (s : Store) :
  all_products_present s →
  is_add_item call = false →
  answered (dispatch throttled u call s).1.
Proof.
  intros Hs Hcall. unfold dispatch.
  destruct (bool_decide (u = None) && negb (safe_method call)) eqn:Hperm;
    [right; right; by left|].
  destruct throttled; [do 4 right; done|].
  destruct (decide (in_queryset u call s)) as [Hin|Hout].
  2:{ rewrite api_view_not_found by done. do 3 right. by left. }
  destruct u as [uid|].
  2:{ destruct call; simpl in Hin; destruct Hin as [x Hx];
        unfold CartViewSet_get_queryset, CartItemViewSet_get_queryset in Hx;
        by rewrite lookup_empty in Hx. }
  rewrite <- api_authenticated.
  destruct call as [pk data|pk|pk|pk partial data|pk|pk]; simpl in Hin;
    try discriminate; destruct Hin as [x Hget].
  - rewrite (api_clear_run uid pk x s Hget). by left.
  - rewrite (api_summary_run uid pk x s Hget); [by left|].
    intros k it [Hk _]%map_lookup_filter_Some. by apply (Hs k it).
  - by eapply api_update_answered.
  - rewrite (increment_run uid pk x s Hget).
    destruct (owned_product_present uid pk x s Hs Hget) as [p ->]. by left.
  - rewrite (decrement_run uid pk x s Hget).
    destruct (owned_product_present uid pk x s Hs Hget) as [p ->].
    destruct (_ <? 1); by left.
Qed.

Lemma api_calls_are_answered_witness :
  answered (dispatch false (Some 7)
              (Update 3 true (mkItemInput Missing Missing)) example_store).1
  ∧ answered (dispatch true (Some 7) (Increment 3) example_store).1
  ∧ status (dispatch true (Some 7) (Increment 3) example_store).1 = 429
  ∧ status (dispatch true None (Increment 3) example_store).1 = 403.
Proof.
  split; [|split; [|split]].
  - apply (api_calls_are_answered false (Some 7)
             (Update 3 true (mkItemInput Missing Missing)) example_store).
    + apply example_store_well_formed.
    + reflexivity.
  - apply (api_calls_are_answered true (Some 7) (Increment 3) example_store).
    + apply example_store_well_formed.
    + reflexivity.
  - reflexivity.
  - reflexivity.
Defined.










(** ** [CartMixin.get_cart] *)

Lemma map_to_list_one {A} (m : gmap Z A) k a :
  map_to_list m = [(k, a)] → m = {[ k := a ]}.
Proof.
  intros Hl. rewrite <- (list_to_map_to_list m), Hl. simpl.
  by rewrite insert_empty.
Qed.

Lemma bind_Ok_inv {A B} (m : M A) (f : A → M B) s b s' :
  (m ≫= f) s = (Ok b, s') →
  ∃ a s1, m s = (Ok a, s1) ∧ f a s1 = (Ok b, s').
Proof.
  unfold mbind, M_bind. destruct (m s) as [[a|e] s1]; [eauto|done].
Qed.

Lemma Cart_get_or_create_twice (P : Z * Cart → Prop)
    `{∀ kv, Decision (P kv)} new s pk created s' :
  (∀ k, P (k, new)) →
  Cart_get_or_create P new s = (Ok (pk, created), s') →
  Cart_get_or_create P new s' = (Ok (pk, false), s')
  ∧ items s' = items s ∧ products s' = products s ∧ cache s' = cache s
  ∧ (if created then filter P (carts s) = ∅ ∧ carts s !! pk = None
                     ∧ carts s' = <[pk := new]> (carts s)
     else s' = s).
Proof.
  intros Hnew. unfold Cart_get_or_create at 1.
  rewrite (bind_Ok get_store _ s s s) by done.
  destruct (map_to_list (filter P (carts s))) as [|[k c] [|kv rest]] eqn:Hl.
  - unfold Cart_create.
    rewrite (bind_Ok _ _ s (next_pk (carts s))
               (set_carts (<[next_pk (carts s) := new]>) s)) by done.
    intros [= <- <- <-]. apply map_to_list_empty_iff in Hl.
    split; [|by repeat split; try apply next_pk_fresh].
    apply Cart_get_or_create_found. exists new. cbn [carts set_carts].
    rewrite map_filter_insert_True by apply Hnew.
    rewrite Hl, insert_empty. apply map_to_list_singleton.
  - intros [= <- <- <-]. split; [|done].
    apply Cart_get_or_create_found. by exists c.
  - done.
Qed.

Lemma CartMixin_get_cart_found request s c s1 :
  CartMixin_get_cart request s = (Ok c, s1) →
  has_cart request s1 c ∧ items s1 = items s.
Proof.
  unfold has_cart, CartMixin_get_cart.
  destruct (request_user request) as [uid|].
  - intros ([c' created] & s' & Hfirst & [= <- <-])%bind_Ok_inv.
    apply Cart_get_or_create_twice in Hfirst as (Hsecond & Hi & _); [|done].
    by rewrite (bind_Ok _ _ _ _ _ Hsecond).
  - intros ([c' created] & s' & Hfirst & [= <- <-])%bind_Ok_inv.
    apply Cart_get_or_create_twice in Hfirst as (Hsecond & Hi & _); [|done].
    by rewrite (bind_Ok _ _ _ _ _ Hsecond).
Qed.

(** X9.  [CartMixin.get_cart] is a get-or-create: when it returns the cart
    [pk], a second call for the same caller returns [pk] again and leaves
    the store as the first call left it.  The first call writes nothing
    but, at most, one new cart row: either the store is unchanged, or [pk]
    is a fresh key of the cart table; items, products and the cache are
    untouched. *)
Theorem get_cart_twice_gives_same_cart (request : HttpRequest) (s s' : Store)
    (pk : Z) :
  CartMixin_get_cart request s = (Ok pk, s') →
  CartMixin_get_cart request s' = (Ok pk, s')
  ∧ items s' = items s ∧ products s' = products s ∧ cache s' = cache s
  ∧ (s' = s ∨ (carts s !! pk = None ∧ caller_carts request s = ∅
               ∧ ∃ c, carts s' = <[pk := c]> (carts s))).
Proof.
  unfold CartMixin_get_cart, caller_carts, caller_session.
  destruct (request_user request) as [uid|].
  - intros ([c created] & s1 & Hfirst & [= <- <-])%bind_Ok_inv.
    apply Cart_get_or_create_twice in Hfirst
      as (Hsecond & Hi & Hp & Hc & Hcreated); [|done].
    split; [by rewrite (bind_Ok _ _ _ _ _ Hsecond)|].
    repeat (split; [done|]).
    destruct created; [right|by left].
    destruct Hcreated as (? & ? & ?). eauto.
  - intros ([c created] & s1 & Hfirst & [= <- <-])%bind_Ok_inv.
    apply Cart_get_or_create_twice in Hfirst
      as (Hsecond & Hi & Hp & Hc & Hcreated); [|done].
    split; [by rewrite (bind_Ok _ _ _ _ _ Hsecond)|].
    repeat (split; [done|]).
    destruct created; [right|by left].
    destruct Hcreated as (? & ? & ?). eauto.
Qed.

Lemma get_cart_twice_gives_same_cart_witness :
  (CartMixin_get_cart example_guest example_store).1 = Ok 2
  ∧ CartMixin_get_cart example_guest
      (CartMixin_get_cart example_guest example_store).2
    = (Ok 2, (CartMixin_get_cart example_guest example_store).2).
Proof.
  split; [by vm_compute|].
  apply (get_cart_twice_gives_same_cart example_guest example_store).
  by vm_compute.
Defined.

(** ** The responses of the site *)

Lemma hoare_trivial {A} (P : Store → Prop) (m : M A) :
  hoare P m (λ _ _, True) (λ _ _, True).
Proof. intros s _. by destruct (m s) as [[a|e] s1]. Qed.

(** No path through a view of the site returns: every [return] of the
    [try] block and of the [except] clauses calls [JsonResponse], so the
    exception that leaves the view is always [NameError]. *)
Lemma site_view_fails request call :
  hoare (λ _, True) (site_view request call)
    (λ _ _, False) (λ e _, e = NameError).
Proof.
  destruct call as [wanted|item_id|item_id|]; cbn [site_view].
  - unfold add_to_cart.
    eapply (hoare_try_except _ _ _ _ (λ _ _, True));
      [|intros []; by apply hoare_JsonResponse].
    unfold add_to_cart_try.
    destruct (body_is_empty (request_body request));
      [by apply hoare_JsonResponse|].
    eapply hoare_bind; [apply hoare_trivial|]. intros data.
    eapply hoare_bind; [apply hoare_trivial|]. intros requested.
    destruct (requested <? 1); [by apply hoare_JsonResponse|].
    destruct (99 <? requested); [by apply hoare_JsonResponse|].
    eapply hoare_bind; [apply hoare_trivial|]. intros p.
    eapply hoare_bind; [apply hoare_trivial|]. intros c.
    eapply hoare_bind; [apply hoare_trivial|]. intros [[k it] created].
    eapply hoare_bind; [apply hoare_trivial|]. intros [].
    eapply hoare_bind; [apply hoare_trivial|]. intros [].
    by apply hoare_JsonResponse.
  - unfold update_cart_item.
    eapply (hoare_try_except _ _ _ _ (λ _ _, True));
      [|intros []; by apply hoare_JsonResponse].
    unfold update_cart_item_try.
    eapply hoare_bind; [apply hoare_trivial|]. intros data.
    eapply hoare_bind; [apply hoare_trivial|]. intros requested.
    destruct (requested <? 1); [by apply hoare_JsonResponse|].
    destruct (99 <? requested); [by apply hoare_JsonResponse|].
    eapply hoare_bind; [apply hoare_trivial|]. intros it. cbv zeta.
    eapply hoare_bind; [apply hoare_trivial|]. intros [].
    eapply hoare_bind; [apply hoare_trivial|]. intros c.
    eapply hoare_bind; [apply hoare_trivial|]. intros [].
    by apply hoare_JsonResponse.
  - unfold remove_cart_item.
    eapply (hoare_try_except _ _ _ _ (λ _ _, True));
      [|intros e; by apply hoare_JsonResponse].
    eapply hoare_bind; [apply hoare_trivial|]. intros it.
    eapply hoare_bind; [apply hoare_trivial|]. intros c.
    eapply hoare_bind; [apply hoare_trivial|]. intros [].
    eapply hoare_bind; [apply hoare_trivial|]. intros [].
    by apply hoare_JsonResponse.
  - unfold clear_cart.
    eapply (hoare_try_except _ _ _ _ (λ _ _, True));
      [|intros e; by apply hoare_JsonResponse].
    eapply hoare_bind; [apply hoare_trivial|]. intros c.
    eapply hoare_bind; [apply hoare_trivial|]. intros [].
    eapply hoare_bind; [apply hoare_trivial|]. intros [].
    by apply hoare_JsonResponse.
Qed.

(** A body that the guards of [add_to_cart] and [update_cart_item] refuse
    stops the view before anything is read from or written to the
    store. *)
Lemma site_rejected_body_store request call s :
  reads_quantity call = true →
  rejected_body (request_body request) →
  (site_view request call s).2 = s.
Proof.
  intros Hcall Hbody.
  destruct call as [wanted|item_id| |]; try discriminate;
    cbn [site_view];
    unfold add_to_cart, update_cart_item, try_except, add_to_cart_try,
      update_cart_item_try;
    destruct (request_body request) as [| | |[[q| |]|]];
    cbn [rejected_body] in Hbody; try done;
    cbn [body_is_empty json_loads];
    rewrite (bind_Ok (mret _) _ s (Some (IntOf q)) s) by done;
    rewrite (bind_Ok (int_quantity _) _ s q s) by done;
    destruct (Z.ltb_spec q 1); [done| |done|];
    (destruct (Z.ltb_spec 99 q); [done|lia]).
Qed.

(** X10.  Every request to [add_to_cart], [update_cart_item],
    [remove_cart_item] and [clear_cart] is answered 500, whatever the
    caller, the body and the store: the views build each of their
    responses, the 400 of a refused body included, with [JsonResponse],
    which [main/views.py] does not import.  A body that the guards refuse
    (no body, a body that is no JSON, a quantity that [int()] refuses with
    [ValueError], an integer below 1 or above 99) still leaves the store as
    it was. *)
Theorem site_views_always_answer_500 (request : HttpRequest)
    (call : SiteCall) (s : Store) :
  let out := site request call s in
  out.1 = mkResponse HTTP_500_INTERNAL_SERVER_ERROR ServerErrorPayload
  ∧ (reads_quantity call = true →
     rejected_body (request_body request) →
     out.2 = s).
Proof.
  intros out. subst out. split.
  - pose proof (site_view_fails request call s I) as Hrun.
    unfold site, handle_exception.
    destruct (site_view request call s) as [[r|e] s1]; [done|by subst e].
  - intros Hcall Hbody. unfold site. rewrite handle_exception_store.
    by apply site_rejected_body_store.
Qed.

Lemma site_views_always_answer_500_witness :
  site (with_body MalformedBody example_request) (AddToCart 5) example_store
  = (mkResponse 500 ServerErrorPayload, example_store)
  ∧ site (with_quantity 0 example_request) (UpdateCartItem 3) example_store
    = (mkResponse 500 ServerErrorPayload, example_store)
  ∧ (site example_request (AddToCart 5) example_store).1
    = mkResponse 500 ServerErrorPayload
  ∧ items (site example_request (AddToCart 5) example_store).2 !! 3
    = Some (mkCartItem 1 5 3).
Proof.
  destruct (site_views_always_answer_500
              (with_body MalformedBody example_request) (AddToCart 5)
              example_store) as [Hstatus Hstore].
  destruct (site_views_always_answer_500
              (with_quantity 0 example_request) (UpdateCartItem 3)
              example_store) as [Hstatus' Hstore'].
  split; [|split; [|split]].
  - apply injective_projections; [exact Hstatus|exact (Hstore eq_refl I)].
  - apply injective_projections; [exact Hstatus'|].
    apply (Hstore' eq_refl). cbn. lia.
  - exact (proj1 (site_views_always_answer_500 example_request (AddToCart 5)
                    example_store)).
  - by vm_compute.
Defined.

(** ** [increment] and [decrement] one after the other *)

Lemma decrement_store uid pk it s :
  CartItemViewSet_get_queryset (Some uid) s !! pk = Some it →
  (api (Some uid) (Decrement pk) s).2 =
    mkStore (products s) (carts s)
      (if quantity it - 1 <? 1 then delete pk (items s)
       else <[pk := set_quantity (quantity it - 1) it]> (items s))
      (invalidate (cart it) (cache s)).
Proof.
  intros Hget. rewrite (decrement_run uid pk it s Hget).
  destruct (_ <? 1); [done|]. by destruct (products s !! product it).
Qed.

Lemma set_quantity_twice q q' it :
  set_quantity q (set_quantity q' it) = set_quantity q it.
Proof. reflexivity. Qed.

Lemma set_quantity_same it : set_quantity (quantity it) it = it.
Proof. by destruct it. Qed.

Lemma owned_after_write uid pk it it' s s' :
  CartItemViewSet_get_queryset (Some uid) s !! pk = Some it →
  carts s' = carts s → cart it' = cart it → items s' !! pk = Some it' →
  CartItemViewSet_get_queryset (Some uid) s' !! pk = Some it'.
Proof.
  intros [_ (c & Hc & Hu)]%owned_item_lookup Hcarts Hcart Hit.
  apply owned_item_lookup. split; [done|]. exists c.
  by rewrite Hcarts, Hcart.
Qed.

(** X11.  [decrement] undoes [increment] and [increment] undoes
    [decrement], away from the two bounds: for an item of the caller with a
    quantity from 1 to 98, incrementing and then decrementing leaves the
    item table as it was, and for a quantity from 2 to 99 so does
    decrementing and then incrementing.  At the bounds they do not: at 99
    the increment is clamped, so the pair ends at 98; at 1 the decrement
    deletes the row, and the increment that follows finds nothing. *)
Theorem increment_and_decrement_cancel (uid pk : Z) (it : CartItem)
    (s : Store) :
  CartItemViewSet_get_queryset (Some uid) s !! pk = Some it →
  let up := (api (Some uid) (Increment pk) s).2 in
  let up_down := (api (Some uid) (Decrement pk) up).2 in
  let down := (api (Some uid) (Decrement pk) s).2 in
  let down_up := api (Some uid) (Increment pk) down in
  (1 ≤ quantity it ≤ 98 → items up_down = items s)
  ∧ (2 ≤ quantity it ≤ 99 → items down_up.2 = items s)
  ∧ (quantity it = 99 → items up_down = <[pk := set_quantity 98 it]> (items s))
  ∧ (quantity it = 1 →
       down_up = (mkResponse HTTP_404_NOT_FOUND NotFoundPayload, down)
       ∧ items down = delete pk (items s)).
Proof.
  intros Hget up up_down down down_up.
  pose proof Hget as [Hit _]%owned_item_lookup.
  assert (up = mkStore (products s) (carts s)
                 (<[pk := set_quantity (Z.min (quantity it + 1) 99) it]>
                    (items s))
                 (invalidate (cart it) (cache s))) as Hup
    by (by apply increment_store).
  assert (down = mkStore (products s) (carts s)
                   (if quantity it - 1 <? 1 then delete pk (items s)
                    else <[pk := set_quantity (quantity it - 1) it]> (items s))
                   (invalidate (cart it) (cache s))) as Hdown
    by (by apply decrement_store).
  assert (CartItemViewSet_get_queryset (Some uid) up !! pk
          = Some (set_quantity (Z.min (quantity it + 1) 99) it)) as Hget_up.
  { apply (owned_after_write uid pk it _ s);
      [done|by rewrite Hup|done|].
    rewrite Hup. apply lookup_insert_eq. }
  assert (items up_down =
            if Z.min (quantity it + 1) 99 - 1 <? 1 then delete pk (items up)
            else <[pk := set_quantity (Z.min (quantity it + 1) 99 - 1) it]>
                   (items s)) as Hup_down.
  { unfold up_down. rewrite (decrement_store uid pk _ up Hget_up).
    cbn [items]. rewrite set_quantity_twice.
    change (quantity (set_quantity ?q it)) with q.
    destruct (Z.min (quantity it + 1) 99 - 1 <? 1); [done|].
    rewrite Hup. cbn [items]. by rewrite insert_insert_eq. }
  assert (∀ q, quantity it = q → set_quantity q it = it) as Hsame
    by (intros q <-; apply set_quantity_same).
  split; [|split; [|split]].
  - intros Hq. rewrite Hup_down.
    destruct (Z.ltb_spec (Z.min (quantity it + 1) 99 - 1) 1); [lia|].
    rewrite Hsame by lia. by apply insert_id.
  - intros Hq. unfold down_up.
    assert ((quantity it - 1 <? 1) = false) as Hlt by (apply Z.ltb_ge; lia).
    rewrite Hlt in Hdown.
    assert (CartItemViewSet_get_queryset (Some uid) down !! pk
            = Some (set_quantity (quantity it - 1) it)) as Hget_down.
    { apply (owned_after_write uid pk it _ s);
        [done|by rewrite Hdown|done|].
      rewrite Hdown. apply lookup_insert_eq. }
    rewrite (increment_store uid pk _ down Hget_down).
    cbn [items]. rewrite set_quantity_twice.
    change (quantity (set_quantity ?q it)) with q.
    rewrite Hdown. cbn [items]. rewrite insert_insert_eq.
    rewrite Hsame by lia. by apply insert_id.
  - intros Hq. rewrite Hup_down.
    destruct (Z.ltb_spec (Z.min (quantity it + 1) 99 - 1) 1); [lia|].
    do 2 f_equal. lia.
  - intros Hq.
    assert ((quantity it - 1 <? 1) = true) as Hlt by (apply Z.ltb_lt; lia).
    rewrite Hlt in Hdown. split; [|by rewrite Hdown].
    unfold down_up. rewrite api_authenticated. apply api_view_not_found.
    intros [x [Hx _]%owned_item_lookup]. rewrite Hdown in Hx.
    cbn [items] in Hx. by rewrite lookup_delete_eq in Hx.
Qed.

Lemma increment_and_decrement_cancel_witness :
  items (api (Some 7) (Decrement 3)
           (api (Some 7) (Increment 3) example_store).2).2
  = items example_store.
Proof.
  assert (CartItemViewSet_get_queryset (Some 7) example_store !! 3
          = Some (mkCartItem 1 5 2)) as Hget by (by vm_compute).
  destruct (increment_and_decrement_cancel 7 3 (mkCartItem 1 5 2)
              example_store Hget) as [Hround _].
  apply Hround. simpl. lia.
Defined.

(** * [BaseAPIView.get_paginated_response] *)

Lemma take_min_length {A} (l : list A) (a : nat) :
  take (a `min` length l) l = take a l.
Proof.
  destruct (le_lt_dec a (length l)).
  - by rewrite Nat.min_l.
  - rewrite Nat.min_r, !take_ge by lia. done.
Qed.

Lemma py_slice_page {A} (data : list A) (page_size : Z) (i : nat) :
  0 < page_size →
  py_slice data (Z.of_nat i * page_size) (Z.of_nat i * page_size + page_size)
  = take (Z.to_nat page_size) (drop (i * Z.to_nat page_size) data).
Proof.
  intros Hps. unfold py_slice, slice_index.
  set (n := length data).
  destruct (Z.ltb_spec (Z.of_nat i * page_size) 0); [nia|].
  destruct (Z.ltb_spec (Z.of_nat i * page_size + page_size) 0); [nia|].
  destruct (decide (Z.of_nat i * page_size ≤ Z.of_nat n)) as [Hin|Hout].
  - replace (Z.to_nat (Z.min (Z.of_nat i * page_size) (Z.of_nat n)))
      with (i * Z.to_nat page_size)%nat by nia.
    rewrite <- (take_min_length (drop _ data) (Z.to_nat page_size)).
    rewrite <- (take_min_length (drop _ data) (Z.to_nat (_ - _))).
    f_equal. rewrite length_drop. fold n. nia.
  - replace (Z.to_nat (Z.min (Z.of_nat i * page_size) (Z.of_nat n)))
      with n by nia.
    rewrite !drop_ge by (fold n; nia). by rewrite !take_nil.
Qed.

Lemma page_results_take {A} (data : list A) (page_size : Z) (i : nat) :
  0 < page_size →
  page_results data page_size (Z.of_nat (S i))
  = take (Z.to_nat page_size) (drop (i * Z.to_nat page_size) data).
Proof.
  intros Hps. unfold page_results, BaseAPIView_get_paginated_response.
  destruct (Z.eqb_spec page_size 0); [lia|]. simpl from_option.
  replace (Z.of_nat (S i) - 1) with (Z.of_nat i) by lia.
  by apply py_slice_page.
Qed.

Lemma pages_up_to {A} (data : list A) (page_size : Z) (k : nat) :
  0 < page_size →
  concat ((λ i, page_results data page_size (Z.of_nat i)) <$> seq 1 k)
  = take (k * Z.to_nat page_size) data.
Proof.
  intros Hps. induction k as [|k IH]; [done|].
  rewrite seq_S, fmap_app, concat_app, IH. simpl.
  rewrite app_nil_r, page_results_take by done.
  rewrite take_take_drop. f_equal. lia.
Qed.

Lemma total_pages_cover (n page_size : Z) :
  0 < page_size → 0 ≤ n →
  let pages := (n + page_size - 1) / page_size in
  (pages - 1) * page_size < n ≤ pages * page_size.
Proof.
  intros Hps Hn pages.
  pose proof (Z.div_mod (n + page_size - 1) page_size ltac:(lia)) as Hdiv.
  pose proof (Z.mod_pos_bound (n + page_size - 1) page_size Hps) as Hmod.
  fold pages in Hdiv. nia.
Qed.

(** X12.  With a positive page size, the pages [1 .. total_pages] of
    [get_paginated_response] partition the data: their results, one after
    the other, are the data itself, nothing lost, nothing twice. *)
Theorem pages_partition_the_data {A} (data : list A) (page_size : Z) :
  0 < page_size →
  concat (all_pages data page_size) = data.
Proof.
  intros Hps. unfold all_pages. rewrite pages_up_to by done.
  apply take_ge.
  pose proof (total_pages_cover (Z.of_nat (length data)) page_size Hps
                ltac:(lia)) as Hcover. cbv zeta in Hcover.
  nia.
Qed.

Lemma pages_partition_the_data_witness :
  all_pages [10; 20; 30; 40; 50] 2 = [[10; 20]; [30; 40]; [50]]
  ∧ concat (all_pages [10; 20; 30; 40; 50] 2) = [10; 20; 30; 40; 50].
Proof.
  split; [by vm_compute|].
  apply (pages_partition_the_data [10; 20; 30; 40; 50] 2). lia.
Defined.

Lemma paginated_response_Some {A} (data : list A) (page page_size : Z) r :
  BaseAPIView_get_paginated_response data page page_size = Some r →
  page_size ≠ 0
  ∧ results r = page_results data page_size page
  ∧ total_pages (pagination r)
    = (Z.of_nat (length data) + page_size - 1) / page_size
  ∧ has_next (pagination r) = (page * page_size <? Z.of_nat (length data))
  ∧ has_previous (pagination r) = (1 <? page).
Proof.
  unfold page_results, BaseAPIView_get_paginated_response.
  destruct (Z.eqb_spec page_size 0); [done|]. intros [= <-]. simpl.
  repeat split; [done|]. f_equal. lia.
Qed.

(** X13.  With a positive page size and a page number from 1 on, the
    response of [get_paginated_response] is consistent: the page holds at
    most [page_size] results; [has_next] is set exactly when the page
    number is below [total_pages], and then the page is full; a page
    beyond [total_pages] is empty. *)
Theorem paginated_response_is_consistent {A} (data : list A)
    (page page_size : Z) (r : PaginatedData A) :
  0 < page_size → 1 ≤ page →
  BaseAPIView_get_paginated_response data page page_size = Some r →
  Z.of_nat (length (results r)) ≤ page_size
  ∧ (has_next (pagination r) = true ↔ page < total_pages (pagination r))
  ∧ (has_next (pagination r) = true →
       Z.of_nat (length (results r)) = page_size)
  ∧ (total_pages (pagination r) < page → results r = []).
Proof.
  intros Hps Hpage (_ & Hresults & Htotal & Hnext & _)%paginated_response_Some.
  pose proof (total_pages_cover (Z.of_nat (length data)) page_size Hps
                ltac:(lia)) as Hcover. cbv zeta in Hcover.
  rewrite <- Htotal in Hcover.
  set (i := Z.to_nat (page - 1)).
  assert (Z.of_nat i = page - 1) as Hi by lia.
  assert (results r
          = take (Z.to_nat page_size) (drop (i * Z.to_nat page_size) data))
    as Htake.
  { rewrite Hresults. replace page with (Z.of_nat (S i)) by lia.
    by apply page_results_take. }
  assert (Z.of_nat (length (results r))
          = Z.min page_size
              (Z.max (Z.of_nat (length data) - (page - 1) * page_size) 0))
    as Hlength by (rewrite Htake, length_take, length_drop; nia).
  rewrite Hnext, Z.ltb_lt. split; [lia|]. split; [nia|]. split; [nia|].
  intros Hbeyond. apply length_zero_iff_nil. nia.
Qed.

Lemma paginated_response_is_consistent_witness :
  ∃ r, BaseAPIView_get_paginated_response [10; 20; 30; 40; 50] 2 2 = Some r
       ∧ results r = [30; 40]
       ∧ (has_next (pagination r) = true ↔ 2 < total_pages (pagination r)).
Proof.
  eexists. split; [reflexivity|]. split; [reflexivity|].
  refine (proj1 (proj2 (paginated_response_is_consistent
                          [10; 20; 30; 40; 50] 2 2 _ _ _ eq_refl))); lia.
Defined.

(** X14.  Nothing keeps the page number at 1 or above, and the slice
    takes what it gets.  Page 0 is always empty, yet [has_next] is set as
    soon as there is any data; and a negative page number is read from the
    end of the data: page [-k], for [k] from 1 on, returns the [page_size]
    elements that end [k * page_size] before the end.  A page size of 0 raises
    [ZeroDivisionError]. *)
Theorem page_number_below_one {A} (data : list A) (page_size : Z) :
  0 < page_size →
  page_results data page_size 0 = []
  ∧ (∀ r, BaseAPIView_get_paginated_response data 0 page_size = Some r →
       (has_next (pagination r) = true ↔ data ≠ []))
  ∧ (∀ k : nat,
       Z.of_nat (S (S k)) * page_size ≤ Z.of_nat (length data) →
       page_results data page_size (- Z.of_nat (S k))
       = take (Z.to_nat page_size)
           (drop (length data - S (S k) * Z.to_nat page_size) data))
  ∧ (∀ page, BaseAPIView_get_paginated_response data page 0 = None).
Proof.
  intros Hps.
  assert (∀ page, page_results data page_size page
                  = py_slice data ((page - 1) * page_size)
                      ((page - 1) * page_size + page_size)) as Hslice.
  { intros page. unfold page_results, BaseAPIView_get_paginated_response.
    by destruct (Z.eqb_spec page_size 0); [lia|]. }
  split; [|split; [|split]].
  - rewrite Hslice. unfold py_slice, slice_index.
    destruct (Z.ltb_spec ((0 - 1) * page_size) 0); [|lia].
    destruct (Z.ltb_spec ((0 - 1) * page_size + page_size) 0); [lia|].
    replace (Z.to_nat _) with 0%nat by lia. done.
  - intros r (_ & _ & _ & -> & _)%paginated_response_Some.
    rewrite Z.ltb_lt. destruct data; simpl; [split; [lia|done]|].
    split; [done|lia].
  - intros k Hk. rewrite Hslice. unfold py_slice, slice_index.
    destruct (Z.ltb_spec ((- Z.of_nat (S k) - 1) * page_size) 0); [|nia].
    destruct (Z.ltb_spec ((- Z.of_nat (S k) - 1) * page_size + page_size) 0);
      [|nia].
    f_equal; [nia|]. f_equal. nia.
  - intros page. unfold BaseAPIView_get_paginated_response. done.
Qed.

Lemma page_number_below_one_witness :
  page_results [10; 20; 30; 40; 50] 2 (-1) = [20; 30].
Proof.
  destruct (page_number_below_one [10; 20; 30; 40; 50] 2 ltac:(lia))
    as (_ & _ & Hend & _).
  assert (Z.of_nat 2 * 2 ≤ Z.of_nat (length [10; 20; 30; 40; 50])) as Hfits
    by (simpl; lia).
  exact (Hend 0%nat Hfits).
Defined.

(** * [ProductSerializer.validate_name] *)

Lemma lstrip_head {char} (isspace : char → bool) value c :
  head (lstrip isspace value) = Some c → isspace c = false.
Proof.
  induction value as [|x rest IH]; simpl; [done|].
  destruct (isspace x) eqn:Hx; [done|]. by intros [= <-].
Qed.

Lemma lstrip_clean {char} (isspace : char → bool) value :
  (∀ c, head value = Some c → isspace c = false) →
  lstrip isspace value = value.
Proof.
  destruct value as [|x rest]; simpl; [done|].
  intros Hhead. by rewrite (Hhead x).
Qed.

Lemma lstrip_suffix {char} (isspace : char → bool) value :
  ∃ front, value = front ++ lstrip isspace value.
Proof.
  induction value as [|x rest [front IH]]; simpl; [by exists []|].
  destruct (isspace x); [|by exists []].
  exists (x :: front). simpl. by rewrite <- IH.
Qed.

Lemma lstrip_last {char} (isspace : char → bool) value c :
  last (lstrip isspace value) = Some c → last value = Some c.
Proof.
  destruct (lstrip_suffix isspace value) as [front Hfront].
  intros Hlast. rewrite Hfront.
  destruct (lstrip isspace value) as [|x rest] eqn:Hstripped; [done|].
  rewrite last_app. by rewrite Hlast.
Qed.

Lemma rstrip_last {char} (isspace : char → bool) value c :
  last (rstrip isspace value) = Some c → isspace c = false.
Proof.
  unfold rstrip. rewrite last_reverse. apply lstrip_head.
Qed.

Lemma rstrip_clean {char} (isspace : char → bool) value :
  (∀ c, last value = Some c → isspace c = false) →
  rstrip isspace value = value.
Proof.
  intros Hlast. unfold rstrip. rewrite lstrip_clean.
  - apply reverse_involutive.
  - intros c. rewrite head_reverse. apply Hlast.
Qed.

Lemma strip_trimmed {char} (isspace : char → bool) value :
  trimmed isspace (strip isspace value).
Proof.
  split; intros c.
  - apply lstrip_head.
  - intros Hlast%lstrip_last. by eapply rstrip_last.
Qed.

Lemma strip_of_trimmed {char} (isspace : char → bool) name :
  trimmed isspace name → strip isspace name = name.
Proof.
  intros [Hhead Hlast]. unfold strip.
  rewrite rstrip_clean by done. by apply lstrip_clean.
Qed.

(** X15.  What [validate_name] accepts is the stripped name, it has three
    characters or more, neither end of it is whitespace, and validating it
    again returns it unchanged; what it refuses is exactly the values with
    fewer than three characters left once they are stripped. *)
Theorem validated_name_is_a_fixed_point {char} (isspace : char → bool)
    (value : list char) :
  (∀ name,
     ProductSerializer_validate_name isspace value = inr name →
     name = strip isspace value
     ∧ (3 ≤ length name)%nat
     ∧ trimmed isspace name
     ∧ ProductSerializer_validate_name isspace name = inr name)
  ∧ (ProductSerializer_validate_name isspace value = inl NameTooShort
     ↔ (length (strip isspace value) < 3)%nat).
Proof.
  unfold ProductSerializer_validate_name.
  destruct (Nat.ltb_spec (length (strip isspace value)) 3) as [Hshort|Hlong].
  - split; [done|]. by split.
  - split; [|split; [done|lia]].
    intros name [= <-]. split; [done|]. split; [done|].
    split; [apply strip_trimmed|].
    rewrite (strip_of_trimmed isspace (strip isspace value))
      by apply strip_trimmed.
    by destruct (Nat.ltb_spec (length (strip isspace value)) 3); [lia|].
Qed.

Lemma validated_name_is_a_fixed_point_witness :
  ProductSerializer_validate_name ascii_isspace
    [" "; " "; "t"; "e"; "a"; " "]%char = inr ["t"; "e"; "a"]%char
  ∧ ProductSerializer_validate_name ascii_isspace ["t"; "e"; "a"]%char
    = inr ["t"; "e"; "a"]%char.
Proof.
  split; [by vm_compute|].
  destruct (validated_name_is_a_fixed_point ascii_isspace
              [" "; " "; "t"; "e"; "a"; " "]%char) as [Haccepted _].
  destruct (Haccepted ["t"; "e"; "a"]%char) as (_ & _ & _ & Hagain);
    [by vm_compute|exact Hagain].
Defined.

(** * The cart page *)

Lemma coherent_default_items id s :
  coherent s →
  default (items_total id s) (cache s !! cart_items_key id) = items_total id s.
Proof.
  intros Hs. destruct (cache s !! cart_items_key id) as [v|] eqn:Hv; [|done].
  simpl. by apply (Hs id v).
Qed.

Lemma coherent_default_total id s :
  coherent s →
  default (price_total id s) (cache s !! cart_total_key id) = price_total id s.
Proof.
  intros Hs. destruct (cache s !! cart_total_key id) as [v|] eqn:Hv; [|done].
  simpl. by apply (Hs id v).
Qed.

Lemma CartMixin_get_cart_raises request s e s' :
  CartMixin_get_cart request s = (Raise e, s') →
  e = MultipleObjectsReturned ∧ s' = s.
Proof.
  assert (∀ (P : Z * Cart → Prop) `{∀ kv, Decision (P kv)} new,
            (Cart_get_or_create P new ≫= λ '(c, created), mret c) s
            = (Raise e, s') →
            e = MultipleObjectsReturned ∧ s' = s) as Hcases.
  { intros P HP new. unfold Cart_get_or_create, mbind at 1, M_bind at 1.
    rewrite (bind_Ok get_store _ s s s) by done.
    destruct (map_to_list (filter P (carts s))) as [|[k c] [|kv rest]];
      [done|done|]. by intros [= <- <-]. }
  unfold CartMixin_get_cart. destruct (request_user request); apply Hcases.
Qed.

(** X16.  On a store with intact tables and a coherent cache, the cart
    page shows the caller's cart as it is: the rows of the cart, the sum of
    their quantities, and the sum of their prices both as subtotal and as
    total.  The only way the view fails is a caller with more than one
    cart, and then nothing was written. *)
Theorem cart_page_shows_the_cart (request : HttpRequest) (s : Store) :
  well_formed s → coherent s →
  match CartView_get_context_data request s with
  | (Ok context, s') =>
      ∃ c, has_cart request s' c
           ∧ items s' = items s
           ∧ context = mkCartContext (map_to_list (Cart_items c s'))
                         (items_total c s') (price_total c s')
                         (price_total c s')
  | (Raise e, s') => e = MultipleObjectsReturned ∧ s' = s
  end.
Proof.
  intros Hwf Hcoh. unfold CartView_get_context_data.
  destruct (CartMixin_get_cart request s) as [[c|e] s1] eqn:Hget.
  2:{ rewrite (bind_Raise _ _ _ _ _ Hget).
      by apply CartMixin_get_cart_raises in Hget. }
  rewrite (bind_Ok _ _ _ _ _ Hget).
  assert (cart_inv true s1) as Hinv1.
  { pose proof (hoare_CartMixin_get_cart true request (λ _, True) s
                  (conj (conj Hwf (λ _, Hcoh)) I)) as Hrun.
    rewrite Hget in Hrun. apply Hrun. }
  apply CartMixin_get_cart_found in Hget as (Hagain & Hitems).
  rewrite (bind_Ok _ _ _ _ _ (Cart_items_all_run c s1)).
  rewrite (bind_Ok _ _ _ _ _ (Cart_total_items_memo c s1)).
  set (s2 := set_cache (memo (cart_items_key c) (items_total c s1)) s1).
  assert (cart_inv true s2) as Hinv2.
  { pose proof (preserves_Cart_total_items true c s1 Hinv1) as Hrun.
    by rewrite Cart_total_items_memo in Hrun. }
  rewrite (bind_Ok _ _ _ _ _
             (Cart_total_price_memo c s2
                (cart_inv_products_present true c s2 Hinv2))).
  set (s3 := set_cache (memo (cart_total_key c) (price_total c s2)) s2).
  assert (cart_inv true s3) as Hinv3.
  { pose proof (preserves_Cart_total_price true c s2 Hinv2) as Hrun.
    by rewrite Cart_total_price_memo in Hrun
      by (by eapply cart_inv_products_present). }
  rewrite (bind_Ok _ _ _ _ _
             (Cart_total_price_memo c s3
                (cart_inv_products_present true c s3 Hinv3))).
  exists c. split; [by apply (has_cart_same_carts request s1)|].
  split; [done|].
  rewrite (coherent_default_items c s1) by (by apply Hinv1).
  rewrite (coherent_default_total c s2) by (by apply Hinv2).
  rewrite (coherent_default_total c s3) by (by apply Hinv3).
  done.
Qed.

Lemma cart_page_shows_the_cart_witness :
  match CartView_get_context_data example_request example_store with
  | (Ok context, s') =>
      ∃ c, has_cart example_request s' c
           ∧ items s' = items example_store
           ∧ context = mkCartContext (map_to_list (Cart_items c s'))
                         (items_total c s') (price_total c s')
                         (price_total c s')
  | (Raise e, s') => e = MultipleObjectsReturned ∧ s' = example_store
  end.
Proof.
  apply cart_page_shows_the_cart.
  - apply example_store_well_formed.
  - by apply empty_cache_coherent.
Defined.
